(** * DataBoard: the schema-driven operation engine of [app/database.py]

    A shallow embedding of [DBManager] (app/database.py) and of the HTTP
    handlers of app/main.py that call it, together with the properties of
    the engine that the specification states, and further properties of
    the engine and of the handlers that the code itself shows.

    Modelling conventions.
    - Python [str] is [string]; the character tests ([isdigit], [strip])
      are the ASCII ones, characters above 127 count neither as digits nor
      as white space.
    - A Python [dict] is an association list in insertion order; the keys
      of a well-formed dict are pairwise distinct.
    - PostgreSQL, the file system, the clock and the [pg_dump]/[pg_restore]
      programs are the environment: a [Backend] gives their answers, the
      engine is a state-passing program over a [World] that also logs every
      call the engine makes. *)

From Stdlib Require Import String Ascii List ZArith NArith Lia Bool.
From Stdlib Require Import Permutation Sorted DecimalString DecimalN DecimalZ.
Import ListNotations.
Local Open Scope list_scope.
Local Open Scope string_scope.

(* ================================================================== *)
(** * Python strings *)
(* ================================================================== *)

(** The double quote character, used to quote SQL identifiers. *)
Definition dquote : string := String (ascii_of_nat 34) EmptyString.

(** [f'"{name}"'] *)
Definition quote_ident (name : string) : string := dquote ++ name ++ dquote.

(** [sep.join(parts)] *)
Definition join (sep : string) (parts : list string) : string :=
  String.concat sep parts.

Definition is_space (c : ascii) : bool :=
  let n := nat_of_ascii c in
  ((9 <=? n)%nat && (n <=? 13)%nat) || ((28 <=? n)%nat && (n <=? 32)%nat).

Definition is_digit (c : ascii) : bool :=
  let n := nat_of_ascii c in (48 <=? n)%nat && (n <=? 57)%nat.

Fixpoint drop_space (l : list ascii) : list ascii :=
  match l with
  | [] => []
  | c :: r => if is_space c then drop_space r else l
  end.

(** [s.strip()] *)
Definition strip (s : string) : string :=
  string_of_list_ascii
    (rev (drop_space (rev (drop_space (list_ascii_of_string s))))).

(** [s.isdigit()]: at least one character, all of them digits. *)
Definition isdigit (s : string) : bool :=
  match s with
  | EmptyString => false
  | _ => forallb is_digit (list_ascii_of_string s)
  end.

(** [needle in hay] *)
Fixpoint contains (needle hay : string) : bool :=
  if String.prefix needle hay then true
  else match hay with
       | EmptyString => false
       | String _ rest => contains needle rest
       end.

(** [s.split(sep)[-1]] for a one-character [sep]: what follows the last
    [sep], and all of [s] when there is none. *)
Fixpoint after_last (sep : ascii) (s : string) : string :=
  match s with
  | EmptyString => EmptyString
  | String c rest =>
      if contains (String sep EmptyString) rest then after_last sep rest
      else if Ascii.eqb c sep then rest
      else s
  end.

(** [str(n)] for a non-negative [int]. *)
Definition str_of_N (n : N) : string := NilEmpty.string_of_uint (N.to_uint n).

(** [str(z)] for an [int]. *)
Definition str_of_Z (z : Z) : string := NilEmpty.string_of_int (Z.to_int z).

(** [int(s)]; the engine only calls it on strings that passed [isdigit],
    every other string is a [ValueError] ([None]). *)
Definition py_int (s : string) : option N :=
  if isdigit s then option_map N.of_uint (NilEmpty.uint_of_string s) else None.

(** [not condition or condition.strip() == ""] *)
Definition blank (condition : string) : bool :=
  (condition =? "") || (strip condition =? "").

(* ================================================================== *)
(** * Python values, dicts, rows *)
(* ================================================================== *)

(** The values that travel as cell values and as bound parameters.
    [VTime] is a [datetime]/[pd.Timestamp] with its [isoformat()] and its
    [str()]; [VObj] is any other object (a float, a [Decimal], ...) with
    its truth value, whether it has a [__dict__], and its [str()]. *)
Inductive value : Type :=
| VNone
| VBool (b : bool)
| VInt (z : Z)
| VStr (s : string)
| VTime (iso text : string)
| VObj (truth has_dict : bool) (text : string).

(** [str(v)] *)
Definition py_str (v : value) : string :=
  match v with
  | VNone => "None"
  | VBool true => "True"
  | VBool false => "False"
  | VInt z => str_of_Z z
  | VStr s => s
  | VTime _ text => text
  | VObj _ _ text => text
  end.

(** [bool(v)] *)
Definition value_truthy (v : value) : bool :=
  match v with
  | VNone => false
  | VBool b => b
  | VInt z => negb (z =? 0)%Z
  | VStr s => negb (s =? "")
  | VTime _ _ => true
  | VObj t _ _ => t
  end.

(** [v == s] for a string [s]. *)
Definition value_is_str (v : value) (s : string) : bool :=
  match v with
  | VStr s' => s' =? s
  | _ => false
  end.

(** [value is not None and value != ''] *)
Definition has_content (v : value) : bool :=
  match v with
  | VNone => false
  | VStr EmptyString => false
  | _ => true
  end.

(** [v is None] *)
Definition is_none (v : value) : bool :=
  match v with
  | VNone => true
  | _ => false
  end.

Section Dict.
Context {V : Type}.

Definition dict := list (string * V).

(** [d[k]], [None] for a [KeyError]. *)
Fixpoint dict_get (k : string) (d : dict) : option V :=
  match d with
  | [] => None
  | (k', v) :: rest => if k' =? k then Some v else dict_get k rest
  end.

(** [d[k] = v]: an existing key keeps its place, a new one is appended. *)
Fixpoint dict_set (k : string) (v : V) (d : dict) : dict :=
  match d with
  | [] => [(k, v)]
  | (k', v') :: rest =>
      if k' =? k then (k', v) :: rest else (k', v') :: dict_set k v rest
  end.

Definition keys (d : dict) : list string := map fst d.
Definition values (d : dict) : list V := map snd d.
End Dict.
Arguments dict V : clear implicits.

(** [k in l] for a list of strings. *)
Definition str_in (k : string) (l : list string) : bool :=
  existsb (String.eqb k) l.

(** A fetched row: column names with their values, in column order. *)
Definition row := dict value.

(* ================================================================== *)
(** * Parameter coercion: [DBManager._prepare_params] *)
(* ================================================================== *)

(** The shapes in which statement parameters reach [run_sql].  A string
    carries, next to its text, what [json.loads] makes of it ([None] when
    it raises): [json] is a library, and the recursion of
    [_prepare_params] follows the decoded value. *)
#[warnings="-register-all"]
Inductive pyparams : Type :=
| PNone
| PBool (b : bool)
| PInt (z : Z)
| PObj (truthy : bool)
| PStr (s : string) (parsed : option pyparams)
| PList (items : list value)
| PTuple (items : list value)
| PDict (d : dict value).

(** Python truthiness of a parameter object. *)
Definition truthy (p : pyparams) : bool :=
  match p with
  | PNone => false
  | PBool b => b
  | PInt z => negb (z =? 0)%Z
  | PObj t => t
  | PStr s _ => negb (s =? "")
  | PList l | PTuple l => match l with [] => false | _ => true end
  | PDict d => match d with [] => false | _ => true end
  end.

Fixpoint insert_sorted (n : N) (l : list N) : list N :=
  match l with
  | [] => [n]
  | m :: rest => if (n <=? m)%N then n :: l else m :: insert_sorted n rest
  end.

(** [sorted(l)] on integers. *)
Definition sorted (l : list N) : list N := fold_right insert_sorted [] l.

(** [[f(x) for x in l]] where [f] may raise. *)
Fixpoint map_opt {A B : Type} (f : A -> option B) (l : list A) : option (list B) :=
  match l with
  | [] => Some []
  | x :: rest =>
      match f x, map_opt f rest with
      | Some y, Some ys => Some (y :: ys)
      | _, _ => None
      end
  end.

(** The [dict] branch of [_prepare_params]; [None] is an exception raised
    inside the [try] ([KeyError] of [params[str(k)]], [ValueError] of
    [int(k)]). *)
Definition prepare_dict (d : dict value) : option pyparams :=
  if forallb isdigit (keys d) then
    match map_opt py_int (filter isdigit (keys d)) with
    | Some ints =>
        option_map PTuple
          (map_opt (fun k => dict_get (str_of_N k) d) (sorted ints))
    | None => None
    end
  else Some (PDict d).

(** The [except] branch: the raw input in its nearest shape. *)
Definition prepare_fallback (params : pyparams) : pyparams :=
  match params with
  | PList l => PTuple l
  | _ => params
  end.

Fixpoint _prepare_params (params : pyparams) : pyparams :=
  if negb (truthy params) then PNone
  else
    match params with
    | PDict d =>
        match prepare_dict d with
        | Some r => r
        | None => prepare_fallback params
        end
    | PList l => PTuple l
    | PStr _ parsed =>
        match parsed with
        | Some p => _prepare_params p
        | None => prepare_fallback params
        end
    | _ => params
    end.

(* ================================================================== *)
(** * The environment *)
(* ================================================================== *)

(** [cursor_factory] of a connection: [get_db_connection] asks for
    [RealDictCursor] ([dict_mode=True], the default) or [DictCursor];
    a bare [psycopg2.connect] gives tuple rows. *)
Inductive cursor_factory : Type := RealDictCursor | DictCursor | TupleCursor.

(** What a cursor holds after [execute]: [cursor.rowcount] and the result
    set ([None] when [cursor.description] is [None]). *)
Record cursor_state : Type := mkCursor {
  rowcount : Z;
  fetched : option (list row)
}.

(** [subprocess.CompletedProcess] *)
Record completed_process : Type := mkProcess {
  returncode : Z;
  stdout : string;
  stderr : string
}.

(** One element of [results] in [pack_tables]: an error string, or the
    dict of a packed table. *)
Record pack_record : Type := mkPackRecord {
  pr_table : string;
  pr_backup_file : string;
  pr_excel_file : string;
  pr_json_file : string;
  pr_rows : nat;
  pr_status : string
}.

Inductive pack_entry : Type :=
| PackError (msg : string)
| PackDone (r : pack_record).

(** [pack_info], the manifest. *)
Record pack_info : Type := mkPackInfo {
  pi_time : string;
  pi_packed : nat;
  pi_total : nat;
  pi_results : list pack_entry
}.

(** What the engine hands to [json.dump]. *)
Inductive json_doc : Type :=
| JRows (data : list row)
| JPackInfo (info : pack_info).

(** [datetime.now().strftime(fmt)] and [datetime.now().isoformat()]. *)
Inductive time_format : Type :=
| Strftime (fmt : string)
| Isoformat.

(** The answers of the outside world.  Every call takes the state of the
    environment and returns the next one; an error text stands for the
    exception the call raises. *)
Record Backend : Type := mkBackend {
  Env : Type;
  getenv : string -> option string;
  pg_connect : cursor_factory -> Env -> option string * Env;
  pg_execute : nat -> string -> option pyparams -> Env ->
               (string + cursor_state) * Env;
  pg_commit : nat -> Env -> option string * Env;
  pg_rollback : nat -> Env -> Env;
  pg_close : nat -> Env -> Env;
  path_exists : string -> Env -> bool;
  fs_mkdir : string -> Env -> option string * Env;
  subprocess_run : list string -> string -> Env ->
                   (string + completed_process) * Env;
  to_excel : string -> list row -> Env -> option string * Env;
  json_dump : string -> json_doc -> Env -> option string * Env;
  clock : time_format -> Env -> string * Env
}.

(** The calls the engine makes, as they are logged.  A connect is logged
    with the handle it gave ([None] when it raised), an execute with the
    error it raised or the [rowcount] it left, a commit with the error it
    raised if any. *)
Inductive event : Type :=
| EvConnect (factory : cursor_factory) (handle : option nat)
| EvExecute (handle : nat) (sql : string) (params : option pyparams)
            (result : string + Z)
| EvCommit (handle : nat) (error : option string)
| EvRollback (handle : nat)
| EvClose (handle : nat)
| EvPrint (msg : string)
| EvMkdir (path : string)
| EvRun (cmd : list string)
| EvToExcel (path : string) (data : list row)
| EvJsonDump (path : string) (doc : json_doc).

(** A connection object: its handle and the cursor factory it was opened
    with. *)
Record conn : Type := mkConn {
  handle : nat;
  factory : cursor_factory
}.

(** The result dict of the mutating operations:
    [{"ok": True, "changed": n, "msg": m}], [{"ok": False, "msg": m}] and
    [{"ok": False, "msg": m, "has_relations": True, "relations": l}]. *)
Record relation : Type := mkRelation {
  rel_table : value;
  rel_column : value;
  rel_count : value
}.

Inductive op_result : Type :=
| OpOk (changed : Z) (msg : string)
| OpFail (msg : string)
| OpBlocked (msg : string) (relations : list relation).

Definition ok (r : op_result) : bool :=
  match r with OpOk _ _ => true | _ => false end.

Definition has_relations (r : op_result) : bool :=
  match r with OpBlocked _ _ => true | _ => false end.

(** [(ok, file, error)] of the backup functions. *)
Inductive backup_result : Type :=
| BackupOk (file : string)
| BackupError (msg : string).

(** [(ok, result)] of [pack_tables]: [False] with a message, or [True]
    with the summary dict. *)
Inductive pack_outcome : Type :=
| PackFailed (msg : string)
| PackSummary (msg folder : string) (packed total : nat)
              (details : list pack_entry).

Definition pack_ok (o : pack_outcome) : bool :=
  match o with PackSummary _ _ _ _ _ => true | PackFailed _ => false end.

(** What an HTTP handler returns: a JSON object with its [ok] flag, or a
    [FileResponse]. *)
Inductive http_response : Type :=
| HJson (ok_flag : bool) (fields : dict value)
| HJsonDoc (filename : string) (data : list row)
| HFile (path media_type filename : string).

(** What the [/api/run_sql] handler returns: [{"ok": False, "error": e}],
    or [{"ok": True, "data": d, "count": n}]. *)
Inductive sql_response : Type :=
| SqlError (error : string)
| SqlData (data : option (list row)) (count : nat).

(** What the [/api/modify] handler returns: a dict of its own,
    [{"ok": False, "error": e}], or the dict of the engine as it is. *)
Inductive handler_result : Type :=
| OwnError (error : string)
| EngineResult (r : op_result).

Definition sql_table_info : string :=
"
            SELECT column_name, data_type, is_nullable, column_default
            FROM information_schema.columns
            WHERE table_name = %s
            ORDER BY ordinal_position
        ".

Definition sql_table_pk : string :=
"
            SELECT kcu.column_name
            FROM information_schema.table_constraints AS tc
            JOIN information_schema.key_column_usage AS kcu
                ON tc.constraint_name = kcu.constraint_name
            WHERE tc.table_name = %s 
            AND tc.constraint_type = 'PRIMARY KEY'
            ORDER BY kcu.ordinal_position
        ".

Definition sql_related_tables : string :=
"
            SELECT
                tc.table_name as referencing_table,
                kcu.column_name as referencing_column,
                ccu.table_name as referenced_table,
                ccu.column_name as referenced_column
            FROM information_schema.table_constraints AS tc
            JOIN information_schema.key_column_usage AS kcu
                ON tc.constraint_name = kcu.constraint_name
            JOIN information_schema.constraint_column_usage AS ccu
                ON ccu.constraint_name = tc.constraint_name
            WHERE tc.constraint_type = 'FOREIGN KEY'
            AND ccu.table_name = %s
            AND (%s IS NULL OR ccu.column_name = %s)
        ".

Definition sql_table_present : string :=
"
                SELECT EXISTS (
                    SELECT FROM information_schema.tables 
                    WHERE table_schema = 'public' 
                    AND table_name = %s
                )
            ".

Definition sql_pg_tables : string :=
"
                    SELECT tablename 
                    FROM pg_tables 
                    WHERE schemaname = 'public'
                ".

Definition sql_wipe_tables : string :=
"
                SELECT tablename 
                FROM pg_tables 
                WHERE schemaname = 'public'
                ORDER BY tablename
            ".

(** A line break. *)
Definition nl : string := String (ascii_of_nat 10) EmptyString.

(** [" " * n] *)
Fixpoint spaces (n : nat) : string :=
  match n with
  | O => EmptyString
  | S m => String " "%char (spaces m)
  end.

(** [os.path.basename(path)] *)
Fixpoint basename_from (acc : string) (l : list ascii) : string :=
  match l with
  | [] => acc
  | c :: rest =>
      if Ascii.eqb c "/"%char then basename_from EmptyString rest
      else basename_from (acc ++ String c EmptyString) rest
  end.

Definition basename (path : string) : string :=
  basename_from EmptyString (list_ascii_of_string path).

(** [base / name] on [pathlib.Path]. *)
Definition path_join (base name : string) : string := base ++ "/" ++ name.

(** [self.folders], as [setup_folders] fills it. *)
Definition folders (which : string) : string := "/app/" ++ which.

Definition media_xlsx : string :=
  "application/vnd.openxmlformats-officedocument.spreadsheetml.sheet".

(** [per_page] of the table editor. *)
Definition per_page : Z := 200.

(** [pages], [page] and [offset] as the [/tables] handler computes them
    from the row count [total] and the requested [page]. *)
Definition page_window (total page : Z) : Z * Z * Z :=
  let pages := Z.max 1 ((total + per_page - 1) / per_page) in
  let page := if (page <? 1)%Z then 1%Z else page in
  let page := if (page >? pages)%Z then pages else page in
  let offset := ((page - 1) * per_page)%Z in
  (pages, page, offset).

(** The one warning of [pg_restore] that [restore_from_backup] ignores. *)
Definition benign_warning : string :=
  "unrecognized configuration parameter " ++ quote_ident "transaction_timeout".

(* ================================================================== *)
(** * The engine *)
(* ================================================================== *)

(** The result of a Python computation: a value, or a raised exception
    with its [str(e)]. *)
Inductive outcome (A : Type) : Type :=
| Val (a : A)
| Exc (msg : string).
Arguments Val {A} a.
Arguments Exc {A} msg.

Section Engine.
Context (B : Backend).

(** The state the engine runs in: the environment, the next free
    connection handle, and the log of the calls made so far, oldest
    first. *)
Record World : Type := mkWorld {
  env : Env B;
  next_conn : nat;
  trace : list event
}.

Definition M (A : Type) : Type := World -> outcome A * World.

Definition ret {A : Type} (a : A) : M A := fun w => (Val a, w).

Definition raise {A : Type} (msg : string) : M A := fun w => (Exc msg, w).

Definition bind {A C : Type} (m : M A) (k : A -> M C) : M C :=
  fun w =>
    match m w with
    | (Val a, w') => k a w'
    | (Exc e, w') => (Exc e, w')
    end.

(** [try: body  except Exception as e: handler(str(e))] *)
Definition try_except {A : Type} (body : M A) (handler : string -> M A) : M A :=
  fun w =>
    match body w with
    | (Val a, w') => (Val a, w')
    | (Exc e, w') => handler e w'
    end.

(** [try: body  finally: fin] *)
Definition try_finally {A : Type} (body : M A) (fin : M unit) : M A :=
  fun w =>
    match body w with
    | (r, w') =>
        match fin w' with
        | (Val _, w'') => (r, w'')
        | (Exc e, w'') => (Exc e, w'')
        end
    end.

Notation "x <- m ;; k" := (bind m (fun x => k))
  (at level 61, m at next level, right associativity).
Notation "m ;;; k" := (bind m (fun _ => k))
  (at level 61, right associativity).

(** [for x in l: body(x)] *)
Fixpoint for_each {A : Type} (l : list A) (body : A -> M unit) : M unit :=
  match l with
  | [] => ret tt
  | x :: rest => body x ;;; for_each rest body
  end.

(** A loop that carries the variables it assigns. *)
Fixpoint for_fold {A S : Type} (l : list A) (s : S) (body : S -> A -> M S) : M S :=
  match l with
  | [] => ret s
  | x :: rest => s' <- body s x ;; for_fold rest s' body
  end.

Definition log (e : event) (w : World) : World :=
  mkWorld (env w) (next_conn w) (trace w ++ [e])%list.

Definition with_env (e : Env B) (w : World) : World :=
  mkWorld e (next_conn w) (trace w).

(** ** Calls into the environment *)

Definition print (msg : string) : M unit :=
  fun w => (Val tt, log (EvPrint msg) w).

(** [psycopg2.connect(..., cursor_factory=f)] *)
Definition connect (f : cursor_factory) : M conn :=
  fun w =>
    match pg_connect B f (env w) with
    | (Some err, e) => (Exc err, log (EvConnect f None) (with_env e w))
    | (None, e) =>
        (Val (mkConn (next_conn w) f),
         mkWorld e (S (next_conn w))
                 (trace w ++ [EvConnect f (Some (next_conn w))])%list)
    end.

(** [cursor.execute(sql, params)] on a cursor of [c]. *)
Definition execute (c : conn) (sql : string) (params : option pyparams)
  : M cursor_state :=
  fun w =>
    match pg_execute B (handle c) sql params (env w) with
    | (inl err, e) =>
        (Exc err, with_env e (log (EvExecute (handle c) sql params (inl err)) w))
    | (inr cur, e) =>
        (Val cur,
         with_env e (log (EvExecute (handle c) sql params (inr (rowcount cur))) w))
    end.

Definition commit (c : conn) : M unit :=
  fun w =>
    match pg_commit B (handle c) (env w) with
    | (Some err, e) =>
        (Exc err, with_env e (log (EvCommit (handle c) (Some err)) w))
    | (None, e) => (Val tt, with_env e (log (EvCommit (handle c) None) w))
    end.

Definition rollback (c : conn) : M unit :=
  fun w =>
    (Val tt, with_env (pg_rollback B (handle c) (env w))
                      (log (EvRollback (handle c)) w)).

Definition close (c : conn) : M unit :=
  fun w =>
    (Val tt, with_env (pg_close B (handle c) (env w))
                      (log (EvClose (handle c)) w)).

(** [cursor.fetchall()] *)
Definition fetchall (cur : cursor_state) : M (list row) :=
  match fetched cur with
  | Some rows => ret rows
  | None => raise "no results to fetch"
  end.

(** [cursor.fetchone()] *)
Definition fetchone (cur : cursor_state) : M (option row) :=
  match fetched cur with
  | Some [] => ret None
  | Some (r :: _) => ret (Some r)
  | None => raise "no results to fetch"
  end.

(** [r[k]] on a fetched row: a [RealDictRow] and a [DictRow] answer to
    a column name, a tuple does not. *)
Definition row_key (f : cursor_factory) (r : row) (k : value) : M value :=
  match f with
  | TupleCursor => raise "tuple indices must be integers or slices, not str"
  | _ =>
      match k with
      | VStr s =>
          match dict_get s r with
          | Some v => ret v
          | None => raise ("'" ++ s ++ "'")
          end
      | _ => raise (py_str k)
      end
  end.

(** [r[i]] on a fetched row: a [DictRow] and a tuple answer to a
    position; a [RealDictRow] is a plain dict keyed by column name, so
    an integer is a [KeyError]. *)
Definition row_index (f : cursor_factory) (r : row) (i : nat) : M value :=
  match f with
  | RealDictCursor => raise (str_of_N (N.of_nat i))
  | DictCursor =>
      match nth_error (values r) i with
      | Some v => ret v
      | None => raise "list index out of range"
      end
  | TupleCursor =>
      match nth_error (values r) i with
      | Some v => ret v
      | None => raise "tuple index out of range"
      end
  end.

(** [os.getenv(name, default)] *)
Definition getenv_default (name default : string) : string :=
  match getenv B name with
  | Some v => v
  | None => default
  end.

(** [datetime.now().strftime(fmt)] *)
Definition now (fmt : time_format) : M string :=
  fun w => let (s, e) := clock B fmt (env w) in (Val s, with_env e w).

(** [os.path.exists(path)] *)
Definition os_path_exists (path : string) : M bool :=
  fun w => (Val (path_exists B path (env w)), w).

(** [path.mkdir(parents=True, exist_ok=True)] *)
Definition mkdir (path : string) : M unit :=
  fun w =>
    let w1 := log (EvMkdir path) w in
    match fs_mkdir B path (env w) with
    | (Some err, e) => (Exc err, with_env e w1)
    | (None, e) => (Val tt, with_env e w1)
    end.

(** [subprocess.run(cmd, env=..., capture_output=True, text=True)] *)
Definition run_process (cmd : list string) (pgpassword : string)
  : M completed_process :=
  fun w =>
    let w1 := log (EvRun cmd) w in
    match subprocess_run B cmd pgpassword (env w) with
    | (inl err, e) => (Exc err, with_env e w1)
    | (inr p, e) => (Val p, with_env e w1)
    end.

(** [pd.DataFrame(data).to_excel(path, index=False)] *)
Definition write_excel (path : string) (data : list row) : M unit :=
  fun w =>
    let w1 := log (EvToExcel path data) w in
    match to_excel B path data (env w) with
    | (Some err, e) => (Exc err, with_env e w1)
    | (None, e) => (Val tt, with_env e w1)
    end.

(** [with open(path, 'w') as f: json.dump(doc, f, ...)] *)
Definition write_json (path : string) (doc : json_doc) : M unit :=
  fun w =>
    let w1 := log (EvJsonDump path doc) w in
    match json_dump B path doc (env w) with
    | (Some err, e) => (Exc err, with_env e w1)
    | (None, e) => (Val tt, with_env e w1)
    end.

(** ** Connections and statements *)

Definition get_db_connection (dict_mode : bool) : M (option conn) :=
  try_except
    (c <- connect (if dict_mode then RealDictCursor else DictCursor) ;;
     ret (Some c))
    (fun e => print ("Connection error: " ++ e) ;;; ret None).

(** [run_sql(sql, params)]; [fetch] is [True] at every call site. *)
Definition run_sql (sql : string) (params : pyparams) : M (option (list row)) :=
  c <- get_db_connection true ;;
  match c with
  | None => ret None
  | Some c =>
      try_finally
        (try_except
           (let sql_params := _prepare_params params in
            cur <- (if truthy sql_params
                    then execute c sql (Some sql_params)
                    else execute c sql None) ;;
            let result := fetched cur in
            commit c ;;;
            ret result)
           (fun e =>
              rollback c ;;;
              print ("SQL execution error: " ++ e) ;;;
              ret None))
        (close c)
  end.

(** [if not rows] on what [run_sql] returns. *)
Definition no_rows (r : option (list row)) : bool :=
  match r with
  | Some (_ :: _) => false
  | _ => true
  end.

(** ** Schema catalog *)

Definition get_table_info (table_name : string) : M (option (list row)) :=
  run_sql sql_table_info (PTuple [VStr table_name]).

Definition get_table_pk (table_name : string) : M value :=
  result <- run_sql sql_table_pk (PTuple [VStr table_name]) ;;
  match result with
  | Some (first :: _) => row_key RealDictCursor first (VStr "column_name")
  | _ => ret VNone
  end.

Definition get_related_tables (table_name : string) : M (option (list row)) :=
  run_sql sql_related_tables (PTuple [VStr table_name; VNone; VNone]).

(** [get_table_rows(table_name)] with [limit=None]. *)
Definition get_table_rows (table_name : string) : M (option (list row)) :=
  try_except
    (run_sql ("SELECT * FROM " ++ quote_ident table_name) PNone)
    (fun e =>
       print ("Error getting data from " ++ table_name ++ ": " ++ e) ;;;
       ret (Some [])).

Definition table_present (table_name : string) : M value :=
  try_except
    (result <- run_sql sql_table_present (PTuple [VStr table_name]) ;;
     match result with
     | Some (first :: _) => row_key RealDictCursor first (VStr "exists")
     | _ => ret (VBool false)
     end)
    (fun e =>
       print ("Error checking table " ++ table_name ++ ": " ++ e) ;;;
       ret (VBool false)).

(** ** Dynamic statements: [add_row] and [modify_row] *)

(** [key in nullable_columns] *)
Definition in_columns (key : string) (columns : list value) : bool :=
  existsb (fun c => value_is_str c key) columns.

(** The loop of [add_row] and of [modify_row] over [data.items()]:
    a value with content is kept, an empty one becomes [None] when the
    key is in [nullable_columns], and is left out otherwise. *)
Definition filter_step (nullable_columns : list value) (acc : dict value)
           (item : string * value) : dict value :=
  let (key, v) := item in
  if has_content v then dict_set key v acc
  else if in_columns key nullable_columns then dict_set key VNone acc
  else acc.

Definition filter_values (nullable_columns : list value) (data : dict value)
  : dict value :=
  fold_left (filter_step nullable_columns) data [].

(** [[col['column_name'] for col in columns_info
      if col['is_nullable'] == 'YES']] *)
Fixpoint nullable_names (columns_info : list row) : M (list value) :=
  match columns_info with
  | [] => ret []
  | col :: rest =>
      flag <- row_key RealDictCursor col (VStr "is_nullable") ;;
      if value_is_str flag "YES" then
        name <- row_key RealDictCursor col (VStr "column_name") ;;
        names <- nullable_names rest ;;
        ret (name :: names)
      else nullable_names rest
  end.

(** [[col['column_name'] for col in columns_info]] *)
Fixpoint column_names (columns_info : list row) : M (list value) :=
  match columns_info with
  | [] => ret []
  | col :: rest =>
      name <- row_key RealDictCursor col (VStr "column_name") ;;
      names <- column_names rest ;;
      ret (name :: names)
  end.

(** The statement text of [add_row]. *)
Definition insert_sql (table_name : string) (filtered_data : dict value)
           (pk : value) : string :=
  let columns := join ", " (map quote_ident (keys filtered_data)) in
  let placeholders := join ", " (repeat "%s" (length filtered_data)) in
  if value_truthy pk then
    "INSERT INTO " ++ quote_ident table_name ++ " (" ++ columns
      ++ ") VALUES (" ++ placeholders ++ ") RETURNING "
      ++ quote_ident (py_str pk)
  else
    "INSERT INTO " ++ quote_ident table_name ++ " (" ++ columns
      ++ ") VALUES (" ++ placeholders ++ ")".

(** The statement text of [modify_row]. *)
Definition update_sql (table_name : string) (clean_data : dict value)
           (condition : string) : string :=
  let set_parts := map (fun key => quote_ident key ++ " = %s") (keys clean_data) in
  let set_clause := join ", " set_parts in
  "UPDATE " ++ quote_ident table_name ++ " SET " ++ set_clause
    ++ " WHERE " ++ condition.

(** [add_row] returns the inserted id, or [None]. *)
Definition add_row (table_name : string) (data : dict value) : M value :=
  try_except
    (columns_info <- get_table_info table_name ;;
     match columns_info with
     | Some ((_ :: _) as columns_info) =>
         nullable_columns <- nullable_names columns_info ;;
         let filtered_data := filter_values nullable_columns data in
         match filtered_data with
         | [] => ret VNone
         | _ =>
             pk <- get_table_pk table_name ;;
             let sql := insert_sql table_name filtered_data pk in
             c <- get_db_connection true ;;
             match c with
             | None => ret VNone
             | Some c =>
                 cur <- execute c sql (Some (PTuple (values filtered_data))) ;;
                 inserted_id <-
                   (if value_truthy pk then
                      result <- fetchone cur ;;
                      match result with
                      | Some ((_ :: _) as r) => row_key (factory c) r pk
                      | _ => ret VNone
                      end
                    else ret VNone) ;;
                 commit c ;;;
                 close c ;;;
                 ret inserted_id
             end
         end
     | _ => ret VNone
     end)
    (fun e =>
       print ("Error adding data to " ++ table_name ++ ": " ++ e) ;;;
       ret VNone).

Definition modify_row (table_name : string) (data : dict value)
           (condition : string) : M op_result :=
  try_except
    (if blank condition then ret (OpFail "Condition cannot be empty")
     else
       columns_info <- get_table_info table_name ;;
       nullable_columns <-
         (match columns_info with
          | Some ((_ :: _) as columns_info) => column_names columns_info
          | _ => ret []
          end) ;;
       let clean_data := filter_values nullable_columns data in
       match clean_data with
       | [] => ret (OpFail "No data to update")
       | _ =>
           let sql := update_sql table_name clean_data condition in
           c <- get_db_connection true ;;
           match c with
           | None => ret (OpFail "Cannot connect to DB")
           | Some c =>
               cur <- execute c sql (Some (PTuple (values clean_data))) ;;
               let changed := rowcount cur in
               commit c ;;;
               close c ;;;
               ret (OpOk changed ("Updated " ++ str_of_Z changed ++ " records"))
           end
       end)
    (fun e =>
       print ("Error updating data in " ++ table_name ++ ": " ++ e) ;;;
       ret (OpFail e)).

(** ** Deleting rows: [remove_row] and [safe_remove] *)

(** [for rel_table in related_tables], where [related_tables] may be
    [None]. *)
Definition iterable (related_tables : option (list row)) : M (list row) :=
  match related_tables with
  | Some l => ret l
  | None => raise "'NoneType' object is not iterable"
  end.

(** The subquery shared by the cascade delete and the safe-mode count. *)
Definition subquery (table_name condition : string) (rel_column pk : value)
  : string :=
  if value_truthy pk then
    "SELECT " ++ quote_ident (py_str pk) ++ " FROM " ++ quote_ident table_name
      ++ " WHERE " ++ condition
  else
    "SELECT " ++ quote_ident (py_str rel_column) ++ " FROM "
      ++ quote_ident table_name ++ " WHERE " ++ condition.

Definition cascade_delete_sql (table_name condition : string)
           (rel_name rel_column pk : value) : string :=
  "DELETE FROM " ++ quote_ident (py_str rel_name) ++ " WHERE "
    ++ quote_ident (py_str rel_column) ++ " IN ("
    ++ subquery table_name condition rel_column pk ++ ")".

Definition count_sql (table_name condition : string)
           (rel_name rel_column pk : value) : string :=
  "SELECT COUNT(*) FROM " ++ quote_ident (py_str rel_name) ++ " WHERE "
    ++ quote_ident (py_str rel_column) ++ " IN ("
    ++ subquery table_name condition rel_column pk ++ ")".

Definition delete_sql (table_name condition : string) : string :=
  "DELETE FROM " ++ quote_ident table_name ++ " WHERE " ++ condition.

(** The body of the loop of [remove_row] over the inbound edges. *)
Definition cascade_step (c : conn) (table_name condition : string)
           (rel_table : row) : M unit :=
  rel_name <- row_key RealDictCursor rel_table (VStr "referencing_table") ;;
  rel_column <- row_key RealDictCursor rel_table (VStr "referencing_column") ;;
  pk <- get_table_pk table_name ;;
  execute c (cascade_delete_sql table_name condition rel_name rel_column pk)
          None ;;;
  ret tt.

Definition remove_row (table_name condition : string) (cascade : bool)
  : M op_result :=
  try_except
    (if blank condition then ret (OpFail "Condition cannot be empty")
     else
       c <- get_db_connection true ;;
       match c with
       | None => ret (OpFail "Cannot connect to DB")
       | Some c =>
           (if cascade then
              related_tables <- get_related_tables table_name ;;
              related_tables <- iterable related_tables ;;
              for_each related_tables (cascade_step c table_name condition)
            else ret tt) ;;;
           cur <- execute c (delete_sql table_name condition) None ;;
           let changed := rowcount cur in
           commit c ;;;
           close c ;;;
           ret (OpOk changed ("Removed " ++ str_of_Z changed ++ " records"))
       end)
    (fun e =>
       print ("Error deleting from " ++ table_name ++ ": " ++ e) ;;;
       ret (OpFail e)).

(** [count > 0] *)
Definition positive (count : value) : M bool :=
  match count with
  | VInt z => ret (0 <? z)%Z
  | VBool b => ret b
  | _ => raise "'>' not supported between these instances"
  end.

(** [cursor.fetchone()[0]] on a cursor of [c]. *)
Definition fetch_count (c : conn) (cur : cursor_state) : M value :=
  first <- fetchone cur ;;
  match first with
  | Some r => row_index (factory c) r 0
  | None => raise "'NoneType' object is not subscriptable"
  end.

(** The body of the loop of [safe_remove]; it carries [relation_info]
    ([has_relations] is true exactly when the list is not empty). *)
Definition safe_step (c : conn) (table_name condition : string)
           (relation_info : list relation) (rel_table : row)
  : M (list relation) :=
  rel_name <- row_key RealDictCursor rel_table (VStr "referencing_table") ;;
  rel_column <- row_key RealDictCursor rel_table (VStr "referencing_column") ;;
  pk <- get_table_pk table_name ;;
  cur <- execute c (count_sql table_name condition rel_name rel_column pk)
                 None ;;
  count <- fetch_count c cur ;;
  is_pos <- positive count ;;
  if is_pos
  then ret (relation_info ++ [mkRelation rel_name rel_column count])%list
  else ret relation_info.

(** [safe_remove] from [cursor = conn.cursor()] on, inside the [try]. *)
Definition safe_check (c : conn) (table_name condition : string)
  : M op_result :=
  related_tables <- get_related_tables table_name ;;
  related_tables <- iterable related_tables ;;
  relation_info <-
    for_fold related_tables [] (safe_step c table_name condition) ;;
  match relation_info with
  | _ :: _ =>
      close c ;;;
      ret (OpBlocked "Found related records" relation_info)
  | [] =>
      cur <- execute c (delete_sql table_name condition) None ;;
      let changed := rowcount cur in
      commit c ;;;
      close c ;;;
      ret (OpOk changed ("Removed " ++ str_of_Z changed ++ " records"))
  end.

Definition safe_remove (table_name condition : string) : M op_result :=
  try_except
    (if blank condition then ret (OpFail "Condition cannot be empty")
     else
       c <- get_db_connection true ;;
       match c with
       | None => ret (OpFail "Cannot connect to DB")
       | Some c => safe_check c table_name condition
       end)
    (fun e =>
       print ("Error in safe remove: " ++ e) ;;;
       ret (OpFail e)).

(** ** Dropping tables, folders, single-table backups *)

Definition drop_table_completely (table_name : string) : M bool :=
  try_except
    (let sql := "DROP TABLE IF EXISTS " ++ quote_ident table_name ++ " CASCADE" in
     c <- get_db_connection false ;;
     match c with
     | None => ret false
     | Some c =>
         try_finally
           (try_except
              (execute c sql None ;;;
               commit c ;;;
               ret true)
              (fun e =>
                 rollback c ;;;
                 print ("Error dropping table " ++ table_name ++ ": " ++ e) ;;;
                 ret false))
           (close c)
     end)
    (fun e =>
       print ("Exception dropping table " ++ table_name ++ ": " ++ e) ;;;
       ret false).

Definition create_folder_with_time (base_folder : string) : M string :=
  time_str <- now (Strftime "%Y%m%d_%H%M%S") ;;
  let new_folder := path_join base_folder time_str in
  mkdir new_folder ;;;
  ret new_folder.

Definition pg_dump_path : string := "pg_dump".
Definition pg_restore_path : string := "pg_restore".

Definition create_single_table_backup (table_name save_dir : string)
  : M backup_result :=
  try_except
    (let db_user := getenv_default "DB_USER" "postgres" in
     let db_host := getenv_default "DB_HOST" "postgres" in
     let db_port := getenv_default "DB_PORT" "5432" in
     let db_name := getenv_default "DB_NAME" "my_app_db" in
     stamp <- now (Strftime "%H%M%S") ;;
     let backup_file :=
       path_join save_dir ("backup_" ++ table_name ++ "_" ++ stamp ++ ".backup") in
     let cmd := [pg_dump_path; "-h"; db_host; "-U"; db_user; "-p"; db_port;
                 "-d"; db_name; "-t"; table_name; "-F"; "c";
                 "--no-tablespaces"; "--no-unlogged-table-data";
                 "-f"; backup_file; "-v"] in
     result <- run_process cmd (getenv_default "DB_PASSWORD" "postgres") ;;
     if (returncode result =? 0)%Z then ret (BackupOk backup_file)
     else ret (BackupError ("pg_dump error for " ++ table_name ++ ":" ++ nl
                              ++ stderr result ++ nl ++ stdout result)))
    (fun e =>
       ret (BackupError ("Table backup exception for " ++ table_name
                           ++ ": " ++ e))).

(** ** Restore *)

(** The body of the loop of [restore_from_backup] over the listed
    tables. *)
Definition drop_step (c : conn) (table : row) : M unit :=
  name <- row_index (factory c) table 0 ;;
  execute c ("DROP TABLE IF EXISTS " ++ quote_ident (py_str name)
               ++ " CASCADE") None ;;;
  ret tt.

(** The inner [try] of [restore_from_backup]: drop every public table;
    whatever fails is printed and forgotten. *)
Definition drop_existing_tables : M unit :=
  try_except
    (c <- connect TupleCursor ;;
     cur <- execute c sql_pg_tables None ;;
     tables <- fetchall cur ;;
     for_each tables (drop_step c) ;;;
     commit c ;;;
     close c)
    (fun e => print ("Error dropping tables: " ++ e)).

Definition restore_cmd (backup_file : string) : list string :=
  [pg_restore_path;
   "-h"; getenv_default "DB_HOST" "postgres";
   "-U"; getenv_default "DB_USER" "postgres";
   "-p"; getenv_default "DB_PORT" "5432";
   "-d"; getenv_default "DB_NAME" "my_app_db";
   "-v"; "--clean"; "--if-exists"; "--no-comments"; "--no-tablespaces";
   backup_file].

Definition restore_from_backup (backup_file : string) : M (bool * string) :=
  try_except
    (found <- os_path_exists backup_file ;;
     if negb found then ret (false, "File not found: " ++ backup_file)
     else
       drop_existing_tables ;;;
       result <- run_process (restore_cmd backup_file)
                             (getenv_default "DB_PASSWORD" "postgres") ;;
       let output := stdout result ++ stderr result in
       if contains benign_warning output then
         print "Warning: transaction_timeout error ignored" ;;;
         ret (true, "Restored (some warnings ignored)")
       else if (returncode result =? 0)%Z then
         ret (true, "Restore successful")
       else
         ret (false, "pg_restore error:" ++ nl ++ stderr result ++ nl
                       ++ stdout result))
    (fun e => ret (false, "Restore exception: " ++ e)).

(** ** Pack *)

(** The value written for a cell in the structured snapshot. *)
Definition json_value (v : value) : value :=
  match v with
  | VTime iso _ => VStr iso
  | VObj _ true text => VStr text
  | _ => v
  end.

Definition json_row (r : row) : row :=
  fold_left (fun acc item => dict_set (fst item) (json_value (snd item)) acc)
            r [].

(** One turn of the loop of [pack_tables]: what it appends to
    [results]. *)
Definition pack_one (archive_dir table : string) : M pack_entry :=
  try_except
    (backup <- create_single_table_backup table archive_dir ;;
     match backup with
     | BackupError backup_error =>
         ret (PackError ("Backup error for '" ++ table ++ "': " ++ backup_error))
     | BackupOk backup_file =>
         stamp <- now (Strftime "%H%M%S") ;;
         let excel_filename := table ++ "_" ++ stamp ++ ".xlsx" in
         let excel_path := path_join archive_dir excel_filename in
         data <- get_table_rows table ;;
         let row_count := match data with Some l => length l | None => O end in
         (match data with
          | Some ((_ :: _) as l) => write_excel excel_path l
          | _ => ret tt
          end) ;;;
         stamp' <- now (Strftime "%H%M%S") ;;
         let json_filename := table ++ "_" ++ stamp' ++ ".json" in
         let json_path := path_join archive_dir json_filename in
         let json_data :=
           match data with Some l => map json_row l | None => [] end in
         write_json json_path (JRows json_data) ;;;
         drop_ok <- drop_table_completely table ;;
         if drop_ok then
           ret (PackDone (mkPackRecord table (basename backup_file)
                                       excel_filename json_filename
                                       row_count "ok"))
         else ret (PackError ("Error dropping table '" ++ table ++ "'"))
     end)
    (fun e => ret (PackError ("Error packing table '" ++ table ++ "': " ++ e))).

(** [isinstance(r, dict) and r.get('status') == 'ok'] *)
Definition is_packed (r : pack_entry) : bool :=
  match r with
  | PackDone rec => pr_status rec =? "ok"
  | PackError _ => false
  end.

(** The loop over [valid_tables]; it carries [results] and [all_good]. *)
Definition pack_loop (archive_dir : string) (valid_tables : list string)
  : M (list pack_entry * bool) :=
  for_fold valid_tables ([], true)
    (fun state table =>
       entry <- pack_one archive_dir table ;;
       match entry with
       | PackDone _ => ret ((fst state ++ [entry])%list, snd state)
       | PackError _ => ret ((fst state ++ [entry])%list, false)
       end).

(** The loop that keeps the tables that exist. *)
Definition present_tables (table_names : list string) : M (list string) :=
  for_fold table_names []
    (fun valid_tables table =>
       present <- table_present table ;;
       if value_truthy present then ret (valid_tables ++ [table])%list
       else ret valid_tables).

Definition pack_tables (table_names : list string) : M pack_outcome :=
  try_except
    (match table_names with
     | [] => ret (PackFailed "No tables selected")
     | _ =>
         valid_tables <- present_tables table_names ;;
         match valid_tables with
         | [] => ret (PackFailed "No valid tables found")
         | _ =>
             archive_dir <- create_folder_with_time (folders "archives") ;;
             state <- pack_loop archive_dir valid_tables ;;
             let results := fst state in
             let all_good := snd state in
             stamp <- now (Strftime "%H%M%S") ;;
             let info_filename := "pack_info_" ++ stamp ++ ".json" in
             let info_path := path_join archive_dir info_filename in
             let packed_tables := filter is_packed results in
             time <- now Isoformat ;;
             let info := mkPackInfo time (length packed_tables)
                                    (length valid_tables) results in
             write_json info_path (JPackInfo info) ;;;
             if all_good then
               ret (PackSummary "Pack complete" archive_dir
                                (length packed_tables) (length valid_tables)
                                results)
             else
               match packed_tables with
               | _ :: _ =>
                   ret (PackSummary
                          ("Partially packed: "
                             ++ str_of_N (N.of_nat (length packed_tables))
                             ++ " of "
                             ++ str_of_N (N.of_nat (length valid_tables)))
                          archive_dir
                          (length packed_tables) (length valid_tables)
                          results)
               | [] => ret (PackFailed "Failed to pack any tables")
               end
         end
     end)
    (fun e => ret (PackFailed ("Pack exception: " ++ e))).

(** ** Saving the result of an ad-hoc query *)

Definition create_temp_sql (temp_table : string) (columns : list string)
  : string :=
  let column_defs := map (fun col => quote_ident col ++ " TEXT") columns in
  nl ++ spaces 24 ++ "CREATE TEMPORARY TABLE " ++ temp_table ++ " (" ++ nl
     ++ spaces 28 ++ join ", " column_defs ++ nl
     ++ spaces 24 ++ ")" ++ nl ++ spaces 20.

Definition insert_temp_sql (temp_table : string) (columns : list string)
  : string :=
  let placeholders := join ", " (repeat "%s" (length columns)) in
  nl ++ spaces 28 ++ "INSERT INTO " ++ temp_table ++ " ("
     ++ join ", " (map quote_ident columns) ++ ")" ++ nl
     ++ spaces 28 ++ "VALUES (" ++ placeholders ++ ")" ++ nl ++ spaces 24.

(** [[str(row.get(col, '')) for col in columns]] *)
Definition text_values (columns : list string) (r : row) : list value :=
  map (fun col =>
         VStr (py_str (match dict_get col r with
                       | Some v => v
                       | None => VStr ""
                       end)))
      columns.

(** The body of the loop of [save_query_to_xlsx] over the rows. *)
Definition insert_step (c : conn) (temp_table : string)
           (columns : list string) (r : row) : M unit :=
  execute c (insert_temp_sql temp_table columns)
          (Some (PList (text_values columns r))) ;;;
  ret tt.

(** [(filepath, filename)], or [(None, error)]. *)
Definition save_query_to_xlsx (result_data : list row) (query_name : string)
  : M (option string * string) :=
  try_except
    (match result_data with
     | [] => ret (None, "No data to save")
     | first_row :: _ =>
         stamp <- now (Strftime "%H%M%S") ;;
         let temp_table := "temp_export_" ++ stamp in
         c <- get_db_connection false ;;
         match c with
         | None => ret (None, "Connection error")
         | Some c =>
             try_finally
               (try_except
                  (let columns := keys first_row in
                   execute c (create_temp_sql temp_table columns) None ;;;
                   for_each result_data
                     (insert_step c temp_table columns) ;;;
                   commit c ;;;
                   save_dir <- create_folder_with_time (folders "exports") ;;
                   stamp' <- now (Strftime "%H%M%S") ;;
                   let filename := query_name ++ "_" ++ stamp' ++ ".xlsx" in
                   let filepath := path_join save_dir filename in
                   cur <- execute c ("SELECT * FROM " ++ temp_table) None ;;
                   rows <- fetchall cur ;;
                   write_excel filepath rows ;;;
                   execute c ("DROP TABLE IF EXISTS " ++ temp_table) None ;;;
                   commit c ;;;
                   ret (Some filepath, filename))
                  (fun e =>
                     rollback c ;;;
                     ret (None, "Error: " ++ e)))
               (close c)
         end
     end)
    (fun e => ret (None, e)).

Definition save_query_to_csv (result_data : list row)
  : M (option string * string) :=
  try_except
    (match result_data with
     | [] => ret (None, "No data to save")
     | _ => save_query_to_xlsx result_data "query_result"
     end)
    (fun e => ret (None, e)).

(** ** HTTP handlers of app/main.py *)

(** The loop of the [/api/add] handler that turns the empty strings of
    nullable columns into [None]. *)
Definition blank_to_none (nullable_columns : list value) (data : dict value)
  : dict value :=
  fold_left
    (fun d key =>
       match dict_get key d with
       | Some v =>
           if value_is_str v "" && in_columns key nullable_columns
           then dict_set key VNone d
           else d
       | None => d
       end)
    (keys data) data.

Definition msg_added : string := "Запись добавлена".

(** [POST /api/add] with the [table] and [data] of the request body
    (an absent [table] is the empty string). *)
Definition api_add_row (table : string) (data : dict value) : M http_response :=
  try_except
    (if table =? "" then ret (HJson false [("error", VStr "Table required")])
     else
       columns_info <- get_table_info table ;;
       let columns_info := match columns_info with Some l => l | None => [] end in
       nullable_columns <- nullable_names columns_info ;;
       let data := blank_to_none nullable_columns data in
       result <- add_row table data ;;
       match result with
       | VNone => ret (HJson true [("msg", VStr msg_added)])
       | _ => ret (HJson true [("msg", VStr msg_added); ("id", result)])
       end)
    (fun e => ret (HJson false [("error", VStr e)])).

(** [POST /api/save_sql]; [params] comes with what [json.loads] makes of
    it: the decoded value, or the text of the [JSONDecodeError]. *)
Definition api_save_sql_result (sql params : string)
           (params_json : string + pyparams) (format : string)
  : M http_response :=
  try_except
    (match
       (if negb (params =? "") && negb (strip params =? "") then
          match params_json with
          | inr p => inr p
          | inl e => inl (HJson false [("error", VStr ("JSON error: " ++ e))])
          end
        else inr (PDict []))
     with
     | inl response => ret response
     | inr params_dict =>
         result <- run_sql sql params_dict ;;
         match result with
         | Some ((_ :: _) as result) =>
             if format =? "csv" then
               saved <- save_query_to_csv result ;;
               match saved with
               | (Some filepath, _) =>
                   stamp <- now (Strftime "%Y%m%d_%H%M%S") ;;
                   let filename := "sql_result_" ++ stamp ++ ".xlsx" in
                   ret (HFile filepath media_xlsx filename)
               | (None, error) =>
                   ret (HJson false
                          [("error",
                            VStr (if error =? "" then "Save error" else error))])
               end
             else if format =? "json" then
               stamp <- now (Strftime "%Y%m%d_%H%M%S") ;;
               let filename := "sql_result_" ++ stamp ++ ".json" in
               ret (HJsonDoc filename result)
             else
               ret (HJson false [("error", VStr ("Unknown format: " ++ format))])
         | _ => ret (HJson false [("error", VStr "No data to save")])
         end
     end)
    (fun e => ret (HJson false [("error", VStr e)])).

(** ** Reading a page of rows, counting rows *)

(** [get_table_rows(table_name, limit, offset)] with an integer [limit]. *)
Definition get_table_rows_page (table_name : string) (limit offset : Z)
  : M (option (list row)) :=
  try_except
    (if negb (limit =? 0)%Z then
       run_sql ("SELECT * FROM " ++ quote_ident table_name
                  ++ " LIMIT %s OFFSET %s")
               (PTuple [VInt limit; VInt offset])
     else run_sql ("SELECT * FROM " ++ quote_ident table_name) PNone)
    (fun e =>
       print ("Error getting data from " ++ table_name ++ ": " ++ e) ;;;
       ret (Some [])).

Definition get_row_count (table_name : string) : M value :=
  try_except
    (result <- run_sql ("SELECT COUNT(*) as count FROM "
                          ++ quote_ident table_name) PNone ;;
     match result with
     | Some (first :: _) => row_key RealDictCursor first (VStr "count")
     | _ => ret (VInt 0)
     end)
    (fun e =>
       print ("Error counting rows in " ++ table_name ++ ": " ++ e) ;;;
       ret (VInt 0)).

(** ** Wiping the database *)

(** [[table[0] for table in tables]] on rows fetched through [c]. *)
Fixpoint first_cells (c : conn) (tables : list row) : M (list value) :=
  match tables with
  | [] => ret []
  | table :: rest =>
      name <- row_index (factory c) table 0 ;;
      names <- first_cells c rest ;;
      ret (name :: names)
  end.

(** The loop of [wipe_database] over [table_names]; it carries
    [removed], and ends with the count, or at the first DROP that fails
    with what the function returns there. *)
Fixpoint wipe_loop (c : conn) (table_names : list value) (removed : nat)
  : M (nat + bool * string) :=
  match table_names with
  | [] => ret (inl removed)
  | name :: rest =>
      failed <-
        try_except
          (execute c ("DROP TABLE IF EXISTS " ++ quote_ident (py_str name)
                        ++ " CASCADE") None ;;;
           ret None)
          (fun e =>
             print ("Error dropping table " ++ py_str name ++ ": " ++ e) ;;;
             rollback c ;;;
             close c ;;;
             ret (Some (false, "Failed to drop " ++ py_str name ++ ": " ++ e))) ;;
      match failed with
      | Some result => ret (inr result)
      | None => wipe_loop c rest (S removed)
      end
  end.

(** [(ok, message)] *)
Definition wipe_database : M (bool * string) :=
  try_except
    (c <- get_db_connection false ;;
     match c with
     | None => ret (false, "DB connection error")
     | Some c =>
         cur <- execute c sql_wipe_tables None ;;
         tables <- fetchall cur ;;
         match tables with
         | [] =>
             close c ;;;
             ret (true, "No tables found")
         | _ =>
             table_names <- first_cells c tables ;;
             outcome <- wipe_loop c table_names 0 ;;
             match outcome with
             | inr result => ret result
             | inl removed =>
                 commit c ;;;
                 close c ;;;
                 ret (true, "Dropped " ++ str_of_N (N.of_nat removed)
                              ++ " tables")
             end
         end
     end)
    (fun e =>
       print ("Exception wiping database: " ++ e) ;;;
       ret (false, "Error: " ++ e)).

(** ** Saving one table *)

(** [(filepath, filename)], or [(None, error)]. *)
Definition save_table_to_xlsx (table_name : string)
  : M (option string * string) :=
  try_except
    (data <- get_table_rows_page table_name 50000 0 ;;
     match data with
     | Some ((_ :: _) as data) =>
         save_dir <- create_folder_with_time (folders "exports") ;;
         stamp <- now (Strftime "%H%M%S") ;;
         let filename := table_name ++ "_" ++ stamp ++ ".xlsx" in
         let filepath := path_join save_dir filename in
         write_excel filepath data ;;;
         ret (Some filepath, filename)
     | _ => ret (None, "No data to save")
     end)
    (fun e => ret (None, e)).

Definition save_table_to_json (table_name : string)
  : M (option string * string) :=
  try_except
    (data <- get_table_rows_page table_name 50000 0 ;;
     match data with
     | Some ((_ :: _) as data) =>
         save_dir <- create_folder_with_time (folders "exports") ;;
         stamp <- now (Strftime "%H%M%S") ;;
         let filename := table_name ++ "_" ++ stamp ++ ".json" in
         let filepath := path_join save_dir filename in
         let json_data := map json_row data in
         write_json filepath (JRows json_data) ;;;
         ret (Some filepath, filename)
     | _ => ret (None, "No data to save")
     end)
    (fun e => ret (None, e)).

(** ** Backup of the whole database *)

Definition create_database_backup : M backup_result :=
  try_except
    (let db_name := getenv_default "DB_NAME" "my_app_db" in
     let db_user := getenv_default "DB_USER" "postgres" in
     let db_host := getenv_default "DB_HOST" "postgres" in
     let db_port := getenv_default "DB_PORT" "5432" in
     save_dir <- create_folder_with_time (folders "backups") ;;
     time_str <- now (Strftime "%Y%m%d_%H%M%S") ;;
     let backup_file :=
       path_join save_dir
                 ("backup_" ++ db_name ++ "_" ++ time_str ++ ".backup") in
     let cmd := [pg_dump_path; "-h"; db_host; "-U"; db_user; "-p"; db_port;
                 "-d"; db_name; "-F"; "c";
                 "--no-tablespaces"; "--no-unlogged-table-data";
                 "-f"; backup_file; "-v"] in
     result <- run_process cmd (getenv_default "DB_PASSWORD" "postgres") ;;
     if (returncode result =? 0)%Z then ret (BackupOk backup_file)
     else ret (BackupError ("pg_dump error:" ++ nl ++ stderr result ++ nl
                              ++ stdout result)))
    (fun e => ret (BackupError ("Backup exception: " ++ e))).

(** ** More HTTP handlers of app/main.py *)

(** The loop of the [/api/modify] handler that keeps the values to send:
    [value is not None and (value != '' or key in nullable_columns)]. *)
Definition keep_step (nullable_columns : list value) (acc : dict value)
           (item : string * value) : dict value :=
  let (key, v) := item in
  if negb (is_none v)
     && (negb (value_is_str v "") || in_columns key nullable_columns)
  then dict_set key v acc
  else acc.

Definition keep_values (nullable_columns : list value) (data : dict value)
  : dict value :=
  fold_left (keep_step nullable_columns) data [].

Definition msg_nothing_to_modify : string := "Нет данных для изменения".

(** [POST /api/modify] with the [table], [data] and [condition] of the
    request body (an absent [table] or [condition] is the empty
    string). *)
Definition api_modify_row (table : string) (data : dict value)
           (condition : string) : M handler_result :=
  try_except
    (if table =? "" then ret (OwnError "Table required")
     else if blank condition then ret (OwnError "Condition required")
     else
       columns_info <- get_table_info table ;;
       let columns_info := match columns_info with Some l => l | None => [] end in
       nullable_columns <- nullable_names columns_info ;;
       let data := blank_to_none nullable_columns data in
       let clean_data := keep_values nullable_columns data in
       match clean_data with
       | [] => ret (OwnError msg_nothing_to_modify)
       | _ =>
           result <- modify_row table clean_data condition ;;
           ret (EngineResult result)
       end)
    (fun e => ret (OwnError e)).

(** [POST /api/drop_table] *)
Definition drop_table (table : string) : M http_response :=
  try_except
    (if table =? "" then ret (HJson false [("error", VStr "Table required")])
     else
       result <- drop_table_completely table ;;
       if result
       then ret (HJson true [("msg", VStr ("Table '" ++ table ++ "' dropped"))])
       else ret (HJson false
                       [("error", VStr ("Failed to drop '" ++ table ++ "'"))]))
    (fun e => ret (HJson false [("error", VStr e)])).

(** [POST /api/wipe_all] *)
Definition wipe_all_tables : M http_response :=
  try_except
    (result <- wipe_database ;;
     let (ok, msg) := result in
     if ok then
       ret (HJson true
                  [("msg", VStr msg);
                   ("dropped",
                    VStr (if contains ":" msg
                          then strip (after_last ":"%char msg)
                          else "unknown"))])
     else ret (HJson false [("error", VStr msg)]))
    (fun e => ret (HJson false [("error", VStr e)])).

(** [GET /api/get_table/{table_name}/{format}] *)
Definition get_table (table_name format : string) : M http_response :=
  try_except
    (if format =? "xlsx" then
       saved <- save_table_to_xlsx table_name ;;
       match saved with
       | (Some filepath, filename) => ret (HFile filepath media_xlsx filename)
       | (None, filename) => ret (HJson false [("error", VStr filename)])
       end
     else if format =? "json" then
       saved <- save_table_to_json table_name ;;
       match saved with
       | (Some filepath, filename) =>
           ret (HFile filepath "application/json" filename)
       | (None, filename) => ret (HJson false [("error", VStr filename)])
       end
     else ret (HJson false [("error", VStr "Format not supported")]))
    (fun e => ret (HJson false [("error", VStr e)])).

(** [POST /api/run_sql]; [params] comes with what [json.loads] makes of
    it: the decoded value, or the text of the [JSONDecodeError]. *)
Definition api_run_sql (sql params : string) (params_json : string + pyparams)
  : M sql_response :=
  try_except
    (match
       (if negb (params =? "") && negb (strip params =? "") then
          match params_json with
          | inr p => inr p
          | inl e => inl (SqlError ("JSON error: " ++ e))
          end
        else inr (PDict []))
     with
     | inl response => ret response
     | inr params_dict =>
         result <- run_sql sql params_dict ;;
         ret (SqlData result
                      (match result with
                       | Some l => length l
                       | None => O
                       end))
     end)
    (fun e => ret (SqlError e)).

(** [POST /api/backup] *)
Definition backup_db : M http_response :=
  try_except
    (result <- create_database_backup ;;
     match result with
     | BackupOk backup_file =>
         ret (HJson true [("msg", VStr ("Backup created: " ++ backup_file));
                          ("file", VStr backup_file)])
     | BackupError error => ret (HJson false [("error", VStr error)])
     end)
    (fun e => ret (HJson false [("error", VStr e)])).

End Engine.

Arguments mkWorld {B} env next_conn trace.
Arguments env {B} w.
Arguments next_conn {B} w.
Arguments trace {B} w.

(* ================================================================== *)
(** * A concrete environment *)
(* ================================================================== *)

(** A small scripted environment on which the engine can be run: a
    catalog with fixed answers, a statement that fails when it mentions a
    given text, a table whose dump fails, and the result of [pg_restore]. *)
Record scenario : Type := mkScenario {
  sc_up : bool;
  sc_columns : list row;
  sc_pk : list row;
  sc_edges : list row;
  sc_count : Z;
  sc_failing : option string;
  sc_bad_dump : string;
  sc_restore : completed_process
}.

Definition scenario_execute (s : scenario) (sql : string) : string + cursor_state :=
  match sc_failing s with
  | Some text =>
      if contains text sql then inl ("cannot execute: " ++ text)
      else inr (mkCursor 1 None)
  | None => inr (mkCursor 1 None)
  end.

Definition scenario_answer (s : scenario) (sql : string) : string + cursor_state :=
  if sql =? sql_table_info then inr (mkCursor (-1) (Some (sc_columns s)))
  else if sql =? sql_table_pk then inr (mkCursor (-1) (Some (sc_pk s)))
  else if sql =? sql_related_tables then inr (mkCursor (-1) (Some (sc_edges s)))
  else if sql =? sql_table_present
       then inr (mkCursor 1 (Some [[("exists", VBool true)]]))
  else if sql =? sql_pg_tables
       then inr (mkCursor 1 (Some [[("tablename", VStr "legacy")]]))
  else if String.prefix "SELECT COUNT(*)" sql
       then inr (mkCursor 1 (Some [[("count", VInt (sc_count s))]]))
  else if String.prefix "SELECT * FROM" sql
       then inr (mkCursor 1 (Some [[("id", VStr "1"); ("name", VStr "ann")]]))
  else scenario_execute s sql.

Definition scenario_process (s : scenario) (cmd : list string)
  : string + completed_process :=
  match cmd with
  | program :: _ =>
      if program =? "pg_restore" then inr (sc_restore s)
      else if existsb (String.eqb (sc_bad_dump s)) cmd
           then inr (mkProcess 1 "" "pg_dump: error: no matching tables were found")
           else inr (mkProcess 0 "" "")
  | [] => inl "empty command"
  end.

Definition scenario_clock (fmt : time_format) : string :=
  match fmt with
  | Strftime f => if f =? "%H%M%S" then "101500" else "20240101_101500"
  | Isoformat => "2024-01-01T10:15:00"
  end.

Definition scenario_backend (s : scenario) : Backend :=
  {| Env := unit;
     getenv := fun _ => None;
     pg_connect := fun _ e => (if sc_up s then None else Some "connection refused", e);
     pg_execute := fun _ sql _ e => (scenario_answer s sql, e);
     pg_commit := fun _ e => (None, e);
     pg_rollback := fun _ e => e;
     pg_close := fun _ e => e;
     path_exists := fun _ _ => true;
     fs_mkdir := fun _ e => (None, e);
     subprocess_run := fun cmd _ e => (scenario_process s cmd, e);
     to_excel := fun _ _ e => (None, e);
     json_dump := fun _ _ e => (None, e);
     clock := fun fmt e => (scenario_clock fmt, e) |}.

(** A state of the scripted environment: the next handle and the log. *)
Definition world_of (s : scenario) (next : nat) (log : list event)
  : World (scenario_backend s) :=
  mkWorld (tt : Env (scenario_backend s)) next log.

(** The engine starts with no connection opened and an empty log. *)
Definition start (s : scenario) : World (scenario_backend s) := world_of s 0 [].

Definition column (name nullable : string) : row :=
  [("column_name", VStr name); ("data_type", VStr "text");
   ("is_nullable", VStr nullable); ("column_default", VNone)].

Definition edge (referencing_table referencing_column referenced_table : string)
  : row :=
  [("referencing_table", VStr referencing_table);
   ("referencing_column", VStr referencing_column);
   ("referenced_table", VStr referenced_table);
   ("referenced_column", VStr "id")].

(** A [users] table with a non-nullable [name] and a nullable [nick],
    primary key [id], referenced by [orders.user_id] and
    [reviews.author_id]. *)
Definition shop : scenario :=
  {| sc_up := true;
     sc_columns := [column "id" "NO"; column "name" "NO"; column "nick" "YES"];
     sc_pk := [[("column_name", VStr "id")]];
     sc_edges := [edge "orders" "user_id" "users";
                  edge "reviews" "author_id" "users"];
     sc_count := 2;
     sc_failing := None;
     sc_bad_dump := "";
     sc_restore := mkProcess 0 "" "" |}.

(** The same database, unreachable. *)
Definition shop_offline : scenario :=
  {| sc_up := false;
     sc_columns := sc_columns shop;
     sc_pk := sc_pk shop;
     sc_edges := sc_edges shop;
     sc_count := 2;
     sc_failing := None;
     sc_bad_dump := "";
     sc_restore := mkProcess 0 "" "" |}.

(** The same database where every INSERT is refused. *)
Definition shop_insert_refused : scenario :=
  {| sc_up := true;
     sc_columns := sc_columns shop;
     sc_pk := sc_pk shop;
     sc_edges := sc_edges shop;
     sc_count := 2;
     sc_failing := Some "INSERT";
     sc_bad_dump := "";
     sc_restore := mkProcess 0 "" "" |}.

(** The same database where the dump of table [b] fails. *)
Definition shop_bad_dump : scenario :=
  {| sc_up := true;
     sc_columns := sc_columns shop;
     sc_pk := sc_pk shop;
     sc_edges := sc_edges shop;
     sc_count := 2;
     sc_failing := None;
     sc_bad_dump := "b";
     sc_restore := mkProcess 0 "" "" |}.

(** The same database where [pg_restore] exits with 1 after the warning
    about [transaction_timeout]. *)
Definition shop_restore_warning : scenario :=
  {| sc_up := true;
     sc_columns := sc_columns shop;
     sc_pk := sc_pk shop;
     sc_edges := sc_edges shop;
     sc_count := 2;
     sc_failing := None;
     sc_bad_dump := "";
     sc_restore :=
       mkProcess 1 "" ("pg_restore: error: could not execute query: ERROR:  "
                         ++ benign_warning) |}.

(** The [shop] database with no table that references [users]. *)
Definition shop_unreferenced : scenario :=
  {| sc_up := true;
     sc_columns := sc_columns shop;
     sc_pk := sc_pk shop;
     sc_edges := [];
     sc_count := 0;
     sc_failing := None;
     sc_bad_dump := "";
     sc_restore := mkProcess 0 "" "" |}.

(** A scripted database for [wipe_database]: it lists [tables], and
    refuses every statement that mentions [failing]. *)
Definition listing_backend (tables : list row) (failing : option string)
  : Backend :=
  {| Env := unit;
     getenv := fun _ => None;
     pg_connect := fun _ e => (None, e);
     pg_execute := fun _ sql _ e =>
       (if sql =? sql_wipe_tables
        then inr (mkCursor (Z.of_nat (length tables)) (Some tables))
        else match failing with
             | Some text =>
                 if contains text sql then inl ("cannot execute: " ++ text)
                 else inr (mkCursor (-1) None)
             | None => inr (mkCursor (-1) None)
             end, e);
     pg_commit := fun _ e => (None, e);
     pg_rollback := fun _ e => e;
     pg_close := fun _ e => e;
     path_exists := fun _ _ => true;
     fs_mkdir := fun _ e => (None, e);
     subprocess_run := fun _ _ e => (inr (mkProcess 0 "" ""), e);
     to_excel := fun _ _ e => (None, e);
     json_dump := fun _ _ e => (None, e);
     clock := fun fmt e => (scenario_clock fmt, e) |}.

(** A state of that database: the next handle and the log. *)
Definition listing_world (tables : list row) (failing : option string)
           (next : nat) (log : list event)
  : World (listing_backend tables failing) :=
  mkWorld (tt : Env (listing_backend tables failing)) next log.

(** Two tables, [a] and [b]. *)
Definition two_tables : list row :=
  [[("tablename", VStr "a")]; [("tablename", VStr "b")]].

(* ================================================================== *)
(** * Vocabulary of the properties *)
(* ================================================================== *)

(** [int(k)] as a total function, for stating the order of the keys. *)
Definition int_key (k : string) : N :=
  match py_int k with Some n => n | None => 0%N end.

(** A key that is a decimal numeral without leading zeros:
    [k.isdigit() and str(int(k)) == k]. *)
Definition decimal_key (k : string) : Prop :=
  isdigit k = true /\ str_of_N (int_key k) = k.

(** The dict that carries the argument list [l] under its positions:
    [{str(i): l[i]}]. *)
Definition positional (l : list value) : dict value :=
  combine (map (fun i => str_of_N (N.of_nat i)) (seq 0 (length l))) l.

(** The canonical form of the argument list [l]: its tuple, and [None]
    for no argument. *)
Definition canonical (l : list value) : pyparams :=
  match l with [] => PNone | _ => PTuple l end.

(** [p] is the decoded form of a JSON text of the argument list [l]: the
    list, or a dict of its positions in any order. *)
Definition represents (p : pyparams) (l : list value) : Prop :=
  p = PList l \/
  exists d, p = PDict d /\ NoDup (keys d) /\ Permutation d (positional l).

(** The two rules of the coercion as the specification words them: a
    plain sequence passes through as positional, and a mapping whose keys
    are all numeric is projected to a sequence. *)
Definition sequence_rule_as_stated : Prop :=
  forall l, _prepare_params (PList l) = PTuple l.

Definition numeric_rule_as_stated : Prop :=
  forall d, d <> [] -> forallb isdigit (keys d) = true ->
            exists items, _prepare_params (PDict d) = PTuple items.

(** A condition that is empty or holds white space only. *)
Definition whitespace_only (s : string) : Prop :=
  forallb is_space (list_ascii_of_string s) = true.

(** The connection an event belongs to. *)
Definition event_handle (ev : event) : option nat :=
  match ev with
  | EvConnect _ h => h
  | EvExecute h _ _ _ | EvCommit h _ | EvRollback h | EvClose h => Some h
  | _ => None
  end.

Definition on_conn (h : nat) (ev : event) : bool :=
  match event_handle ev with
  | Some h' => Nat.eqb h' h
  | None => false
  end.

(** The calls made on connection [h], oldest first. *)
Definition on (h : nat) (tr : list event) : list event := filter (on_conn h) tr.

(** The texts of the statements sent, oldest first. *)
Definition sql_texts (tr : list event) : list string :=
  flat_map (fun ev => match ev with
                      | EvExecute _ sql _ _ => [sql]
                      | _ => []
                      end) tr.

Definition is_prefix {A : Type} (l1 l2 : list A) : Prop :=
  exists rest, l2 = (l1 ++ rest)%list.

(** [r.get(k)] *)
Definition row_value (r : row) (k : string) : value :=
  match dict_get k r with Some v => v | None => VNone end.

(** The cascade delete for one inbound edge, and the deletes for all of
    them in the order of the edges. *)
Definition edge_delete_sql (table_name condition : string) (edge : row)
           (pk : value) : string :=
  cascade_delete_sql table_name condition
                     (row_value edge "referencing_table")
                     (row_value edge "referencing_column") pk.

Definition cascade_plan (table_name condition : string) (edges : list row)
           (pks : list value) : list string :=
  map (fun ep => edge_delete_sql table_name condition (fst ep) (snd ep))
      (combine edges pks).

(** The calls that the loop of [remove_row] makes on its connection [h],
    over the inbound edges that are left, with how the loop ends: one
    successful delete per edge, in order; or the deletes of the first
    edges and then one that fails with the error it raised; or the deletes
    of the first edges and then an exception outside the connection. *)
Inductive cascade_run (h : nat) (table_name condition : string)
  : list row -> list event -> outcome unit -> Prop :=
| cascade_done : cascade_run h table_name condition [] [] (Val tt)
| cascade_next (edge : row) (edges : list row) (pk : value) (n : Z)
               (evs : list event) (o : outcome unit) :
    cascade_run h table_name condition edges evs o ->
    cascade_run h table_name condition (edge :: edges)
                (EvExecute h (edge_delete_sql table_name condition edge pk)
                           None (inr n) :: evs) o
| cascade_failed (edge : row) (edges : list row) (pk : value) (err : string) :
    cascade_run h table_name condition (edge :: edges)
                [EvExecute h (edge_delete_sql table_name condition edge pk)
                           None (inl err)] (Exc err)
| cascade_aborted (edge : row) (edges : list row) (msg : string) :
    cascade_run h table_name condition (edge :: edges) [] (Exc msg).

(** The statement that drops a listed table. *)
Definition drop_table_sql (table : row) : string :=
  "DROP TABLE IF EXISTS " ++ quote_ident (py_str (hd VNone (values table)))
    ++ " CASCADE".

(** An event that tells of no failure: not a call that raised, and not a
    printed message. *)
Definition smooth (ev : event) : Prop :=
  match ev with
  | EvExecute _ _ _ (inl _) => False
  | EvCommit _ (Some _) => False
  | EvConnect _ None => False
  | EvPrint _ => False
  | _ => True
  end.

(** [m] always returns, and logs only events that satisfy [P]. *)
Definition adds {B : Backend} {A : Type} (P : event -> Prop) (m : M B A) : Prop :=
  forall w, exists o w' evs,
      m w = (o, w') /\ trace w' = (trace w ++ evs)%list /\ Forall P evs.

(** The calls of a database session whose only statement is [sql]. *)
Definition session_event (sql : string) (ev : event) : Prop :=
  match ev with
  | EvExecute _ s _ _ => s = sql
  | EvConnect _ _ | EvCommit _ _ | EvRollback _ | EvClose _ | EvPrint _ => True
  | _ => False
  end.

(** [s.endswith(suffix)] *)
Definition has_suffix (suffix s : string) : Prop :=
  exists stem, s = stem ++ suffix.

(** A file event that writes a workbook named [*.xlsx]; an event that
    writes no file at all also qualifies. *)
Definition xlsx_only (ev : event) : Prop :=
  match ev with
  | EvToExcel path _ => has_suffix ".xlsx" path
  | EvJsonDump _ _ => False
  | _ => True
  end.

(** [w'] comes after [w]: its log continues the log of [w]. *)
Definition extends {B : Backend} (w w' : World B) : Prop :=
  exists evs, trace w' = (trace w ++ evs)%list.

(** The step of the pack workflow that an event carries out: 1 the
    backup, 2 the tabular snapshot, 3 the structured snapshot, 4 the
    drop. *)
Definition pack_step (ev : event) : option nat :=
  match ev with
  | EvRun _ => Some 1
  | EvToExcel _ _ => Some 2
  | EvJsonDump _ _ => Some 3
  | EvExecute _ sql _ _ =>
      if String.prefix "DROP TABLE" sql then Some 4 else None
  | _ => None
  end.

Definition pack_steps (tr : list event) : list nat :=
  flat_map (fun ev => match pack_step ev with Some n => [n] | None => [] end) tr.

(** The steps in the order of the workflow; a table without rows has no
    tabular snapshot. *)
Definition in_order (steps : list nat) : Prop :=
  is_prefix steps [1; 2; 3; 4] \/ is_prefix steps [1; 3; 4].

(** What [pack_tables] records for one table, against the steps it took
    for it. *)
Definition table_outcome (table : string) (entry : pack_entry)
           (steps : list nat) : Prop :=
  in_order steps /\
  match entry with
  | PackDone r =>
      pr_table r = table /\ pr_status r = "ok" /\ In 4 steps
  | PackError msg =>
      (exists detail,
          msg = "Backup error for '" ++ table ++ "': " ++ detail /\ steps = [1])
      \/ msg = "Error dropping table '" ++ table ++ "'"
      \/ (exists detail,
             msg = "Error packing table '" ++ table ++ "': " ++ detail)
  end.

(** The tables, what is recorded for each, and the events of the loop: one
    segment of events per table, in the order of the tables. *)
Inductive pack_run : list string -> list pack_entry -> list event -> Prop :=
| pack_run_nil : pack_run [] [] []
| pack_run_cons (table : string) (tables : list string) (entry : pack_entry)
                (entries : list pack_entry) (segment evs : list event) :
    table_outcome table entry (pack_steps segment) ->
    pack_run tables entries evs ->
    pack_run (table :: tables) (entry :: entries) (segment ++ evs).

(** An event that sends no statement. *)
Definition no_statement (ev : event) : Prop :=
  match ev with
  | EvExecute _ _ _ _ => False
  | _ => True
  end.

(** What [add_row] may send for [data]: the two catalog queries, and the
    INSERT over the kept columns with the kept values as its bound
    parameters. *)
Definition insert_event (table_name : string) (data : dict value) (ev : event)
  : Prop :=
  match ev with
  | EvExecute _ sql p _ =>
      sql = sql_table_info \/ sql = sql_table_pk \/
      exists nullable_columns pk,
        sql = insert_sql table_name (filter_values nullable_columns data) pk /\
        p = Some (PTuple (values (filter_values nullable_columns data)))
  | _ => True
  end.

(** What [modify_row] may send for [data]: the catalog query, and the
    UPDATE over the kept columns with the kept values as its bound
    parameters. *)
Definition update_event (table_name condition : string) (data : dict value)
           (ev : event) : Prop :=
  match ev with
  | EvExecute _ sql p _ =>
      sql = sql_table_info \/
      exists nullable_columns,
        sql = update_sql table_name (filter_values nullable_columns data)
                         condition /\
        p = Some (PTuple (values (filter_values nullable_columns data)))
  | _ => True
  end.

Section Columns.
Context (B : Backend).

(** The column list of the statement that [add_row] builds in [w]. *)
Definition add_row_columns (table_name : string) (data : dict value)
           (w : World B) : list string :=
  match get_table_info B table_name w with
  | (Val (Some ((_ :: _) as info)), w1) =>
      match nullable_names B info w1 with
      | (Val nullable_columns, _) => keys (filter_values nullable_columns data)
      | _ => []
      end
  | _ => []
  end.

(** The column list of the statement that [modify_row] builds in [w]. *)
Definition modify_row_columns (table_name : string) (data : dict value)
           (w : World B) : list string :=
  match get_table_info B table_name w with
  | (Val (Some ((_ :: _) as info)), w1) =>
      match column_names B info w1 with
      | (Val nullable_columns, _) => keys (filter_values nullable_columns data)
      | _ => []
      end
  | (Val _, _) => keys (filter_values [] data)
  | _ => []
  end.

End Columns.

(** ** Vocabulary of the further properties *)

(** A parameter object that is a [list]. *)
Definition is_list (p : pyparams) : bool :=
  match p with
  | PList _ => true
  | _ => false
  end.

(** What the loop of [add_row] and of [modify_row] keeps of one item of
    [data.items()]. *)
Definition kept (nullable_columns : list value) (item : string * value)
  : list (string * value) :=
  if has_content (snd item) then [item]
  else if in_columns (fst item) nullable_columns then [(fst item, VNone)]
  else [].

(** A cell value that [json.dump] takes as it is: neither a timestamp nor
    an object with a [__dict__]. *)
Definition plain (v : value) : bool :=
  match v with
  | VTime _ _ => false
  | VObj _ true _ => false
  | _ => true
  end.

(** What [run_sql] hands to [cursor.execute] for [params]: the coerced
    parameters, or nothing at all. *)
Definition bound_params (params : pyparams) : option pyparams :=
  if truthy (_prepare_params params) then Some (_prepare_params params)
  else None.

(** The calls of a unit of work on connection [h], after the connect:
    one statement [sql] with the parameters [p], and then the commit and
    the close; or the statement refused by the server; or the statement
    accepted and the commit refused. *)
Definition committed (h : nat) (sql : string) (p : option pyparams) (n : Z)
  : list event :=
  [EvExecute h sql p (inr n); EvCommit h None; EvClose h].

Definition refused (h : nat) (sql : string) (p : option pyparams)
           (err : string) : list event :=
  [EvExecute h sql p (inl err)].

Definition uncommitted (h : nat) (sql : string) (p : option pyparams) (n : Z)
           (err : string) : list event :=
  [EvExecute h sql p (inr n); EvCommit h (Some err)].

(** What [run_sql] and [drop_table_completely] do after a failure on
    connection [h]: roll back, print, close. *)
Definition recovery (h : nat) (msg : string) : list event :=
  [EvRollback h; EvPrint msg; EvClose h].

(** The statement of [drop_table_completely]. *)
Definition drop_cascade_sql (table_name : string) : string :=
  "DROP TABLE IF EXISTS " ++ quote_ident table_name ++ " CASCADE".

(** An event of the safe-mode check on [table_name]: if it sends a
    statement, it is the primary-key query or the count of an edge. *)
Definition count_only (table_name condition : string) (ev : event) : Prop :=
  match ev with
  | EvExecute _ sql _ _ =>
      sql = sql_table_pk \/
      exists rel_name rel_column pk,
        sql = count_sql table_name condition rel_name rel_column pk
  | _ => True
  end.

(** The DROPs of [wipe_database] that went through on connection [h]:
    one per name, in order, with the row counts the server gave. *)
Definition dropped (h : nat) (names : list value) (counts : list Z)
  : list event :=
  map (fun nc => EvExecute h (drop_cascade_sql (py_str (fst nc))) None
                           (inr (snd nc)))
      (combine names counts).

(** The statement of [get_table_rows] with a limit. *)
Definition page_sql (table_name : string) : string :=
  "SELECT * FROM " ++ quote_ident table_name ++ " LIMIT %s OFFSET %s".

(** An event of a database session that sends, if anything, the page
    query on [table_name] bound to [limit] and [offset]; it writes no
    file, makes no folder and starts no program. *)
Definition page_event (table_name : string) (limit offset : Z) (ev : event)
  : Prop :=
  match ev with
  | EvExecute _ sql p _ =>
      sql = page_sql table_name /\
      p = Some (PTuple [VInt limit; VInt offset])
  | EvConnect _ _ | EvCommit _ _ | EvRollback _ | EvClose _ | EvPrint _ => True
  | _ => False
  end.

(** How the export of the rows of [table_name] ends, after the session
    that fetched them: the folder made and the file [table_stamp.suffix]
    written in it, with its path and name as the result; or the folder
    refused; or the file refused. *)
Definition export_run (table_name suffix : string)
           (file_event : string -> event) (session : list event)
           (r : option string * string) (evs : list event) : Prop :=
  exists dir,
    (exists stamp,
        let name := table_name ++ "_" ++ stamp ++ suffix in
        r = (Some (path_join dir name), name) /\
        evs = (session ++ [EvMkdir dir; file_event (path_join dir name)])%list)
    \/ (exists err, r = (None, err) /\ evs = (session ++ [EvMkdir dir])%list)
    \/ (exists err stamp,
           let name := table_name ++ "_" ++ stamp ++ suffix in
           r = (None, err) /\
           evs = (session ++ [EvMkdir dir; file_event (path_join dir name)])%list).

(** The command line of the dump of the whole database into [file]. *)
Definition dump_cmd (B : Backend) (file : string) : list string :=
  [pg_dump_path;
   "-h"; getenv_default B "DB_HOST" "postgres";
   "-U"; getenv_default B "DB_USER" "postgres";
   "-p"; getenv_default B "DB_PORT" "5432";
   "-d"; getenv_default B "DB_NAME" "my_app_db";
   "-F"; "c"; "--no-tablespaces"; "--no-unlogged-table-data";
   "-f"; file; "-v"].

(** The backup file that [create_database_backup] names in [dir]. *)
Definition dump_file (B : Backend) (dir stamp : string) : string :=
  path_join dir ("backup_" ++ getenv_default B "DB_NAME" "my_app_db" ++ "_"
                   ++ stamp ++ ".backup").

(** [len(result) if result else 0] *)
Definition rows_count (data : option (list row)) : nat :=
  match data with
  | Some l => length l
  | None => O
  end.

(** The parameters that the [/api/run_sql] handler passes on: the
    decoded [params], or the empty dict when the text is blank. *)
Definition effective_params (params : string) (p : pyparams) : pyparams :=
  if blank params then PDict [] else p.

(** An event that, if it sends a statement other than the catalog query,
    binds a tuple of values that all have content: neither [None] nor the
    empty string. *)
Definition content_only (ev : event) : Prop :=
  match ev with
  | EvExecute _ sql p _ =>
      sql = sql_table_info \/
      exists vs, p = Some (PTuple vs) /\ forallb has_content vs = true
  | _ => True
  end.

(** What the first loop of the [/api/add] and [/api/modify] handlers
    makes of one item. *)
Definition blanked (nullable_columns : list value) (item : string * value)
  : string * value :=
  if value_is_str (snd item) "" && in_columns (fst item) nullable_columns
  then (fst item, VNone)
  else item.

(** An event that starts no program. *)
Definition no_process (ev : event) : Prop :=
  match ev with
  | EvRun _ => False
  | _ => True
  end.

(** [l1] is made of items of [l2], in the order of [l2]. *)
Inductive subsequence {A : Type} : list A -> list A -> Prop :=
| subsequence_nil : subsequence [] []
| subsequence_skip (x : A) (l1 l2 : list A) :
    subsequence l1 l2 -> subsequence l1 (x :: l2)
| subsequence_keep (x : A) (l1 l2 : list A) :
    subsequence l1 l2 -> subsequence (x :: l1) (x :: l2).

(** An event of the check that a table exists: if it sends a statement,
    it is the presence query, bound to the name of a table of
    [table_names]. *)
Definition presence_event (table_names : list string) (ev : event) : Prop :=
  match ev with
  | EvExecute _ sql p _ =>
      sql = sql_table_present /\
      exists table, In table table_names /\ p = Some (PTuple [VStr table])
  | EvConnect _ _ | EvCommit _ _ | EvRollback _ | EvClose _ | EvPrint _ => True
  | _ => False
  end.

(** The statements sent, each with its bound parameters, oldest first. *)
Definition statements (tr : list event) : list (string * option pyparams) :=
  flat_map (fun ev => match ev with
                      | EvExecute _ sql p _ => [(sql, p)]
                      | _ => []
                      end) tr.

(** A database server that refuses every connection. *)
Definition unreachable (B : Backend) : Prop :=
  forall f e, exists err e', pg_connect B f e = (Some err, e').

(** In every state, [m] returns [a] and sends no statement. *)
Definition always {B : Backend} {A : Type} (m : M B A) (a : A) : Prop :=
  forall w, exists w' evs,
      m w = (Val a, w') /\ trace w' = (trace w ++ evs)%list /\
      Forall no_statement evs.

(** The command line of the dump of one table into [file]. *)
Definition table_dump_cmd (B : Backend) (table_name file : string)
  : list string :=
  [pg_dump_path;
   "-h"; getenv_default B "DB_HOST" "postgres";
   "-U"; getenv_default B "DB_USER" "postgres";
   "-p"; getenv_default B "DB_PORT" "5432";
   "-d"; getenv_default B "DB_NAME" "my_app_db";
   "-t"; table_name;
   "-F"; "c"; "--no-tablespaces"; "--no-unlogged-table-data";
   "-f"; file; "-v"].

(* ================================================================== *)
(** * Properties *)
(* ================================================================== *)

Lemma digits_of_uint (d : Decimal.uint) :
  forallb is_digit (list_ascii_of_string (NilEmpty.string_of_uint d)) = true.
Proof. induction d; simpl; auto. Qed.

Lemma string_of_uint_empty (d : Decimal.uint) :
  NilEmpty.string_of_uint d = EmptyString -> d = Decimal.Nil.
Proof. destruct d; simpl; intros H; try discriminate; reflexivity. Qed.

Lemma to_uint_not_nil (n : N) : N.to_uint n <> Decimal.Nil.
Proof.
  destruct n as [|p]; simpl; [discriminate|].
  intros H. pose proof (DecimalPos.Unsigned.of_to p) as E.
  rewrite H in E. simpl in E. discriminate.
Qed.

Lemma isdigit_str_of_N (n : N) : isdigit (str_of_N n) = true.
Proof.
  unfold isdigit, str_of_N.
  destruct (NilEmpty.string_of_uint (N.to_uint n)) eqn:E.
  - apply string_of_uint_empty in E. now apply to_uint_not_nil in E.
  - rewrite <- E. apply digits_of_uint.
Qed.

Lemma py_int_str_of_N (n : N) : py_int (str_of_N n) = Some n.
Proof.
  unfold py_int. rewrite isdigit_str_of_N. unfold str_of_N.
  rewrite NilEmpty.usu. simpl. now rewrite DecimalN.Unsigned.of_to.
Qed.

Lemma int_key_str_of_N (n : N) : int_key (str_of_N n) = n.
Proof. unfold int_key. now rewrite py_int_str_of_N. Qed.

Lemma decimal_key_str_of_N (n : N) : decimal_key (str_of_N n).
Proof. split; [apply isdigit_str_of_N | now rewrite int_key_str_of_N]. Qed.

Lemma py_int_decimal (k : string) : isdigit k = true -> py_int k = Some (int_key k).
Proof.
  intros H. unfold int_key, py_int. rewrite H.
  destruct (NilEmpty.uint_of_string k) eqn:E; simpl; [reflexivity|].
  exfalso. revert H E. unfold isdigit. destruct k as [|c k]; [discriminate|].
  intros H. clear -H. revert c H. induction k as [|c' k IH]; intros c H E.
  - simpl in *. unfold is_digit in H. rewrite andb_true_r in H.
    unfold uint_of_char in E.
    destruct c as [[] [] [] [] [] [] [] []]; simpl in *; discriminate.
  - simpl in H. apply andb_true_iff in H as [Hc H].
    specialize (IH c' H). simpl in E. simpl in IH.
    destruct (uint_of_char c' (NilEmpty.uint_of_string k)) eqn:E'; [|now apply IH].
    unfold uint_of_char in E. unfold is_digit in Hc.
    destruct c as [[] [] [] [] [] [] [] []]; simpl in *; discriminate.
Qed.

Lemma insert_sorted_perm (n : N) (l : list N) :
  Permutation (insert_sorted n l) (n :: l).
Proof.
  induction l as [|m l IH]; simpl; [reflexivity|].
  destruct (n <=? m)%N; [reflexivity|].
  rewrite IH. apply perm_swap.
Qed.

Lemma sorted_perm (l : list N) : Permutation (sorted l) l.
Proof.
  induction l as [|n l IH]; simpl; [reflexivity|].
  rewrite insert_sorted_perm. now constructor.
Qed.

Lemma insert_sorted_ordered (n : N) (l : list N) :
  StronglySorted N.le l -> StronglySorted N.le (insert_sorted n l).
Proof.
  induction 1 as [|m l Hs IH Hm]; simpl.
  - repeat constructor.
  - destruct (n <=? m)%N eqn:E.
    + apply N.leb_le in E. constructor; [now constructor|].
      constructor; [assumption|].
      eapply Forall_impl; [|exact Hm]. intros; lia.
    + apply N.leb_gt in E. constructor; [assumption|].
      eapply Permutation_Forall.
      * symmetry. apply insert_sorted_perm.
      * constructor; [lia | assumption].
Qed.

Lemma sorted_ordered (l : list N) : StronglySorted N.le (sorted l).
Proof.
  induction l; simpl; [constructor | now apply insert_sorted_ordered].
Qed.

Lemma ordered_perm_unique (l1 l2 : list N) :
  StronglySorted N.le l1 -> StronglySorted N.le l2 ->
  Permutation l1 l2 -> l1 = l2.
Proof.
  intros H1. revert l2.
  induction H1 as [|a l1 Hs IH Ha]; intros l2 H2 P.
  - apply Permutation_nil in P. now subst.
  - destruct H2 as [|b l2 Hs2 Hb].
    + apply Permutation_sym, Permutation_nil in P. discriminate.
    + assert (a = b) as ->.
      { assert (In a (b :: l2)) as Ia
          by (eapply Permutation_in; [exact P | now left]).
        assert (In b (a :: l1)) as Ib
          by (eapply Permutation_in; [symmetry; exact P | now left]).
        rewrite Forall_forall in Ha, Hb.
        destruct Ia as [->|Ia]; [reflexivity|].
        destruct Ib as [->|Ib]; [reflexivity|].
        specialize (Ha _ Ib). specialize (Hb _ Ia). lia. }
      f_equal. apply IH; [assumption|].
      now apply Permutation_cons_inv in P.
Qed.

Lemma sorted_of_perm (l l' : list N) :
  Permutation l' l -> StronglySorted N.le l' -> sorted l = l'.
Proof.
  intros P S. apply ordered_perm_unique; [apply sorted_ordered | assumption |].
  rewrite sorted_perm. now symmetry.
Qed.

Lemma dict_get_in {V : Type} (d : dict V) (k : string) (v : V) :
  NoDup (keys d) -> In (k, v) d -> dict_get k d = Some v.
Proof.
  induction d as [|[k' v'] d IH]; simpl; intros N I; [contradiction|].
  inversion N as [|? ? Hn N']; subst.
  destruct I as [E|I].
  - inversion E; subst. now rewrite String.eqb_refl.
  - destruct (k' =? k) eqn:E.
    + apply String.eqb_eq in E. subst. exfalso. apply Hn.
      unfold keys. change k with (fst (k, v)). now apply in_map.
    + now apply IH.
Qed.

Lemma map_opt_some {A C : Type} (f : A -> option C) (g : A -> C) (l : list A) :
  (forall x, In x l -> f x = Some (g x)) -> map_opt f l = Some (map g l).
Proof.
  induction l as [|x l IH]; simpl; intros H; [reflexivity|].
  rewrite (H x) by now left. rewrite IH; [reflexivity|].
  intros; apply H; now right.
Qed.

Lemma map_opt_map_some {A A' C : Type} (f : A' -> option C) (h : A -> A')
      (g : A -> C) (l : list A) :
  (forall x, In x l -> f (h x) = Some (g x)) ->
  map_opt f (map h l) = Some (map g l).
Proof.
  induction l as [|x l IH]; simpl; intros H; [reflexivity|].
  rewrite (H x) by now left. rewrite IH; [reflexivity|].
  intros; apply H; now right.
Qed.

Lemma filter_all {A : Type} (f : A -> bool) (l : list A) :
  forallb f l = true -> filter f l = l.
Proof.
  induction l as [|x l IH]; simpl; [reflexivity|].
  intros H. apply andb_true_iff in H as [Hx H]. rewrite Hx. now rewrite IH.
Qed.

Lemma forallb_decimal (ks : list string) :
  Forall decimal_key ks -> forallb isdigit ks = true.
Proof.
  induction 1 as [|k ks [Hk _] _ IH]; simpl; [reflexivity|].
  now rewrite Hk.
Qed.

(** A mapping whose keys are decimal numerals is projected to its values
    in ascending order of the keys. *)
Lemma prepare_dict_projects (d d' : dict value) :
  NoDup (keys d) -> Forall decimal_key (keys d) ->
  Permutation d' d -> StronglySorted N.le (map int_key (keys d')) ->
  prepare_dict d = Some (PTuple (values d')).
Proof.
  intros N D P S. unfold prepare_dict.
  pose proof (forallb_decimal _ D) as A. rewrite A, (filter_all _ _ A).
  rewrite (map_opt_some py_int int_key).
  2:{ intros k I. rewrite Forall_forall in D. apply py_int_decimal, D, I. }
  rewrite (sorted_of_perm _ (map int_key (keys d'))); [|
    apply Permutation_map; unfold keys; now apply Permutation_map | assumption].
  unfold keys. rewrite map_map.
  rewrite (map_opt_map_some _ _ snd).
  - reflexivity.
  - intros [k v] I. simpl.
    assert (In (k, v) d) as I' by (eapply Permutation_in; eassumption).
    assert (decimal_key k) as [_ E].
    { rewrite Forall_forall in D. apply D. unfold keys.
      change k with (fst (k, v)). now apply in_map. }
    rewrite E. now apply dict_get_in.
Qed.

Lemma keys_combine {V : Type} (ks : list string) (vs : list V) :
  length ks = length vs -> keys (combine ks vs) = ks.
Proof.
  revert vs. induction ks as [|k ks IH]; intros [|v vs]; simpl; try discriminate;
    [reflexivity|].
  intros H. f_equal. apply IH. now injection H.
Qed.

Lemma values_combine {V : Type} (ks : list string) (vs : list V) :
  length ks = length vs -> values (combine ks vs) = vs.
Proof.
  revert vs. induction ks as [|k ks IH]; intros [|v vs]; simpl; try discriminate;
    [reflexivity|].
  intros H. f_equal. apply IH. now injection H.
Qed.

Lemma keys_positional (l : list value) :
  keys (positional l) = map (fun i => str_of_N (N.of_nat i)) (seq 0 (length l)).
Proof. apply keys_combine. now rewrite length_map, length_seq. Qed.

Lemma values_positional (l : list value) : values (positional l) = l.
Proof. apply values_combine. now rewrite length_map, length_seq. Qed.

Lemma positions_ordered (a n : nat) :
  StronglySorted N.le (map N.of_nat (seq a n)).
Proof.
  revert a. induction n as [|n IH]; intros a; simpl; constructor; [apply IH|].
  apply Forall_forall. intros x I. apply in_map_iff in I as [i [<- I]].
  apply in_seq in I. lia.
Qed.

Lemma int_keys_positional (l : list value) :
  map int_key (keys (positional l)) = map N.of_nat (seq 0 (length l)).
Proof.
  rewrite keys_positional, map_map. apply map_ext. intros i.
  apply int_key_str_of_N.
Qed.

Lemma decimal_keys_positional (l : list value) :
  Forall decimal_key (keys (positional l)).
Proof.
  rewrite keys_positional. apply Forall_forall. intros k I.
  apply in_map_iff in I as [i [<- _]]. apply decimal_key_str_of_N.
Qed.

Lemma prepare_positional (l : list value) (d : dict value) :
  NoDup (keys d) -> Permutation d (positional l) ->
  _prepare_params (PDict d) = canonical l.
Proof.
  intros N P. destruct l as [|v l].
  - apply Permutation_sym, Permutation_nil in P. now subst.
  - assert (d <> []) as Hd.
    { intros ->. apply Permutation_nil in P. discriminate. }
    destruct d as [|kv d]; [contradiction|].
    change (_prepare_params (PDict (kv :: d)))
      with (match prepare_dict (kv :: d) with
            | Some r => r
            | None => prepare_fallback (PDict (kv :: d))
            end).
    rewrite (prepare_dict_projects _ (positional (v :: l))).
    + now rewrite values_positional.
    + assumption.
    + apply (@Permutation_Forall _ decimal_key (keys (positional (v :: l))));
        [|apply decimal_keys_positional].
      unfold keys. apply Permutation_map. now symmetry.
    + now symmetry.
    + rewrite int_keys_positional. apply positions_ordered.
Qed.

Lemma prepare_list (l : list value) : _prepare_params (PList l) = canonical l.
Proof. now destruct l. Qed.

Lemma prepare_json_text (s : string) (p : pyparams) :
  s <> "" -> _prepare_params (PStr s (Some p)) = _prepare_params p.
Proof.
  intros H. destruct s; [contradiction|]. reflexivity.
Qed.




Lemma dict_get_set_same {V : Type} (k : string) (v : V) (d : dict V) :
  dict_get k (dict_set k v d) = Some v.
Proof.
  induction d as [|[k' v'] d IH]; cbn [dict_set dict_get].
  - now rewrite String.eqb_refl.
  - destruct (k' =? k) eqn:E; cbn [dict_get]; now rewrite E.
Qed.

Lemma dict_get_set_other {V : Type} (k k0 : string) (v : V) (d : dict V) :
  k0 <> k -> dict_get k (dict_set k0 v d) = dict_get k d.
Proof.
  intros N. induction d as [|[k' v'] d IH]; cbn [dict_set dict_get].
  - apply String.eqb_neq in N. now rewrite N.
  - destruct (k' =? k0) eqn:E; cbn [dict_get].
    + apply String.eqb_eq in E. subst k'. apply String.eqb_neq in N.
      now rewrite N.
    + destruct (k' =? k); [reflexivity | exact IH].
Qed.

Lemma dict_get_absent {V : Type} (k : string) (d : dict V) :
  ~ In k (keys d) -> dict_get k d = None.
Proof.
  induction d as [|[k' v'] d IH]; cbn; [reflexivity|].
  intros N. destruct (k' =? k) eqn:E.
  - apply String.eqb_eq in E. subst. exfalso. apply N. now left.
  - apply IH. intros I. apply N. now right.
Qed.

(** What the loop of [add_row] and [modify_row] keeps of [data]: a value
    with content as it is; an empty one as [None] when its column is in
    [nullable_columns], and not at all otherwise. *)
Lemma filter_values_policy (nullable_columns : list value) (data : dict value)
      (k : string) :
  NoDup (keys data) ->
  dict_get k (filter_values nullable_columns data)
  = match dict_get k data with
    | Some v =>
        if has_content v then Some v
        else if in_columns k nullable_columns then Some VNone else None
    | None => None
    end.
Proof.
  unfold filter_values.
  assert (forall rest acc,
             NoDup (keys rest) ->
             dict_get k (fold_left (filter_step nullable_columns) rest acc)
             = match dict_get k rest with
               | Some v =>
                   if has_content v then Some v
                   else if in_columns k nullable_columns then Some VNone
                        else dict_get k acc
               | None => dict_get k acc
               end) as G.
  { induction rest as [|[k0 v0] rest IH]; intros acc N; [reflexivity|].
    cbn [fold_left]. inversion N as [|? ? N0 N1]; subst.
    rewrite (IH _ N1). cbn [dict_get].
    destruct (k0 =? k) eqn:E.
    - apply String.eqb_eq in E. subst k0.
      rewrite (dict_get_absent _ _ N0). unfold filter_step.
      destruct (has_content v0); [apply dict_get_set_same|].
      destruct (in_columns k nullable_columns); [apply dict_get_set_same|].
      reflexivity.
    - apply String.eqb_neq in E.
      assert (dict_get k (filter_step nullable_columns acc (k0, v0))
              = dict_get k acc) as ->.
      { unfold filter_step. destruct (has_content v0);
          [now apply dict_get_set_other|].
        destruct (in_columns k0 nullable_columns);
          [now apply dict_get_set_other | reflexivity]. }
      reflexivity. }
  intros N. rewrite (G data [] N). cbn [dict_get].
  destruct (dict_get k data) as [v|]; [|reflexivity].
  destruct (has_content v); [reflexivity|].
  destruct (in_columns k nullable_columns); reflexivity.
Qed.

Lemma drop_space_all (l : list ascii) : forallb is_space l = true -> drop_space l = [].
Proof.
  induction l as [|c l IH]; cbn [forallb drop_space]; [reflexivity|].
  intros H. apply andb_true_iff in H as [-> H]. now apply IH.
Qed.

Lemma blank_whitespace (s : string) : whitespace_only s -> blank s = true.
Proof.
  intros H. unfold blank, strip. rewrite (drop_space_all _ H). cbn.
  apply orb_true_r.
Qed.

Section Guards.
Context (B : Backend).

End Guards.

Lemma on_app (h : nat) (a b : list event) :
  on h (a ++ b) = (on h a ++ on h b)%list.
Proof. apply filter_app. Qed.

Lemma eqb_fresh (h n : nat) : h < n -> Nat.eqb n h = false.
Proof. intros H. apply Nat.eqb_neq. lia. Qed.

Ltac env_step :=
  match goal with
  | |- context [truthy ?p] => destruct (truthy p)
  | |- context [pg_execute ?B ?h ?s ?p ?e] =>
      destruct (pg_execute B h s p e) as [[?|?] ?]
  | |- context [pg_commit ?B ?h ?e] =>
      destruct (pg_commit B h e) as [[?|] ?]
  | |- context [pg_connect ?B ?f ?e] =>
      destruct (pg_connect B f e) as [[?|] ?]
  | |- context [value_truthy ?v] => destruct (value_truthy v)
  | |- context [fetched ?c] => destruct (fetched c) as [[|? ?]|]
  | |- context [dict_get ?k ?r] => destruct (dict_get k r)
  | |- context [match ?v with VStr _ => _ | _ => _ end] => destruct v
  | |- context [match ?v with [] => _ | _ :: _ => _ end] => destruct v
  | |- context [factory ?c] => destruct (factory c)
  end.

Ltac unfold_calls :=
  unfold get_db_connection, connect, execute, fetchone, fetchall, commit,
    rollback, close, print, ret, raise, row_key, row_index, bind, try_except,
    try_finally, log, with_env in *.

Section Catalog.
Context (B : Backend).

(** [run_sql] never raises, and works on a connection of its own. *)
Lemma run_sql_aside (h : nat) (sql : string) (p : pyparams) (w : World B) :
  h < next_conn w ->
  exists r w',
    run_sql B sql p w = (Val r, w') /\
    on h (trace w') = on h (trace w) /\
    next_conn w <= next_conn w'.
Proof.
  intros H. unfold run_sql. unfold_calls. simpl.
  repeat (env_step; simpl);
    eexists; eexists; (split; [reflexivity|]); simpl;
    repeat rewrite on_app; simpl; unfold on_conn; simpl;
    rewrite ?(eqb_fresh _ _ H), ?app_nil_r; split; auto.
Qed.

Lemma get_table_pk_aside (h : nat) (table_name : string) (w : World B) :
  h < next_conn w ->
  exists o w',
    get_table_pk B table_name w = (o, w') /\
    on h (trace w') = on h (trace w) /\
    next_conn w <= next_conn w'.
Proof.
  intros H. unfold get_table_pk, bind.
  destruct (run_sql_aside h sql_table_pk (PTuple [VStr table_name]) w H)
    as [r [w' [-> [T N]]]].
  destruct r as [[|first rest]|]; unfold ret, row_key, raise;
    try (eexists; eexists; split; [reflexivity | now split]).
  destruct (dict_get "column_name" first);
    eexists; eexists; split; try reflexivity; now split.
Qed.
End Catalog.

Section Cascade.
Context (B : Backend).
Variables (c : conn) (table_name condition : string).

Lemma on_own_execute (sql : string) (p : option pyparams) (r : string + Z) :
  on (handle c) [EvExecute (handle c) sql p r] = [EvExecute (handle c) sql p r].
Proof. unfold on, on_conn. simpl. now rewrite Nat.eqb_refl. Qed.

Lemma cascade_step_run (edge : row) (w : World B) :
  handle c < next_conn w ->
  exists o w' evs,
    cascade_step B c table_name condition edge w = (o, w') /\
    on (handle c) (trace w') = (on (handle c) (trace w) ++ evs)%list /\
    handle c < next_conn w' /\
    ((o = Val tt /\ exists pk n,
         evs = [EvExecute (handle c)
                          (edge_delete_sql table_name condition edge pk)
                          None (inr n)])
     \/ (exists pk err,
            o = Exc err /\
            evs = [EvExecute (handle c)
                             (edge_delete_sql table_name condition edge pk)
                             None (inl err)])
     \/ (exists msg, o = Exc msg /\ evs = [])).
Proof.
  intros H. unfold cascade_step, bind at 1. unfold row_key at 1.
  unfold edge_delete_sql, row_value.
  destruct (dict_get "referencing_table" edge) as [rn|]; unfold ret, raise;
    [|exists (Exc "'referencing_table'"), w, [];
      rewrite app_nil_r; repeat split; auto; right; right; eauto].
  unfold bind at 1. unfold row_key at 1.
  destruct (dict_get "referencing_column" edge) as [rc|]; unfold ret, raise;
    [|exists (Exc "'referencing_column'"), w, [];
      rewrite app_nil_r; repeat split; auto; right; right; eauto].
  unfold bind at 1.
  destruct (get_table_pk_aside B (handle c) table_name w H)
    as [o [w1 [-> [T N]]]].
  destruct o as [pk|msg];
    [|exists (Exc msg), w1, []; rewrite app_nil_r; repeat split; auto;
      [lia | right; right; eauto]].
  unfold bind, execute, log, with_env.
  destruct (pg_execute B (handle c) _ None (env w1)) as [[err|cur] e]; simpl.
  - eexists; eexists; eexists. split; [reflexivity|]. simpl.
    rewrite on_app, on_own_execute, T. split; [reflexivity|].
    split; [lia|]. right; left. eauto.
  - eexists; eexists; eexists. split; [reflexivity|]. simpl.
    rewrite on_app, on_own_execute, T. split; [reflexivity|].
    split; [lia|]. left. eauto.
Qed.

Lemma cascade_loop_run (edges : list row) (w : World B) :
  handle c < next_conn w ->
  exists o w' evs,
    for_each B edges (cascade_step B c table_name condition) w = (o, w') /\
    on (handle c) (trace w') = (on (handle c) (trace w) ++ evs)%list /\
    handle c < next_conn w' /\
    cascade_run (handle c) table_name condition edges evs o.
Proof.
  revert w. induction edges as [|edge edges IH]; intros w H.
  - exists (Val tt), w, []. rewrite app_nil_r. repeat split; auto. constructor.
  - simpl. unfold bind.
    destruct (cascade_step_run edge w H)
      as [o [w1 [evs [-> [T [N [[-> [pk [n ->]]]|[[pk [err [-> ->]]]|[msg [-> ->]]]]]]]]]].
    + destruct (IH w1 N) as [o [w2 [evs [-> [T2 [N2 R]]]]]].
      eexists; eexists; eexists. split; [reflexivity|].
      split; [rewrite T2, T, <- app_assoc; reflexivity|].
      split; [assumption|]. now constructor.
    + eexists; eexists; eexists. split; [reflexivity|].
      split; [exact T|]. split; [assumption|]. constructor.
    + eexists; eexists; eexists. split; [reflexivity|].
      split; [exact T|]. split; [assumption|]. constructor.
Qed.
End Cascade.

Section CascadeFacts.
Variables (h : nat) (table_name condition : string).

Lemma cascade_run_plan (edges : list row) (evs : list event) (o : outcome unit) :
  cascade_run h table_name condition edges evs o ->
  exists pks,
    length pks = length edges /\
    is_prefix (sql_texts evs) (cascade_plan table_name condition edges pks) /\
    (o = Val tt ->
     sql_texts evs = cascade_plan table_name condition edges pks).
Proof.
  induction 1 as [|edge edges pk n evs o R [pks [L [[rest P] F]]]
                  |edge edges pk err|edge edges msg].
  - exists []. repeat split. now exists [].
  - exists (pk :: pks). simpl. split; [now rewrite L|]. split.
    + exists rest. unfold cascade_plan in *. simpl. now rewrite P.
    + intros E. unfold cascade_plan in *. simpl. now rewrite (F E).
  - exists (pk :: repeat VNone (length edges)). simpl.
    rewrite repeat_length. split; [reflexivity|]. split; [|discriminate].
    eexists. unfold cascade_plan. simpl. reflexivity.
  - exists (repeat VNone (S (length edges))).
    rewrite repeat_length. split; [reflexivity|]. split; [|discriminate].
    eexists. simpl. reflexivity.
Qed.

Lemma cascade_run_statements (edges : list row) (evs : list event)
      (o : outcome unit) :
  cascade_run h table_name condition edges evs o ->
  Forall (fun ev => exists sql r, ev = EvExecute h sql None r) evs.
Proof.
  induction 1; repeat constructor; eauto.
Qed.

Lemma cascade_run_failure (edges : list row) (evs : list event)
      (o : outcome unit) :
  cascade_run h table_name condition edges evs o ->
  forall pre post sql p err,
    evs = (pre ++ EvExecute h sql p (inl err) :: post)%list ->
    post = [] /\ o = Exc err.
Proof.
  induction 1 as [|edge edges pk n evs o R IH|edge edges pk e|edge edges msg];
    intros pre post sql p err E.
  - destruct pre; discriminate.
  - destruct pre as [|x pre]; simpl in E; [discriminate|].
    injection E as _ E. eapply IH; eassumption.
  - destruct pre as [|x pre]; simpl in E.
    + injection E as _ _ -> ->. now split.
    + injection E as _ E. destruct pre; discriminate.
  - destruct pre; discriminate.
Qed.

Lemma cascade_run_success (edges : list row) (evs : list event) :
  cascade_run h table_name condition edges evs (Val tt) ->
  Forall (fun ev => exists sql n, ev = EvExecute h sql None (inr n)) evs.
Proof.
  intros R. remember (Val tt) as o eqn:E.
  induction R; try discriminate; repeat constructor; eauto.
Qed.
End CascadeFacts.

Lemma is_prefix_app {A : Type} (l1 l2 tail : list A) :
  is_prefix l1 l2 -> is_prefix l1 (l2 ++ tail).
Proof. intros [rest ->]. exists (rest ++ tail)%list. now rewrite app_assoc. Qed.

Lemma is_prefix_refl {A : Type} (l : list A) : is_prefix l l.
Proof. exists []. now rewrite app_nil_r. Qed.

Lemma sql_texts_app (a b : list event) :
  sql_texts (a ++ b) = (sql_texts a ++ sql_texts b)%list.
Proof. apply flat_map_app. Qed.

Section RemoveRow.
Context (B : Backend).

Lemma get_db_connection_run (dict_mode : bool) (w : World B) :
  let f := if dict_mode then RealDictCursor else DictCursor in
  (exists e,
      get_db_connection B dict_mode w
      = (Val (Some (mkConn (next_conn w) f)),
         mkWorld e (S (next_conn w))
                 (trace w ++ [EvConnect f (Some (next_conn w))])))
  \/ (exists e err,
         get_db_connection B dict_mode w
         = (Val None,
            mkWorld e (next_conn w)
                    (trace w ++ [EvConnect f None;
                                 EvPrint ("Connection error: " ++ err)]))).
Proof.
  unfold get_db_connection. unfold_calls. simpl.
  destruct (pg_connect B _ (env w)) as [[err|] e]; simpl.
  - right. exists e, err. now rewrite <- app_assoc.
  - left. now exists e.
Qed.

End RemoveRow.

Section Calls.
Context (B : Backend).

Lemma connect_run (f : cursor_factory) (w : World B) :
  (exists c w',
      connect B f w = (Val c, w') /\
      handle c = next_conn w /\ factory c = f /\
      next_conn w' = S (next_conn w) /\
      trace w' = (trace w ++ [EvConnect f (Some (handle c))])%list)
  \/ (exists err w',
         connect B f w = (Exc err, w') /\
         next_conn w' = next_conn w /\
         trace w' = (trace w ++ [EvConnect f None])%list).
Proof.
  unfold connect, log, with_env.
  destruct (pg_connect B f (env w)) as [[err|] e].
  - right. eexists; eexists. repeat split.
  - left. eexists; eexists. repeat split.
Qed.

Lemma execute_run (c : conn) (sql : string) (p : option pyparams) (w : World B) :
  (exists cur w',
      execute B c sql p w = (Val cur, w') /\
      next_conn w' = next_conn w /\
      trace w' = (trace w ++ [EvExecute (handle c) sql p (inr (rowcount cur))])%list)
  \/ (exists err w',
         execute B c sql p w = (Exc err, w') /\
         next_conn w' = next_conn w /\
         trace w' = (trace w ++ [EvExecute (handle c) sql p (inl err)])%list).
Proof.
  unfold execute, log, with_env.
  destruct (pg_execute B (handle c) sql p (env w)) as [[err|cur] e].
  - right. eexists; eexists. repeat split.
  - left. eexists; eexists. repeat split.
Qed.

Lemma commit_run (c : conn) (w : World B) :
  (exists w',
      commit B c w = (Val tt, w') /\
      next_conn w' = next_conn w /\
      trace w' = (trace w ++ [EvCommit (handle c) None])%list)
  \/ (exists err w',
         commit B c w = (Exc err, w') /\
         next_conn w' = next_conn w /\
         trace w' = (trace w ++ [EvCommit (handle c) (Some err)])%list).
Proof.
  unfold commit, log, with_env.
  destruct (pg_commit B (handle c) (env w)) as [[err|] e].
  - right. eexists; eexists. repeat split.
  - left. eexists. repeat split.
Qed.
End Calls.

Section Restore.
Context (B : Backend).

Lemma drop_loop_run (c : conn) (tables : list row) (w : World B) :
  factory c = TupleCursor ->
  exists o w' evs,
    for_each B tables (drop_step B c) w = (o, w') /\
    trace w' = (trace w ++ evs)%list /\
    is_prefix (sql_texts evs) (map drop_table_sql tables) /\
    (o = Val tt ->
     sql_texts evs = map drop_table_sql tables /\ Forall smooth evs).
Proof.
  intros F. revert w. induction tables as [|table tables IH]; intros w.
  - exists (Val tt), w, []. rewrite app_nil_r.
    repeat split; auto. apply is_prefix_refl.
  - cbn [for_each map]. unfold bind at 1. unfold drop_step at 1.
    unfold bind at 1. unfold row_index. rewrite F.
    destruct (values table) as [|name rest] eqn:Ev; cbn [nth_error].
    + unfold raise. exists (Exc "tuple index out of range"), w, [].
      rewrite app_nil_r. repeat split; auto; try discriminate.
      eexists; reflexivity.
    + assert (drop_table_sql table
              = "DROP TABLE IF EXISTS " ++ quote_ident (py_str name)
                  ++ " CASCADE") as Hd
          by (unfold drop_table_sql; now rewrite Ev).
      unfold ret at 1. cbv beta iota. rewrite <- Hd. unfold bind at 1.
      destruct (execute_run B c (drop_table_sql table) None w)
        as [[cur [w1 [-> [_ T1]]]]|[err [w1 [-> [_ T1]]]]].
      * unfold ret at 1.
        destruct (IH w1) as [o [w' [evs [-> [T [P G]]]]]].
        eexists; eexists; eexists. split; [reflexivity|].
        split; [rewrite T, T1, <- app_assoc; reflexivity|].
        split; [destruct P as [tail P]; exists tail;
                rewrite sql_texts_app, P; reflexivity|].
        intros Eo. destruct (G Eo) as [G1 G2]. rewrite sql_texts_app, G1.
        split; [reflexivity | constructor; cbn; auto].
      * eexists; eexists; eexists. split; [reflexivity|].
        split; [exact T1|].
        split; [eexists; cbn; reflexivity | discriminate].
Qed.

Lemma drop_existing_tables_run (w : World B) :
  exists w1 evs,
    drop_existing_tables B w = (Val tt, w1) /\
    trace w1 = (trace w ++ evs)%list /\
    (Forall smooth evs \/
     exists done msg,
       evs = (done ++ [EvPrint ("Error dropping tables: " ++ msg)])%list) /\
    forall c wa cur wb tables,
      connect B TupleCursor w = (Val c, wa) ->
      execute B c sql_pg_tables None wa = (Val cur, wb) ->
      fetched cur = Some tables ->
      exists drops,
        trace w1 = (trace wb ++ drops)%list /\
        is_prefix (sql_texts drops) (map drop_table_sql tables) /\
        (Forall smooth evs ->
         sql_texts drops = map drop_table_sql tables /\
         In (EvCommit (handle c) None) drops).
Proof.
  unfold drop_existing_tables, try_except. unfold bind at 1.
  destruct (connect_run B TupleCursor w)
    as [[c [wa [Ec [Hc [Fc [_ Ta]]]]]]|[err [wa [Ec [_ Ta]]]]]; rewrite Ec.
  2:{ unfold print, log. cbn.
      eexists; eexists. split; [reflexivity|]. cbn.
      split; [rewrite Ta, <- app_assoc; reflexivity|].
      split; [right; eexists; eexists; reflexivity|].
      intros; discriminate. }
  unfold bind at 1.
  destruct (execute_run B c sql_pg_tables None wa)
    as [[cur [wb [Ee [_ Tb]]]]|[err [wb [Ee [_ Tb]]]]]; rewrite Ee.
  2:{ unfold print, log. cbn.
      eexists; eexists. split; [reflexivity|]. cbn.
      split; [rewrite Tb, Ta, <- !app_assoc; reflexivity|].
      split; [right;
              exists [EvConnect TupleCursor (Some (handle c));
                      EvExecute (handle c) sql_pg_tables None (inl err)],
                     err;
              reflexivity|].
      intros c' wa' cur' wb' tables Ec' Ee'. injection Ec' as <- <-.
      rewrite Ee in Ee'. discriminate. }
  unfold bind at 1. unfold fetchall.
  destruct (fetched cur) as [tables|] eqn:Ef.
  2:{ unfold raise, print, log. cbn.
      eexists; eexists. split; [reflexivity|]. cbn.
      split; [rewrite Tb, Ta, <- !app_assoc; reflexivity|].
      split; [right;
              exists [EvConnect TupleCursor (Some (handle c));
                      EvExecute (handle c) sql_pg_tables None
                                (inr (rowcount cur))],
                     "no results to fetch";
              reflexivity|].
      intros c' wa' cur' wb' tables Ec' Ee' Ef'. injection Ec' as <- <-.
      rewrite Ee in Ee'. injection Ee' as <- <-. rewrite Ef in Ef'.
      discriminate. }
  unfold ret at 1. unfold bind at 1.
  destruct (drop_loop_run c tables wb Fc) as [o [w3 [evs [El [T3 [P G]]]]]].
  rewrite El. destruct o as [[]|msg].
  - destruct (G eq_refl) as [G1 G2]. unfold bind at 1.
    destruct (commit_run B c w3) as [[w4 [Em [_ T4]]]|[err [w4 [Em [_ T4]]]]];
      rewrite Em.
    + unfold close, log, with_env. cbn.
      eexists; eexists. split; [reflexivity|]. cbn.
      split; [rewrite T4, T3, Tb, Ta, <- !app_assoc; reflexivity|].
      split.
      { left. cbn. constructor; [exact I|]. constructor; [exact I|].
        apply Forall_app. split; [assumption|]. repeat constructor. }
      intros c' wa' cur' wb' tables' Ec' Ee' Ef'. injection Ec' as <- <-.
      rewrite Ee in Ee'. injection Ee' as <- <-. rewrite Ef in Ef'.
      injection Ef' as <-.
      exists (evs ++ [EvCommit (handle c) None; EvClose (handle c)])%list.
      split; [rewrite T4, T3, <- !app_assoc; reflexivity|].
      rewrite sql_texts_app. cbn. rewrite app_nil_r.
      split; [assumption|]. intros _. split; [assumption|].
      apply in_or_app. right. now left.
    + unfold print, log. cbn.
      eexists; eexists. split; [reflexivity|]. cbn.
      split; [rewrite T4, T3, Tb, Ta, <- !app_assoc; reflexivity|].
      split.
      { right. exists ([EvConnect TupleCursor (Some (handle c));
                        EvExecute (handle c) sql_pg_tables None
                                  (inr (rowcount cur))]
                         ++ evs ++ [EvCommit (handle c) (Some err)])%list.
        exists err. now rewrite <- !app_assoc. }
      intros c' wa' cur' wb' tables' Ec' Ee' Ef'. injection Ec' as <- <-.
      rewrite Ee in Ee'. injection Ee' as <- <-. rewrite Ef in Ef'.
      injection Ef' as <-.
      exists (evs ++ [EvCommit (handle c) (Some err);
                      EvPrint ("Error dropping tables: " ++ err)])%list.
      split; [rewrite T4, T3, <- !app_assoc; reflexivity|].
      rewrite sql_texts_app. cbn. rewrite app_nil_r.
      split; [assumption|]. intros S. exfalso.
      rewrite Forall_forall in S.
      apply (S (EvPrint ("Error dropping tables: " ++ err))).
      cbn. right. right. apply in_or_app. right. right. now left.
  - unfold print, log. cbn.
    eexists; eexists. split; [reflexivity|]. cbn.
    split; [rewrite T3, Tb, Ta, <- !app_assoc; reflexivity|].
    split.
    { right. exists ([EvConnect TupleCursor (Some (handle c));
                      EvExecute (handle c) sql_pg_tables None
                                (inr (rowcount cur))] ++ evs)%list.
      exists msg. now rewrite <- !app_assoc. }
    intros c' wa' cur' wb' tables' Ec' Ee' Ef'. injection Ec' as <- <-.
    rewrite Ee in Ee'. injection Ee' as <- <-. rewrite Ef in Ef'.
    injection Ef' as <-.
    exists (evs ++ [EvPrint ("Error dropping tables: " ++ msg)])%list.
    split; [rewrite T3, <- !app_assoc; reflexivity|].
    rewrite sql_texts_app. cbn. rewrite app_nil_r.
    split; [assumption|]. intros S. exfalso.
    rewrite Forall_forall in S.
    apply (S (EvPrint ("Error dropping tables: " ++ msg))).
    cbn. right. right. apply in_or_app. right. now left.
Qed.

End Restore.

Section Adds.
Context (B : Backend).

Lemma bind_val {A C : Type} (m : M B A) (k : A -> M B C) (w w' : World B)
      (r : C) :
  bind B m k w = (Val r, w') ->
  exists a w1, m w = (Val a, w1) /\ k a w1 = (Val r, w').
Proof.
  unfold bind. destruct (m w) as [[a|e] w1]; [eauto | discriminate].
Qed.

Lemma try_except_val {A : Type} (body : M B A) (handler : string -> M B A)
      (w w' : World B) (o : outcome A) :
  try_except B body handler w = (o, w') ->
  (exists r, o = Val r /\ body w = (Val r, w'))
  \/ (exists e w1, body w = (Exc e, w1) /\ handler e w1 = (o, w')).
Proof.
  unfold try_except. destruct (body w) as [[a|e] w1]; intros E.
  - left. injection E as <- <-. eauto.
  - right. eauto.
Qed.

Lemma adds_weaken {A : Type} (P Q : event -> Prop) (m : M B A) :
  (forall ev, P ev -> Q ev) -> adds P m -> adds Q m.
Proof.
  intros H Hm w. destruct (Hm w) as [o [w' [evs [E [T F]]]]].
  exists o, w', evs. repeat split; auto. eapply Forall_impl; eauto.
Qed.

Lemma adds_ret {A : Type} (P : event -> Prop) (a : A) : adds P (ret B a).
Proof. intros w. exists (Val a), w, []. now rewrite app_nil_r. Qed.

Lemma adds_raise {A : Type} (P : event -> Prop) (msg : string) :
  adds P (@raise B A msg).
Proof. intros w. exists (Exc msg), w, []. now rewrite app_nil_r. Qed.

Lemma adds_bind {A C : Type} (P : event -> Prop) (m : M B A) (k : A -> M B C) :
  adds P m -> (forall a, adds P (k a)) -> adds P (bind B m k).
Proof.
  intros Hm Hk w. unfold bind.
  destruct (Hm w) as [o [w1 [evs [-> [T F]]]]]. destruct o as [a|e].
  - destruct (Hk a w1) as [o [w2 [evs2 [-> [T2 F2]]]]].
    exists o, w2, (evs ++ evs2)%list. split; [reflexivity|].
    split; [now rewrite T2, T, app_assoc | now apply Forall_app].
  - now exists (Exc e), w1, evs.
Qed.

Lemma adds_try_except {A : Type} (P : event -> Prop) (body : M B A)
      (handler : string -> M B A) :
  adds P body -> (forall e, adds P (handler e)) ->
  adds P (try_except B body handler).
Proof.
  intros Hm Hk w. unfold try_except.
  destruct (Hm w) as [o [w1 [evs [-> [T F]]]]]. destruct o as [a|e].
  - now exists (Val a), w1, evs.
  - destruct (Hk e w1) as [o [w2 [evs2 [-> [T2 F2]]]]].
    exists o, w2, (evs ++ evs2)%list. split; [reflexivity|].
    split; [now rewrite T2, T, app_assoc | now apply Forall_app].
Qed.

Lemma adds_try_finally {A : Type} (P : event -> Prop) (body : M B A)
      (fin : M B unit) :
  adds P body -> adds P fin -> adds P (try_finally B body fin).
Proof.
  intros Hm Hk w. unfold try_finally.
  destruct (Hm w) as [o [w1 [evs [-> [T F]]]]].
  destruct (Hk w1) as [o2 [w2 [evs2 [-> [T2 F2]]]]].
  destruct o2 as [[]|e];
    eexists; eexists; exists (evs ++ evs2)%list; (split; [reflexivity|]);
    (split; [now rewrite T2, T, app_assoc | now apply Forall_app]).
Qed.

Lemma adds_for_each {A : Type} (P : event -> Prop) (l : list A)
      (body : A -> M B unit) :
  (forall x, adds P (body x)) -> adds P (for_each B l body).
Proof.
  intros H. induction l as [|x l IH]; cbn [for_each].
  - apply adds_ret.
  - apply adds_bind; [apply H | intros _; exact IH].
Qed.

Lemma adds_for_fold {A S : Type} (P : event -> Prop) (l : list A) (s : S)
      (body : S -> A -> M B S) :
  (forall s x, adds P (body s x)) -> adds P (for_fold B l s body).
Proof.
  intros H. revert s. induction l as [|x l IH]; intros s; cbn [for_fold].
  - apply adds_ret.
  - apply adds_bind; [apply H | intros s'; apply IH].
Qed.

Lemma adds_one {A : Type} (P : event -> Prop) (m : M B A) :
  (forall w, exists o w' ev,
        m w = (o, w') /\ trace w' = (trace w ++ [ev])%list /\ P ev) ->
  adds P m.
Proof.
  intros H w. destruct (H w) as [o [w' [ev [E [T p]]]]].
  exists o, w', [ev]. repeat split; auto.
Qed.

Lemma adds_print (P : event -> Prop) (msg : string) :
  P (EvPrint msg) -> adds P (print B msg).
Proof.
  intros H. apply adds_one. intros w. unfold print, log.
  eexists; eexists; eexists. repeat split. exact H.
Qed.

Lemma adds_connect (P : event -> Prop) (f : cursor_factory) :
  (forall h, P (EvConnect f h)) -> adds P (connect B f).
Proof.
  intros H. apply adds_one. intros w. unfold connect, log, with_env.
  destruct (pg_connect B f (env w)) as [[err|] e];
    eexists; eexists; eexists; repeat split; apply H.
Qed.

Lemma adds_execute (P : event -> Prop) (c : conn) (sql : string)
      (p : option pyparams) :
  (forall r, P (EvExecute (handle c) sql p r)) -> adds P (execute B c sql p).
Proof.
  intros H. apply adds_one. intros w. unfold execute, log, with_env.
  destruct (pg_execute B (handle c) sql p (env w)) as [[err|cur] e];
    eexists; eexists; eexists; repeat split; apply H.
Qed.

Lemma adds_commit (P : event -> Prop) (c : conn) :
  (forall r, P (EvCommit (handle c) r)) -> adds P (commit B c).
Proof.
  intros H. apply adds_one. intros w. unfold commit, log, with_env.
  destruct (pg_commit B (handle c) (env w)) as [[err|] e];
    eexists; eexists; eexists; repeat split; apply H.
Qed.

Lemma adds_rollback (P : event -> Prop) (c : conn) :
  P (EvRollback (handle c)) -> adds P (rollback B c).
Proof.
  intros H. apply adds_one. intros w. unfold rollback, log, with_env.
  eexists; eexists; eexists. repeat split. exact H.
Qed.

Lemma adds_close (P : event -> Prop) (c : conn) :
  P (EvClose (handle c)) -> adds P (close B c).
Proof.
  intros H. apply adds_one. intros w. unfold close, log, with_env.
  eexists; eexists; eexists. repeat split. exact H.
Qed.

Lemma adds_now (P : event -> Prop) (fmt : time_format) : adds P (now B fmt).
Proof.
  intros w. unfold now, with_env. destruct (clock B fmt (env w)) as [s e].
  eexists; eexists; exists []. cbn. now rewrite app_nil_r.
Qed.

Lemma adds_mkdir (P : event -> Prop) (path : string) :
  P (EvMkdir path) -> adds P (mkdir B path).
Proof.
  intros H. apply adds_one. intros w. unfold mkdir, log, with_env.
  destruct (fs_mkdir B path (env w)) as [[err|] e];
    eexists; eexists; eexists; repeat split; apply H.
Qed.

Lemma adds_run_process (P : event -> Prop) (cmd : list string) (pw : string) :
  P (EvRun cmd) -> adds P (run_process B cmd pw).
Proof.
  intros H. apply adds_one. intros w. unfold run_process, log, with_env.
  destruct (subprocess_run B cmd pw (env w)) as [[err|p] e];
    eexists; eexists; eexists; repeat split; apply H.
Qed.

Lemma adds_write_excel (P : event -> Prop) (path : string) (data : list row) :
  P (EvToExcel path data) -> adds P (write_excel B path data).
Proof.
  intros H. apply adds_one. intros w. unfold write_excel, log, with_env.
  destruct (to_excel B path data (env w)) as [[err|] e];
    eexists; eexists; eexists; repeat split; apply H.
Qed.

Lemma adds_write_json (P : event -> Prop) (path : string) (doc : json_doc) :
  P (EvJsonDump path doc) -> adds P (write_json B path doc).
Proof.
  intros H. apply adds_one. intros w. unfold write_json, log, with_env.
  destruct (json_dump B path doc (env w)) as [[err|] e];
    eexists; eexists; eexists; repeat split; apply H.
Qed.

Lemma adds_get_db_connection (P : event -> Prop) (dict_mode : bool) :
  (forall f h, P (EvConnect f h)) -> (forall msg, P (EvPrint msg)) ->
  adds P (get_db_connection B dict_mode).
Proof.
  intros Hc Hp. unfold get_db_connection. apply adds_try_except.
  - apply adds_bind; [apply adds_connect; auto | intros; apply adds_ret].
  - intros e. apply adds_bind; [apply adds_print; auto | intros; apply adds_ret].
Qed.

Lemma adds_run_sql (sql : string) (p : pyparams) :
  adds (session_event sql) (run_sql B sql p).
Proof.
  unfold run_sql. apply adds_bind.
  - apply adds_get_db_connection; cbn; auto.
  - intros [c|]; [|apply adds_ret].
    apply adds_try_finally; [|apply adds_close; exact I].
    apply adds_try_except.
    + apply adds_bind.
      * destruct (truthy (_prepare_params p)); apply adds_execute; reflexivity.
      * intros cur. apply adds_bind; [apply adds_commit; cbn; auto|].
        intros; apply adds_ret.
    + intros e. apply adds_bind; [apply adds_rollback; exact I|].
      intros _. apply adds_bind; [apply adds_print; exact I|].
      intros; apply adds_ret.
Qed.

(** A computation that only returns, seen from its result. *)
Lemma adds_returns {A : Type} (P : event -> Prop) (m : M B A) (w : World B) :
  adds P m -> (forall e w', m w <> (Exc e, w')) ->
  exists a w' evs,
    m w = (Val a, w') /\ trace w' = (trace w ++ evs)%list /\ Forall P evs.
Proof.
  intros H N. destruct (H w) as [[a|e] [w' [evs [E [T F]]]]].
  - eauto 6.
  - now apply N in E.
Qed.
End Adds.

Lemma append_assoc (a b c : string) : (a ++ b) ++ c = a ++ (b ++ c).
Proof. induction a as [|x a IH]; cbn; [reflexivity | now rewrite IH]. Qed.

Lemma xlsx_file_name (stem stamp : string) :
  has_suffix ".xlsx" (stem ++ "_" ++ stamp ++ ".xlsx").
Proof. exists (stem ++ "_" ++ stamp). now rewrite !append_assoc. Qed.

Lemma xlsx_path (dir stem stamp : string) :
  has_suffix ".xlsx" (path_join dir (stem ++ "_" ++ stamp ++ ".xlsx")).
Proof.
  exists (dir ++ "/" ++ stem ++ "_" ++ stamp). unfold path_join.
  now rewrite !append_assoc.
Qed.

Ltac adds_true :=
  repeat (intros;
          first
            [ exact I
            | apply adds_ret | apply adds_raise | apply adds_now
            | apply adds_execute | apply adds_commit | apply adds_close
            | apply adds_rollback | apply adds_print | apply adds_connect
            | apply adds_mkdir | apply adds_write_excel | apply adds_write_json
            | apply adds_run_process | apply adds_get_db_connection
            | apply adds_bind | apply adds_try_except | apply adds_try_finally
            | apply adds_for_each | apply adds_for_fold
            | match goal with
              | |- adds _ (match ?x with _ => _ end) => destruct x
              end
            | progress unfold insert_step, create_folder_with_time, fetchall ]).

Section QueryExport.
Context (B : Backend).

Lemma try_finally_val {A : Type} (body : M B A) (fin : M B unit)
      (w w' : World B) (r : A) :
  try_finally B body fin w = (Val r, w') ->
  exists w1, body w = (Val r, w1) /\ fin w1 = (Val tt, w').
Proof.
  unfold try_finally. destruct (body w) as [o w1].
  destruct (fin w1) as [[[]|e] w2] eqn:F; intros E; [|discriminate].
  injection E as -> ->. eauto.
Qed.

Lemma adds_grows {A : Type} (P : event -> Prop) (m : M B A) (w w' : World B)
      (o : outcome A) (ev : event) :
  adds P m -> m w = (o, w') -> In ev (trace w) -> In ev (trace w').
Proof.
  intros H E I. destruct (H w) as [o' [w'' [evs [E' [T _]]]]].
  rewrite E in E'. injection E' as <- <-. rewrite T.
  apply in_or_app. now left.
Qed.

Lemma adds_create_folder (P : event -> Prop) (base : string) :
  (forall path, P (EvMkdir path)) -> adds P (create_folder_with_time B base).
Proof.
  intros H. unfold create_folder_with_time.
  apply adds_bind; [apply adds_now|]. intros stamp.
  apply adds_bind; [apply adds_mkdir, H | intros; apply adds_ret].
Qed.

Lemma adds_save_query_to_xlsx (data : list row) (query_name : string) :
  adds xlsx_only (save_query_to_xlsx B data query_name).
Proof.
  unfold save_query_to_xlsx. apply adds_try_except; [|intros; apply adds_ret].
  destruct data as [|first_row rest]; [apply adds_ret|].
  apply adds_bind; [apply adds_now|]. intros stamp.
  apply adds_bind; [apply adds_get_db_connection; intros; exact I|].
  intros [c|]; [|apply adds_ret].
  apply adds_try_finally; [|apply adds_close; exact I].
  apply adds_try_except.
  2:{ intros e. apply adds_bind; [apply adds_rollback; exact I|].
      intros; apply adds_ret. }
  apply adds_bind; [apply adds_execute; intros; exact I|]. intros _.
  apply adds_bind.
  { apply adds_for_each. intros r. unfold insert_step.
    apply adds_bind; [apply adds_execute; intros; exact I|].
    intros; apply adds_ret. }
  intros _. apply adds_bind; [apply adds_commit; intros; exact I|]. intros _.
  apply adds_bind; [apply adds_create_folder; intros; exact I|].
  intros save_dir. apply adds_bind; [apply adds_now|]. intros stamp'.
  apply adds_bind; [apply adds_execute; intros; exact I|]. intros cur.
  apply adds_bind; [unfold fetchall; destruct (fetched cur);
                    [apply adds_ret | apply adds_raise]|].
  intros rows. apply adds_bind.
  { apply adds_write_excel. apply xlsx_path. }
  intros _. apply adds_bind; [apply adds_execute; intros; exact I|]. intros _.
  apply adds_bind; [apply adds_commit; intros; exact I|].
  intros; apply adds_ret.
Qed.

Lemma write_excel_val (path : string) (data : list row) (w w' : World B) :
  write_excel B path data w = (Val tt, w') ->
  trace w' = (trace w ++ [EvToExcel path data])%list.
Proof.
  unfold write_excel, log, with_env.
  destruct (to_excel B path data (env w)) as [[err|] e]; intros E;
    [discriminate|].
  now injection E as <-.
Qed.

Lemma adds_extends {A : Type} (P : event -> Prop) (m : M B A) (w w' : World B)
      (o : outcome A) :
  adds P m -> m w = (o, w') -> extends w w'.
Proof.
  intros H E. destruct (H w) as [o' [w'' [evs [E' [T _]]]]].
  rewrite E in E'. injection E' as <- <-. now exists evs.
Qed.

Lemma extends_trans (w1 w2 w3 : World B) :
  extends w1 w2 -> extends w2 w3 -> extends w1 w3.
Proof.
  intros [a Ha] [b Hb]. exists (a ++ b)%list. now rewrite Hb, Ha, app_assoc.
Qed.

(** When [save_query_to_xlsx] hands back a file, it is the workbook it
    wrote during the call. *)
Lemma save_query_to_xlsx_file (data : list row) (query_name : string)
      (w w' : World B) (path name : string) :
  save_query_to_xlsx B data query_name w = (Val (Some path, name), w') ->
  exists dir stamp rows,
    name = query_name ++ "_" ++ stamp ++ ".xlsx" /\
    path = path_join dir name /\
    exists pre post,
      trace w' = (trace w ++ pre ++ EvToExcel path rows :: post)%list.
Proof.
  unfold save_query_to_xlsx. intros E.
  apply try_except_val in E as [[r [Er E]]|[e [w1 [? E]]]];
    [|discriminate E].
  injection Er as <-.
  destruct data as [|first_row rest]; [discriminate E|].
  apply bind_val in E as [stamp [w1 [E1 E]]].
  apply bind_val in E as [c [w2 [E2 E]]].
  destruct c as [c|]; [|discriminate E].
  apply try_finally_val in E as [w3 [E Ec]].
  apply try_except_val in E as [[r [Er E]]|[e [w4 [? E]]]].
  2:{ apply bind_val in E as [? [? [? E]]]. discriminate E. }
  injection Er as <-.
  apply bind_val in E as [? [w4 [E4 E]]].
  apply bind_val in E as [? [w5 [E5 E]]].
  apply bind_val in E as [? [w6 [E6 E]]].
  apply bind_val in E as [save_dir [w7 [E7 E]]].
  apply bind_val in E as [stamp' [w8 [E8 E]]].
  apply bind_val in E as [cur [w9 [E9 E]]].
  apply bind_val in E as [rows [w10 [E10 E]]].
  apply bind_val in E as [[] [w11 [Ex E]]].
  apply bind_val in E as [cur' [w12 [Ed E]]].
  apply bind_val in E as [[] [w13 [Em E]]].
  injection E as <- <- <-.
  exists save_dir, stamp', rows. repeat split.
  assert (extends w w10) as [pre Hpre].
  { repeat (eapply extends_trans;
            [|eapply (adds_extends (fun _ => True)); [|eassumption]; adds_true]).
    exists []. now rewrite app_nil_r. }
  assert (extends w11 w') as [post Hpost].
  { do 3 (eapply extends_trans;
            [|eapply (adds_extends (fun _ => True)); [|eassumption]; adds_true]).
    exists []. now rewrite app_nil_r. }
  exists pre, post. apply write_excel_val in Ex.
  rewrite Hpost, Ex, Hpre, <- !app_assoc. reflexivity.
Qed.

Lemma save_query_to_csv_delegates (data : list row) (w : World B) :
  save_query_to_csv B data w = save_query_to_xlsx B data "query_result" w.
Proof.
  unfold save_query_to_csv. destruct data as [|first_row rest].
  - reflexivity.
  - unfold try_except at 1.
    destruct (save_query_to_xlsx B (first_row :: rest) "query_result" w)
      as [[r|e] w'] eqn:E; [reflexivity|].
    unfold save_query_to_xlsx in E.
    apply try_except_val in E as [[r [Er ?]]|[e' [w1 [? E]]]];
      discriminate.
Qed.

Lemma try_except_returns {A : Type} (body : M B A) (handler : string -> M B A) :
  (forall e w, exists a w', handler e w = (Val a, w')) ->
  forall w, exists a w', try_except B body handler w = (Val a, w').
Proof.
  intros H w. unfold try_except. destruct (body w) as [[a|e] w1]; eauto.
Qed.

Lemma save_query_to_xlsx_returns (data : list row) (query_name : string)
      (w : World B) :
  exists r w', save_query_to_xlsx B data query_name w = (Val r, w').
Proof.
  unfold save_query_to_xlsx. apply try_except_returns.
  intros e w0. unfold ret. eauto.
Qed.

End QueryExport.

Lemma pack_steps_app (a b : list event) :
  pack_steps (a ++ b) = (pack_steps a ++ pack_steps b)%list.
Proof. apply flat_map_app. Qed.

Lemma pack_steps_session (sql : string) (evs : list event) :
  String.prefix "DROP TABLE" sql = false ->
  Forall (session_event sql) evs -> pack_steps evs = [].
Proof.
  intros H. induction 1 as [|ev evs S _ IH]; [reflexivity|].
  change (pack_steps (ev :: evs))
    with ((match pack_step ev with Some n => [n] | None => [] end)
            ++ pack_steps evs)%list.
  rewrite IH, app_nil_r.
  destruct ev; cbn in S |- *; try contradiction; try reflexivity.
  subst. now rewrite H.
Qed.

Section PackSteps.
Context (B : Backend).

Lemma now_run (fmt : time_format) (w : World B) :
  exists s w', now B fmt w = (Val s, w') /\ trace w' = trace w.
Proof.
  unfold now, with_env. destruct (clock B fmt (env w)) as [s e]. eauto.
Qed.

Lemma backup_run (table dir : string) (w : World B) :
  exists r w' cmd,
    create_single_table_backup B table dir w = (Val r, w') /\
    trace w' = (trace w ++ [EvRun cmd])%list.
Proof.
  unfold create_single_table_backup, try_except. unfold bind at 1.
  destruct (now_run (Strftime "%H%M%S") w) as [stamp [w1 [-> T1]]].
  unfold bind, run_process, log, with_env.
  match goal with
  | |- context [subprocess_run B ?c ?p ?e] =>
      destruct (subprocess_run B c p e) as [[err|p'] e']
  end.
  - eexists; eexists; eexists. split; [reflexivity|]. cbn. now rewrite T1.
  - destruct (returncode p' =? 0)%Z;
      eexists; eexists; eexists; (split; [reflexivity|]); cbn; now rewrite T1.
Qed.

Lemma get_table_rows_run (table : string) (w : World B) :
  exists r w' evs,
    get_table_rows B table w = (Val r, w') /\
    trace w' = (trace w ++ evs)%list /\ pack_steps evs = [].
Proof.
  unfold get_table_rows.
  destruct (adds_run_sql B ("SELECT * FROM " ++ quote_ident table) PNone w)
    as [o [w' [evs [E [T F]]]]].
  unfold try_except. rewrite E.
  assert (pack_steps evs = []) as S
      by (eapply pack_steps_session; [|exact F]; reflexivity).
  destruct o as [r|e].
  - now exists r, w', evs.
  - unfold bind, print, ret, log. cbn.
    exists (Some []), (mkWorld (env w') (next_conn w')
                               (trace w' ++ [EvPrint ("Error getting data from "
                                                        ++ table ++ ": " ++ e)])),
           (evs ++ [EvPrint ("Error getting data from " ++ table ++ ": " ++ e)])%list.
    split; [reflexivity|]. cbn. split; [now rewrite T, app_assoc|].
    now rewrite pack_steps_app, S.
Qed.

Lemma drop_table_run (table : string) (w : World B) :
  exists b w' evs,
    drop_table_completely B table w = (Val b, w') /\
    trace w' = (trace w ++ evs)%list /\
    (pack_steps evs = [4] \/ (pack_steps evs = [] /\ b = false)).
Proof.
  unfold drop_table_completely, try_except. unfold bind at 1.
  destruct (get_db_connection_run B false w) as [[e E]|[e [err E]]];
    rewrite E.
  - unfold try_finally, try_except, bind.
    match goal with
    | |- context [execute B ?c ?s None ?w1] =>
        destruct (execute_run B c s None w1)
          as [[cur [w2 [-> [_ T2]]]]|[err [w2 [-> [_ T2]]]]]
    end.
    + match goal with
      | |- context [commit B ?c w2] =>
          destruct (commit_run B c w2)
            as [[w3 [-> [_ T3]]]|[err [w3 [-> [_ T3]]]]]
      end.
      * unfold ret, close, log, with_env. cbn.
        eexists; eexists; eexists. split; [reflexivity|]. cbn.
        rewrite T3, T2. cbn. rewrite <- !app_assoc.
        split; [reflexivity|]. left. reflexivity.
      * unfold rollback, print, ret, close, log, with_env. cbn.
        eexists; eexists; eexists. split; [reflexivity|]. cbn.
        rewrite T3, T2. cbn. rewrite <- !app_assoc.
        split; [reflexivity|]. left. reflexivity.
    + unfold rollback, print, ret, close, log, with_env. cbn.
      eexists; eexists; eexists. split; [reflexivity|]. cbn.
      rewrite T2. cbn. rewrite <- !app_assoc.
      split; [reflexivity|]. left. reflexivity.
  - unfold ret. eexists; eexists; eexists. split; [reflexivity|]. cbn.
    split; [reflexivity|]. right. now split.
Qed.
End PackSteps.

Lemma in_order_prefix (steps : list nat) :
  is_prefix steps [1; 2; 3; 4] \/ is_prefix steps [1; 3; 4] -> in_order steps.
Proof. auto. Qed.

Ltac prefix_of tail := exists tail; reflexivity.

Section PackOne.
Context (B : Backend).

Lemma write_excel_run (path : string) (data : list row) (w : World B) :
  exists o w',
    write_excel B path data w = (o, w') /\
    trace w' = (trace w ++ [EvToExcel path data])%list.
Proof.
  unfold write_excel, log, with_env.
  destruct (to_excel B path data (env w)) as [[err|] e]; eauto.
Qed.

Lemma write_json_run (path : string) (doc : json_doc) (w : World B) :
  exists o w',
    write_json B path doc w = (o, w') /\
    trace w' = (trace w ++ [EvJsonDump path doc])%list.
Proof.
  unfold write_json, log, with_env.
  destruct (json_dump B path doc (env w)) as [[err|] e]; eauto.
Qed.

(** One table of the pack: it never raises, and what it records agrees
    with the steps it took. *)
Lemma pack_one_run (dir table : string) (w : World B) :
  exists entry w' segment,
    pack_one B dir table w = (Val entry, w') /\
    trace w' = (trace w ++ segment)%list /\
    table_outcome table entry (pack_steps segment).
Proof.
  unfold pack_one, try_except. unfold bind at 1.
  destruct (backup_run B table dir w) as [r [w1 [cmd [-> T1]]]].
  destruct r as [backup_file|backup_error].
  2:{ unfold ret. eexists; eexists; exists [EvRun cmd].
      split; [reflexivity|]. split; [exact T1|]. split.
      - left. prefix_of [2; 3; 4].
      - left. eauto. }
  unfold bind at 1.
  destruct (now_run B (Strftime "%H%M%S") w1) as [stamp [w2 [-> T2]]].
  unfold bind at 1.
  destruct (get_table_rows_run B table w2) as [data [w3 [evs3 [-> [T3 S3]]]]].
  match goal with
  | |- context [bind B ?m ?k w3] =>
      assert (exists o w4 evs4,
                 m w3 = (o, w4) /\
                 trace w4 = (trace w3 ++ evs4)%list /\
                 (pack_steps evs4 = [2] \/ (pack_steps evs4 = [] /\ o = Val tt)))
        as [o4 [w4 [evs4 [E4 [T4 S4]]]]]
  end.
  { destruct data as [[|r0 l0]|].
    - exists (Val tt), w3, []. rewrite app_nil_r. repeat split; auto.
    - destruct (write_excel_run (path_join dir (table ++ "_" ++ stamp ++ ".xlsx"))
                                (r0 :: l0) w3) as [o [w4 [E T]]].
      exists o, w4, [EvToExcel (path_join dir (table ++ "_" ++ stamp ++ ".xlsx"))
                               (r0 :: l0)].
      repeat split; auto.
    - exists (Val tt), w3, []. rewrite app_nil_r. repeat split; auto. }
  unfold bind at 1.
  rewrite E4.
  assert (trace w4 = (trace w ++ EvRun cmd :: evs3 ++ evs4)%list) as T4'.
  { rewrite T4, T3, T2, T1, <- !app_assoc. reflexivity. }
  assert (pack_steps (EvRun cmd :: evs3 ++ evs4) = (1 :: pack_steps evs4)) as S4'.
  { change (EvRun cmd :: evs3 ++ evs4)%list
      with ([EvRun cmd] ++ evs3 ++ evs4)%list.
    now rewrite !pack_steps_app, S3. }
  destruct o4 as [[]|e4].
  2:{ unfold ret. eexists; eexists; eexists.
      split; [reflexivity|]. split; [exact T4'|]. rewrite S4'. split.
      - destruct S4 as [->|[-> ?]]; left;
          [prefix_of [3; 4] | prefix_of [2; 3; 4]].
      - right. right. eauto. }
  unfold bind at 1.
  destruct (now_run B (Strftime "%H%M%S") w4) as [stamp' [w5 [-> T5]]].
  unfold bind at 1.
  match goal with
  | |- context [write_json B ?p ?d w5] =>
      destruct (write_json_run p d w5) as [o6 [w6 [E6 T6]]];
      set (json_event := EvJsonDump p d) in *
  end.
  rewrite E6.
  assert (trace w6 = (trace w ++ (EvRun cmd :: evs3 ++ evs4) ++ [json_event])%list)
    as T6'.
  { rewrite T6, T5, T4', <- !app_assoc. reflexivity. }
  assert (pack_steps ((EvRun cmd :: evs3 ++ evs4) ++ [json_event])
          = (1 :: pack_steps evs4 ++ [3])%list) as S6'.
  { rewrite pack_steps_app, S4'. reflexivity. }
  destruct o6 as [[]|e6].
  2:{ unfold ret. eexists; eexists; eexists.
      split; [reflexivity|]. split; [exact T6'|]. rewrite S6'. split.
      - destruct S4 as [->|[-> ?]]; [left | right]; prefix_of [4].
      - right. right. eauto. }
  unfold bind at 1.
  destruct (drop_table_run B table w6) as [b [w7 [evs7 [-> [T7 S7]]]]].
  assert (trace w7
          = (trace w ++ ((EvRun cmd :: evs3 ++ evs4) ++ [json_event]) ++ evs7)%list)
    as T7'.
  { rewrite T7, T6', <- !app_assoc. reflexivity. }
  assert (in_order (pack_steps
                      (((EvRun cmd :: evs3 ++ evs4) ++ [json_event]) ++ evs7)))
    as O.
  { rewrite pack_steps_app, S6'.
    destruct S4 as [->|[-> ?]], S7 as [->|[-> ?]];
      [left; prefix_of (@nil nat) | left; prefix_of [4]
       | right; prefix_of (@nil nat) | right; prefix_of [4]]. }
  destruct b; unfold ret.
  - eexists; eexists; eexists.
    split; [reflexivity|]. split; [exact T7'|]. split; [exact O|].
    split; [reflexivity|]. split; [reflexivity|].
    rewrite pack_steps_app, S6'.
    destruct S7 as [->|[_ ?]]; [|discriminate].
    apply in_or_app. right. now left.
  - eexists; eexists; eexists.
    split; [reflexivity|]. split; [exact T7'|]. split; [exact O|].
    right. left. reflexivity.
Qed.
End PackOne.

Lemma pack_run_length (tables : list string) (entries : list pack_entry)
      (evs : list event) :
  pack_run tables entries evs -> length entries = length tables.
Proof. induction 1; cbn; auto. Qed.

Lemma filter_all_length {A : Type} (f : A -> bool) (l : list A) :
  forallb f l = true <-> length (filter f l) = length l.
Proof.
  induction l as [|x l IH]; cbn; [tauto|].
  pose proof (filter_length_le f l) as L.
  destruct (f x); cbn; [rewrite IH; lia|].
  split; [discriminate | lia].
Qed.

Section PackAll.
Context (B : Backend).

Lemma pack_loop_run (dir : string) (tables : list string)
      (acc : list pack_entry) (good : bool) (w : World B) :
  exists entries w' evs,
    for_fold B tables (acc, good)
      (fun state table =>
         bind B (pack_one B dir table)
              (fun entry =>
                 match entry with
                 | PackDone _ => ret B ((fst state ++ [entry])%list, snd state)
                 | PackError _ => ret B ((fst state ++ [entry])%list, false)
                 end)) w
    = (Val ((acc ++ entries)%list, good && forallb is_packed entries), w') /\
    trace w' = (trace w ++ evs)%list /\
    pack_run tables entries evs.
Proof.
  revert acc good w. induction tables as [|table tables IH]; intros acc good w.
  - exists [], w, []. cbn. rewrite !app_nil_r, andb_true_r.
    repeat split. constructor.
  - cbn [for_fold]. unfold bind at 1. unfold bind at 1.
    destruct (pack_one_run B dir table w) as [entry [w1 [seg [-> [T1 O]]]]].
    destruct entry as [msg|r]; unfold ret at 1; cbn [fst snd].
    + destruct (IH (acc ++ [PackError msg])%list false w1)
        as [entries [w2 [evs [-> [T2 R]]]]].
      exists (PackError msg :: entries), w2, (seg ++ evs)%list.
      rewrite <- app_assoc. cbn. rewrite andb_false_r.
      split; [reflexivity|]. split; [now rewrite T2, T1, app_assoc|].
      now constructor.
    + destruct (IH (acc ++ [PackDone r])%list good w1)
        as [entries [w2 [evs [-> [T2 R]]]]].
      exists (PackDone r :: entries), w2, (seg ++ evs)%list.
      rewrite <- app_assoc. cbn [app forallb is_packed].
      pose proof O as [_ [_ [Hs _]]]. rewrite Hs. cbn.
      split; [reflexivity|]. split; [now rewrite T2, T1, app_assoc|].
      now constructor.
Qed.

Lemma pack_loop_total (dir : string) (tables : list string) (w : World B) :
  exists results w' evs,
    pack_loop B dir tables w = (Val (results, forallb is_packed results), w') /\
    trace w' = (trace w ++ evs)%list /\
    pack_run tables results evs.
Proof. exact (pack_loop_run dir tables [] true w). Qed.

Lemma failed_backup_skips (dir table : string) (w w' : World B) (err : string) :
  create_single_table_backup B table dir w = (Val (BackupError err), w') ->
  pack_one B dir table w
  = (Val (PackError ("Backup error for '" ++ table ++ "': " ++ err)), w').
Proof.
  intros E. unfold pack_one, try_except, bind. now rewrite E.
Qed.

End PackAll.

Lemma same_keys_texts (table_name condition : string) (pk : value)
      (d1 d2 : dict value) :
  keys d1 = keys d2 ->
  insert_sql table_name d1 pk = insert_sql table_name d2 pk /\
  update_sql table_name d1 condition = update_sql table_name d2 condition.
Proof.
  intros H. unfold insert_sql, update_sql. rewrite H.
  assert (length d1 = length d2) as ->.
  { rewrite <- (length_map fst d1), <- (length_map fst d2).
    unfold keys in H. now rewrite H. }
  split; reflexivity.
Qed.

Lemma sql_texts_none (evs : list event) :
  Forall no_statement evs -> sql_texts evs = [].
Proof.
  induction 1 as [|ev evs H _ IH]; [reflexivity|].
  destruct ev; cbn in *; try contradiction; exact IH.
Qed.

Section Texts.
Context (B : Backend).

(** A statement followed by calls that send none: the statement texts of
    the log grow by this one statement. *)
Lemma one_statement {A : Type} (c : conn) (sql : string)
      (p : option pyparams) (k : cursor_state -> M B A)
      (handler : string -> M B A) (w : World B) :
  (forall cur, adds no_statement (k cur)) ->
  (forall e, adds no_statement (handler e)) ->
  sql_texts (trace (snd (try_except B (bind B (execute B c sql p) k) handler w)))
  = (sql_texts (trace w) ++ [sql])%list.
Proof.
  intros Hk Hh. unfold try_except, bind.
  destruct (execute_run B c sql p w)
    as [[cur [w1 [-> [_ T1]]]]|[err [w1 [-> [_ T1]]]]].
  - destruct (Hk cur w1) as [o [w2 [evs [-> [T2 F2]]]]].
    destruct o as [a|e].
    + cbn [snd]. rewrite T2, T1, !sql_texts_app, (sql_texts_none _ F2).
      now rewrite app_nil_r.
    + destruct (Hh e w2) as [o [w3 [evs3 [-> [T3 F3]]]]].
      cbn [snd]. rewrite T3, T2, T1, !sql_texts_app, (sql_texts_none _ F2),
        (sql_texts_none _ F3).
      now rewrite !app_nil_r.
  - destruct (Hh err w1) as [o [w3 [evs3 [-> [T3 F3]]]]].
    cbn [snd]. rewrite T3, T1, !sql_texts_app, (sql_texts_none _ F3).
    now rewrite !app_nil_r.
Qed.
End Texts.

Ltac adds_none :=
  repeat (intros;
          first
            [ exact I
            | apply adds_ret | apply adds_raise | apply adds_now
            | apply adds_commit | apply adds_close
            | apply adds_rollback | apply adds_print | apply adds_connect
            | apply adds_bind | apply adds_try_except | apply adds_try_finally
            | match goal with
              | |- adds _ (match ?x with _ => _ end) => destruct x
              | |- adds _ (if ?x then _ else _) => destruct x
              end
            | progress unfold fetchone, row_key ]).

Section Statements.
Context (B : Backend).

Lemma try_except_bind_val {A C : Type} (m : M B A) (k : A -> M B C)
      (handler : string -> M B C) (w w1 : World B) (a : A) :
  m w = (Val a, w1) ->
  try_except B (bind B m k) handler w = try_except B (k a) handler w1.
Proof. intros E. unfold try_except, bind. now rewrite E. Qed.

Lemma try_except_bind_exc {A C : Type} (m : M B A) (k : A -> M B C)
      (handler : string -> M B C) (w w1 : World B) (e : string) :
  m w = (Exc e, w1) ->
  try_except B (bind B m k) handler w = handler e w1.
Proof. intros E. unfold try_except, bind. now rewrite E. Qed.

Lemma add_row_texts (w : World B) (table_name : string) (d1 d2 : dict value) :
  add_row_columns B table_name d1 w = add_row_columns B table_name d2 w ->
  sql_texts (trace (snd (add_row B table_name d1 w)))
  = sql_texts (trace (snd (add_row B table_name d2 w))).
Proof.
  unfold add_row_columns, add_row.
  destruct (get_table_info B table_name w) as [[info|e] w1] eqn:E1.
  2:{ intros _. now rewrite !(try_except_bind_exc _ _ _ _ _ _ E1). }
  rewrite !(try_except_bind_val _ _ _ _ _ _ E1).
  destruct info as [[|col info]|]; try reflexivity.
  destruct (nullable_names B (col :: info) w1) as [[nc|e] w2] eqn:E2.
  2:{ intros _. now rewrite !(try_except_bind_exc _ _ _ _ _ _ E2). }
  rewrite !(try_except_bind_val _ _ _ _ _ _ E2). intros H.
  destruct (filter_values nc d1) as [|x1 f1] eqn:F1,
           (filter_values nc d2) as [|x2 f2] eqn:F2;
    try discriminate H; try reflexivity.
  destruct (get_table_pk B table_name w2) as [[pk|e] w3] eqn:E3.
  2:{ now rewrite !(try_except_bind_exc _ _ _ _ _ _ E3). }
  rewrite !(try_except_bind_val _ _ _ _ _ _ E3).
  destruct (get_db_connection B true w3) as [[c|e] w4] eqn:E4.
  2:{ now rewrite !(try_except_bind_exc _ _ _ _ _ _ E4). }
  rewrite !(try_except_bind_val _ _ _ _ _ _ E4).
  destruct c as [c|]; [|reflexivity].
  destruct (same_keys_texts table_name "" pk _ _ H) as [-> _].
  rewrite !one_statement; [reflexivity| | | |]; adds_none.
Qed.

Lemma modify_row_texts (w : World B) (table_name condition : string)
      (d1 d2 : dict value) :
  modify_row_columns B table_name d1 w = modify_row_columns B table_name d2 w ->
  sql_texts (trace (snd (modify_row B table_name d1 condition w)))
  = sql_texts (trace (snd (modify_row B table_name d2 condition w))).
Proof.
  unfold modify_row_columns, modify_row.
  destruct (blank condition); [reflexivity|].
  destruct (get_table_info B table_name w) as [[info|e] w1] eqn:E1.
  2:{ intros _. now rewrite !(try_except_bind_exc _ _ _ _ _ _ E1). }
  rewrite !(try_except_bind_val _ _ _ _ _ _ E1).
  intros H.
  match goal with
  | |- context [try_except B (bind B ?m _) _ w1] => set (names := m)
  end.
  destruct (names w1) as [[nc|e] w2] eqn:E2.
  2:{ now rewrite !(try_except_bind_exc _ _ _ _ _ _ E2). }
  rewrite !(try_except_bind_val _ _ _ _ _ _ E2).
  assert (keys (filter_values nc d1) = keys (filter_values nc d2)) as K.
  { subst names. destruct info as [[|col info]|].
    - injection E2 as <- _. exact H.
    - rewrite E2 in H. exact H.
    - injection E2 as <- _. exact H. }
  destruct (same_keys_texts table_name condition VNone _ _ K) as [_ ->].
  destruct (filter_values nc d1) as [|x1 f1] eqn:F1,
           (filter_values nc d2) as [|x2 f2] eqn:F2;
    try discriminate K; try reflexivity.
  destruct (get_db_connection B true w2) as [[c|e] w4] eqn:E4.
  2:{ now rewrite !(try_except_bind_exc _ _ _ _ _ _ E4). }
  rewrite !(try_except_bind_val _ _ _ _ _ _ E4).
  destruct c as [c|]; [|reflexivity].
  rewrite !one_statement; [reflexivity| | | |]; adds_none.
Qed.
End Statements.

Section Bound.
Context (B : Backend).

Lemma adds_row_key (P : event -> Prop) (f : cursor_factory) (r : row)
      (k : value) :
  adds P (row_key B f r k).
Proof.
  unfold row_key. destruct f; try apply adds_raise;
    destruct k; try apply adds_raise;
    destruct (dict_get s r); try apply adds_raise; apply adds_ret.
Qed.

Lemma adds_nullable_names (P : event -> Prop) (info : list row) :
  adds P (nullable_names B info).
Proof.
  induction info as [|col info IH]; cbn [nullable_names]; [apply adds_ret|].
  apply adds_bind; [apply adds_row_key|]. intros flag.
  destruct (value_is_str flag "YES"); [|exact IH].
  apply adds_bind; [apply adds_row_key|]. intros name.
  apply adds_bind; [exact IH | intros; apply adds_ret].
Qed.

Lemma adds_column_names (P : event -> Prop) (info : list row) :
  adds P (column_names B info).
Proof.
  induction info as [|col info IH]; cbn [column_names]; [apply adds_ret|].
  apply adds_bind; [apply adds_row_key|]. intros name.
  apply adds_bind; [exact IH | intros; apply adds_ret].
Qed.

Lemma adds_session (P : event -> Prop) (sql : string) (p : pyparams) :
  (forall ev, session_event sql ev -> P ev) -> adds P (run_sql B sql p).
Proof. intros H. eapply adds_weaken; [exact H | apply adds_run_sql]. Qed.

Lemma adds_add_row (table_name : string) (data : dict value) :
  adds (insert_event table_name data) (add_row B table_name data).
Proof.
  unfold add_row. apply adds_try_except.
  2:{ intros e. apply adds_bind; [apply adds_print; exact I|].
      intros; apply adds_ret. }
  apply adds_bind.
  { apply adds_session. intros [] S; cbn in *; auto. }
  intros [[|col info]|]; try apply adds_ret.
  apply adds_bind; [apply adds_nullable_names|]. intros nc.
  destruct (filter_values nc data) as [|x f] eqn:F; [apply adds_ret|].
  apply adds_bind.
  { unfold get_table_pk. apply adds_bind.
    - apply adds_session. intros [] S; cbn in *; auto.
    - intros [[|first rest]|]; try apply adds_ret. apply adds_row_key. }
  intros pk. apply adds_bind.
  { apply adds_get_db_connection; intros; exact I. }
  intros [c|]; [|apply adds_ret].
  apply adds_bind.
  { apply adds_execute. intros r. cbn. right. right. exists nc, pk.
    now rewrite F. }
  intros cur. apply adds_bind.
  { destruct (value_truthy pk); [|apply adds_ret].
    apply adds_bind.
    - unfold fetchone. destruct (fetched cur) as [[|r0 rs]|];
        try apply adds_ret; apply adds_raise.
    - intros [[|x0 r0]|]; try apply adds_ret. apply adds_row_key. }
  intros inserted_id. apply adds_bind; [apply adds_commit; intros; exact I|].
  intros _. apply adds_bind; [apply adds_close; exact I|].
  intros; apply adds_ret.
Qed.

Lemma adds_modify_row (table_name condition : string) (data : dict value) :
  adds (update_event table_name condition data)
       (modify_row B table_name data condition).
Proof.
  unfold modify_row. apply adds_try_except.
  2:{ intros e. apply adds_bind; [apply adds_print; exact I|].
      intros; apply adds_ret. }
  destruct (blank condition); [apply adds_ret|].
  apply adds_bind.
  { apply adds_session. intros [] S; cbn in *; auto. }
  intros info. apply adds_bind.
  { destruct info as [[|col info]|]; try apply adds_ret.
    apply adds_column_names. }
  intros nc.
  destruct (filter_values nc data) as [|x f] eqn:F; [apply adds_ret|].
  apply adds_bind.
  { apply adds_get_db_connection; intros; exact I. }
  intros [c|]; [|apply adds_ret].
  apply adds_bind.
  { apply adds_execute. intros r. cbn. right. exists nc. now rewrite F. }
  intros cur. apply adds_bind; [apply adds_commit; intros; exact I|].
  intros _. apply adds_bind; [apply adds_close; exact I|].
  intros; apply adds_ret.
Qed.

(** C1.  The statement text of the insert and update builders is made of
    the table, the kept column names, the primary key and the condition:
    two value maps with the same keys give the same text.  Every statement
    that [add_row] and [modify_row] send is a catalog query or the INSERT,
    or UPDATE, over the kept columns, with the kept values as its bound
    parameters.  And two calls in one world whose statements have the same
    column list send the same statement texts, whatever the values. *)
Theorem values_stay_out_of_statement_text
        (w : World B) (table_name condition : string) (d1 d2 : dict value) :
  (forall pk, keys d1 = keys d2 ->
              insert_sql table_name d1 pk = insert_sql table_name d2 pk /\
              update_sql table_name d1 condition
              = update_sql table_name d2 condition)
  /\ adds (insert_event table_name d1) (add_row B table_name d1)
  /\ adds (update_event table_name condition d1)
          (modify_row B table_name d1 condition)
  /\ (add_row_columns B table_name d1 w = add_row_columns B table_name d2 w ->
      sql_texts (trace (snd (add_row B table_name d1 w)))
      = sql_texts (trace (snd (add_row B table_name d2 w))))
  /\ (modify_row_columns B table_name d1 w
      = modify_row_columns B table_name d2 w ->
      sql_texts (trace (snd (modify_row B table_name d1 condition w)))
      = sql_texts (trace (snd (modify_row B table_name d2 condition w)))).
Proof.
  split; [intros pk K; now apply same_keys_texts|].
  split; [apply adds_add_row|].
  split; [apply adds_modify_row|].
  split; [apply add_row_texts | apply modify_row_texts].
Qed.
End Bound.

Section SafeRemove.
Context (B : Backend).

Lemma fetch_count_raises (c : conn) (cur : cursor_state) (w : World B) :
  factory c = RealDictCursor ->
  exists e, fetch_count B c cur w = (Exc e, w).
Proof.
  intros F. unfold fetch_count, bind, fetchone, row_index. rewrite F.
  destruct (fetched cur) as [[|r rs]|]; unfold ret, raise; eauto.
Qed.

Lemma safe_step_raises (c : conn) (table_name condition : string)
      (relation_info : list relation) (rel_table : row) (w : World B) :
  factory c = RealDictCursor ->
  exists e w',
    safe_step B c table_name condition relation_info rel_table w = (Exc e, w').
Proof.
  intros F. unfold safe_step. unfold bind at 1.
  destruct (row_key B RealDictCursor rel_table (VStr "referencing_table") w)
    as [[rn|e] w1]; [|eauto].
  unfold bind at 1.
  destruct (row_key B RealDictCursor rel_table (VStr "referencing_column") w1)
    as [[rc|e] w2]; [|eauto].
  unfold bind at 1.
  destruct (get_table_pk B table_name w2) as [[pk|e] w3]; [|eauto].
  unfold bind at 1.
  destruct (execute B c (count_sql table_name condition rn rc pk) None w3)
    as [[cur|e] w4]; [|eauto].
  unfold bind at 1.
  destruct (fetch_count_raises c cur w4 F) as [e ->]. eauto.
Qed.

(** [safe_remove] never answers with [has_relations]: on its connection
    the count of an edge cannot be read, so with any inbound edge the
    call ends in the error text of the [KeyError]. *)
Lemma safe_remove_never_blocks (w : World B) (table_name condition : string) :
  exists r w',
    safe_remove B table_name condition w = (Val r, w') /\
    has_relations r = false /\
    forall c w1 edge edges w2,
      blank condition = false ->
      get_db_connection B true w = (Val (Some c), w1) ->
      get_related_tables B table_name w1 = (Val (Some (edge :: edges)), w2) ->
      ok r = false.
Proof.
  unfold safe_remove, try_except.
  destruct (blank condition).
  { eexists; eexists. split; [reflexivity|]. split; [reflexivity|].
    intros; discriminate. }
  unfold bind at 1.
  destruct (get_db_connection_run B true w) as [[e E]|[e [err E]]]; rewrite E.
  2:{ eexists; eexists. split; [reflexivity|]. split; [reflexivity|].
      intros; discriminate. }
  remember (mkConn (next_conn w) RealDictCursor) as c eqn:Hc.
  assert (factory c = RealDictCursor) as F by now subst.
  remember (mkWorld e (S (next_conn w)) _) as w1 eqn:Hw1. clear Hw1 E.
  unfold safe_check. unfold bind at 1.
  destruct (get_related_tables B table_name w1) as [[rel|e1] w2] eqn:Er.
  2:{ unfold print, ret, bind, log.
      eexists; eexists. split; [reflexivity|]. split; [reflexivity|].
      reflexivity. }
  unfold bind at 1, iterable.
  destruct rel as [[|edge edges]|]; unfold ret at 1, raise.
  - cbn [for_fold]. unfold bind at 1, ret at 1. unfold bind at 1.
    destruct (execute_run B c (delete_sql table_name condition) None w2)
      as [[cur [w3 [-> _]]]|[err [w3 [-> _]]]].
    + unfold bind at 1.
      destruct (commit_run B c w3) as [[w4 [-> _]]|[err [w4 [-> _]]]];
        unfold bind, close, print, ret, log, with_env;
        eexists; eexists; (split; [reflexivity|]); (split; [reflexivity|]);
        intros c' w1' edge edges w2' _ Ec Er'; injection Ec as <- <-;
        rewrite Er in Er'; discriminate.
    + unfold bind, print, ret, log.
      eexists; eexists. split; [reflexivity|]. split; [reflexivity|].
      intros c' w1' edge edges w2' _ Ec Er'. injection Ec as <- <-.
      rewrite Er in Er'. discriminate.
  - cbn [for_fold]. unfold bind at 1. unfold bind at 1.
    destruct (safe_step_raises c table_name condition [] edge w2 F)
      as [e2 [w3 ->]].
    unfold print, ret, bind, log.
    eexists; eexists. split; [reflexivity|]. split; reflexivity.
  - unfold print, ret, bind, log.
    eexists; eexists. split; [reflexivity|]. split; reflexivity.
Qed.
End SafeRemove.

(** C3 (defect).  [modify_row] does not follow the policy of [add_row]:
    its [nullable_columns] holds every column of the table.  For [users],
    whose [name] is not nullable, the value map [{name: ''}] makes
    [modify_row] send [UPDATE "users" SET "name" = %s] with a bound NULL,
    where [add_row] leaves the column out and sends no INSERT. *)
Theorem modify_row_sets_required_column_to_null :
  modify_row (scenario_backend shop) "users" [("name", VStr "")] "id = 1"
             (start shop)
  = (Val (OpOk 1 "Updated 1 records"),
     world_of shop 2
       [EvConnect RealDictCursor (Some 0);
        EvExecute 0 sql_table_info (Some (PTuple [VStr "users"])) (inr (-1)%Z);
        EvCommit 0 None; EvClose 0;
        EvConnect RealDictCursor (Some 1);
        EvExecute 1 (update_sql "users" [("name", VNone)] "id = 1")
                  (Some (PTuple [VNone])) (inr 1%Z);
        EvCommit 1 None; EvClose 1])
  /\ fst (add_row (scenario_backend shop) "users" [("name", VStr "")] (start shop))
     = Val VNone
  /\ sql_texts (trace (snd (add_row (scenario_backend shop) "users"
                                    [("name", VStr "")] (start shop))))
     = [sql_table_info].
Proof. repeat split; vm_compute; reflexivity. Qed.

(** C4 (defect).  [safe_remove] reads the count of an edge with
    [cursor.fetchone()[0]] on a [RealDictCursor] connection, whose rows
    answer to column names only.  For [users], referenced by two tables
    with two matching rows each, it sends the first count query and then
    answers [{ok: False, msg: '0'}], the text of the [KeyError]: no
    [has_relations], no list of blocking edges. *)
Theorem safe_remove_cannot_read_the_count :
  sc_count shop = 2%Z
  /\ fst (safe_remove (scenario_backend shop) "users" "id = 1" (start shop))
     = Val (OpFail "0")
  /\ sql_texts (trace (snd (safe_remove (scenario_backend shop) "users" "id = 1"
                                        (start shop))))
     = [sql_related_tables; sql_table_pk;
        count_sql "users" "id = 1" (VStr "orders") (VStr "user_id") (VStr "id")].
Proof. repeat split; vm_compute; reflexivity. Qed.

(** C9 (defect).  [DBManager.add_row] answers [None] when it fails, and
    the [/api/add] handler answers [{ok: True}] for [None].  With the
    database unreachable, and with an INSERT that the server refuses, the
    handler answers [{ok: True, msg: ...}]. *)
Theorem failed_add_row_answers_ok :
  add_row (scenario_backend shop_offline) "users" [("name", VStr "ann")]
          (start shop_offline)
  = (Val VNone,
     world_of shop_offline 0 [EvConnect RealDictCursor None;
                   EvPrint "Connection error: connection refused"])
  /\ fst (api_add_row (scenario_backend shop_offline) "users"
                      [("name", VStr "ann")] (start shop_offline))
     = Val (HJson true [("msg", VStr msg_added)])
  /\ In (EvExecute 3 (insert_sql "users" [("name", VStr "ann")] (VStr "id"))
                   (Some (PTuple [VStr "ann"])) (inl "cannot execute: INSERT"))
        (trace (snd (api_add_row (scenario_backend shop_insert_refused) "users"
                                 [("name", VStr "ann")]
                                 (start shop_insert_refused))))
  /\ fst (api_add_row (scenario_backend shop_insert_refused) "users"
                      [("name", VStr "ann")] (start shop_insert_refused))
     = Val (HJson true [("msg", VStr msg_added)]).
Proof.
  split; [vm_compute; reflexivity|]. split; [vm_compute; reflexivity|].
  split; [|vm_compute; reflexivity].
  vm_compute. do 13 right. left. reflexivity.
Qed.

Lemma values_stay_out_of_statement_text_witness :
  insert_sql "users" [("name", VStr "ann")] (VStr "id")
  = insert_sql "users" [("name", VStr "bob")] (VStr "id")
  /\ sql_texts (trace (snd (add_row (scenario_backend shop) "users"
                                    [("name", VStr "ann")] (start shop))))
     = sql_texts (trace (snd (add_row (scenario_backend shop) "users"
                                      [("name", VStr "bob")] (start shop))))
  /\ sql_texts (trace (snd (modify_row (scenario_backend shop) "users"
                                       [("name", VStr "ann")] "id = 1"
                                       (start shop))))
     = sql_texts (trace (snd (modify_row (scenario_backend shop) "users"
                                         [("name", VStr "bob")] "id = 1"
                                         (start shop)))).
Proof.
  destruct (values_stay_out_of_statement_text
              (scenario_backend shop) (start shop) "users" "id = 1"
              [("name", VStr "ann")] [("name", VStr "bob")])
    as [H1 [_ [_ [H4 H5]]]].
  split; [apply (H1 (VStr "id")); reflexivity|].
  split; [apply H4; vm_compute; reflexivity | apply H5; vm_compute; reflexivity].
Defined.






(* ================================================================== *)
(** * Further properties of the engine and of the handlers *)
(* ================================================================== *)

Lemma map_opt_length {A C : Type} (f : A -> option C) (l : list A) (r : list C) :
  map_opt f l = Some r -> length r = length l.
Proof.
  revert r. induction l as [|x l IH]; cbn [map_opt]; intros r E.
  - injection E as <-. reflexivity.
  - destruct (f x) as [y|]; [|discriminate].
    destruct (map_opt f l) as [ys|]; [|discriminate].
    injection E as <-. cbn. f_equal. now apply IH.
Qed.

Lemma prepare_dict_result (d : dict value) (r : pyparams) :
  prepare_dict d = Some r ->
  r = PDict d \/ exists items, r = PTuple items /\ length items = length d.
Proof.
  unfold prepare_dict. destruct (forallb isdigit (keys d)) eqn:A.
  2:{ intros E. injection E as <-. now left. }
  rewrite (filter_all _ _ A).
  destruct (map_opt py_int (keys d)) as [ints|] eqn:E1; [|discriminate].
  destruct (map_opt _ (sorted ints)) as [items|] eqn:E2; [|discriminate].
  cbn. intros E. injection E as <-. right. exists items. split; [reflexivity|].
  apply map_opt_length in E1, E2. rewrite E2.
  rewrite (Permutation_length (sorted_perm ints)), E1.
  unfold keys. apply length_map.
Qed.

(** X1.  Whatever [_prepare_params] is given, its result is never a
    [list]; it is [None] or an object that counts as true, so that the
    test [if sql_params] of [run_sql] only tells [None] from the rest; and
    coercing a second time changes nothing. *)
Theorem prepare_params_result_shape (p : pyparams) :
  is_list (_prepare_params p) = false
  /\ (_prepare_params p = PNone \/ truthy (_prepare_params p) = true)
  /\ _prepare_params (_prepare_params p) = _prepare_params p.
Proof.
  revert p. fix IH 1. intros p.
  destruct p as [|b|z|t|s parsed|l|l|d].
  - cbn. auto.
  - destruct b; cbn; auto.
  - cbn. destruct (z =? 0)%Z eqn:E; cbn; rewrite ?E; cbn; auto.
  - destruct t; cbn; auto.
  - destruct s as [|c s]; [cbn; auto|].
    destruct parsed as [q|].
    + change (_prepare_params (PStr (String c s) (Some q)))
        with (_prepare_params q).
      apply IH.
    + cbn. auto.
  - destruct l; cbn; auto.
  - destruct l; cbn; auto.
  - destruct d as [|kv d]; [cbn; auto|].
    change (_prepare_params (PDict (kv :: d)))
      with (match prepare_dict (kv :: d) with
            | Some r => r
            | None => prepare_fallback (PDict (kv :: d))
            end).
    destruct (prepare_dict (kv :: d)) as [r|] eqn:E.
    + destruct (prepare_dict_result _ _ E) as [->|[items [-> L]]].
      * repeat split; [now right|].
        change (_prepare_params (PDict (kv :: d)))
          with (match prepare_dict (kv :: d) with
                | Some r => r
                | None => prepare_fallback (PDict (kv :: d))
                end).
        now rewrite E.
      * destruct items as [|v items]; [discriminate L|]. cbn. auto.
    + cbn [prepare_fallback]. repeat split; [now right|].
      change (_prepare_params (PDict (kv :: d)))
        with (match prepare_dict (kv :: d) with
              | Some r => r
              | None => prepare_fallback (PDict (kv :: d))
              end).
      now rewrite E.
Qed.

Lemma dict_set_fresh {V : Type} (k : string) (v : V) (d : dict V) :
  ~ In k (keys d) -> dict_set k v d = (d ++ [(k, v)])%list.
Proof.
  induction d as [|[k' v'] d IH]; cbn [dict_set keys map fst app];
    intros N; [reflexivity|].
  destruct (k' =? k) eqn:E.
  - apply String.eqb_eq in E. subst. exfalso. apply N. now left.
  - f_equal. apply IH. intros I. apply N. now right.
Qed.

(** A loop that sets, for every item of a dict, its key to a value made
    of the item, or leaves the item out: it appends in the order of the
    items. *)
Lemma fold_set_distinct {V W : Type} (h : string * W -> option V)
      (f : dict V -> string * W -> dict V) :
  (forall acc item,
      f acc item = match h item with
                   | Some v => dict_set (fst item) v acc
                   | None => acc
                   end) ->
  forall (l : list (string * W)) (acc : dict V),
    NoDup (map fst l) ->
    (forall k, In k (keys acc) -> ~ In k (map fst l)) ->
    fold_left f l acc
    = (acc ++ flat_map (fun item => match h item with
                                    | Some v => [(fst item, v)]
                                    | None => []
                                    end) l)%list.
Proof.
  intros Hf. induction l as [|item l IH]; intros acc N D;
    cbn [fold_left flat_map]; [now rewrite app_nil_r|].
  cbn [map] in N, D. inversion N as [|? ? N0 N1]; subst.
  rewrite IH; [|assumption|].
  - rewrite Hf. destruct (h item) as [v|]; [|reflexivity].
    rewrite dict_set_fresh; [now rewrite <- app_assoc|].
    intros I. apply (D _ I). now left.
  - intros k I. rewrite Hf in I. destruct (h item) as [v|].
    + destruct (string_dec k (fst item)) as [->|Ne]; [exact N0|].
      intros I'. apply (D k); [|now right].
      clear -I Ne. induction acc as [|[k' v'] acc IHa]; cbn in I |- *.
      * destruct I as [I|[]]. now symmetry in I.
      * destruct (k' =? fst item) eqn:E; cbn in I; destruct I as [I|I]; auto.
    + intros I'. apply (D k I). now right.
Qed.

(** X2.  For a value map with distinct keys, the loop of [add_row] and of
    [modify_row] works item by item and keeps the order of the items: an
    item whose value has content is kept as it is, an empty one is kept
    with [None] when its column is nullable, and is left out otherwise. *)
Theorem filter_values_in_order (nullable_columns : list value)
        (data : dict value) :
  NoDup (keys data) ->
  filter_values nullable_columns data = flat_map (kept nullable_columns) data.
Proof.
  intros N. unfold filter_values.
  rewrite (fold_set_distinct
             (fun item => if has_content (snd item) then Some (snd item)
                          else if in_columns (fst item) nullable_columns
                               then Some VNone else None)).
  - cbn [app]. apply flat_map_ext. intros [k v]. unfold kept. cbn [fst snd].
    destruct (has_content v); [reflexivity|].
    destruct (in_columns k nullable_columns); reflexivity.
  - intros acc [k v]. unfold filter_step. cbn [fst snd].
    destruct (has_content v); [reflexivity|].
    destruct (in_columns k nullable_columns); reflexivity.
  - exact N.
  - intros k [].
Qed.

Lemma filter_values_in_order_witness :
  filter_values [VStr "nick"]
                [("name", VStr ""); ("nick", VStr ""); ("age", VInt 7)]
  = [("nick", VNone); ("age", VInt 7)].
Proof.
  apply (filter_values_in_order
           [VStr "nick"]
           [("name", VStr ""); ("nick", VStr ""); ("age", VInt 7)]).
  repeat constructor; cbn; intuition discriminate.
Defined.

Lemma json_value_plain (v : value) : plain v = true -> json_value v = v.
Proof. destruct v as [| | | | |t [] s]; cbn; try reflexivity; discriminate. Qed.

(** X3.  The structured snapshot of a row with distinct column names has
    the same columns in the same order; each cell is written through
    [json_value], which turns a timestamp into its ISO text and an object
    with a [__dict__] into its [str()], and leaves every other value as
    it is. *)
Theorem json_row_keeps_columns (r : row) :
  NoDup (keys r) ->
  json_row r = map (fun item => (fst item, json_value (snd item))) r
  /\ keys (json_row r) = keys r
  /\ (forallb plain (values r) = true -> json_row r = r).
Proof.
  intros N.
  assert (json_row r = map (fun item => (fst item, json_value (snd item))) r)
    as E.
  { unfold json_row.
    rewrite (fold_set_distinct (fun item => Some (json_value (snd item))));
      [|reflexivity|exact N|intros k []].
    cbn [app]. clear N. induction r as [|item r IH]; [reflexivity|].
    cbn [flat_map map app]. now rewrite IH. }
  split; [exact E|]. rewrite E. split.
  - unfold keys. rewrite map_map. reflexivity.
  - clear. induction r as [|[k v] r IH]; cbn; [reflexivity|].
    intros H. apply andb_true_iff in H as [Hv H].
    rewrite (json_value_plain _ Hv). f_equal. now apply IH.
Qed.

Lemma json_row_keeps_columns_witness :
  json_row [("id", VInt 1); ("made", VTime "2024-01-01T10:15:00" "2024-01-01 10:15:00")]
  = [("id", VInt 1); ("made", VStr "2024-01-01T10:15:00")].
Proof.
  apply (json_row_keeps_columns
           [("id", VInt 1);
            ("made", VTime "2024-01-01T10:15:00" "2024-01-01 10:15:00")]).
  repeat constructor; cbn; intuition discriminate.
Defined.

Ltac pick := repeat first [reflexivity | eexists].

Section Sessions.
Context (B : Backend).

Lemma close_run (c : conn) (w : World B) :
  exists w',
    close B c w = (Val tt, w') /\
    next_conn w' = next_conn w /\
    trace w' = (trace w ++ [EvClose (handle c)])%list.
Proof. unfold close, log, with_env. eexists. repeat split. Qed.

Lemma rollback_run (c : conn) (w : World B) :
  exists w',
    rollback B c w = (Val tt, w') /\
    next_conn w' = next_conn w /\
    trace w' = (trace w ++ [EvRollback (handle c)])%list.
Proof. unfold rollback, log, with_env. eexists. repeat split. Qed.

Lemma print_run (msg : string) (w : World B) :
  exists w',
    print B msg w = (Val tt, w') /\
    next_conn w' = next_conn w /\
    trace w' = (trace w ++ [EvPrint msg])%list.
Proof. unfold print, log. eexists. repeat split. Qed.

(** The connection that [get_db_connection] opens, or the failure it
    prints. *)
Lemma get_db_connection_cases (dict_mode : bool) (w : World B) :
  let f := if dict_mode then RealDictCursor else DictCursor in
  (exists c w',
      get_db_connection B dict_mode w = (Val (Some c), w') /\
      handle c = next_conn w /\ factory c = f /\
      next_conn w' = S (next_conn w) /\
      trace w' = (trace w ++ [EvConnect f (Some (handle c))])%list)
  \/ (exists err w',
         get_db_connection B dict_mode w = (Val None, w') /\
         next_conn w' = next_conn w /\
         trace w' = (trace w ++ [EvConnect f None;
                                 EvPrint ("Connection error: " ++ err)])%list).
Proof.
  cbv zeta.
  destruct (get_db_connection_run B dict_mode w) as [[e E]|[e [err E]]];
    rewrite E.
  - left. eexists; eexists. repeat split.
  - right. eexists; eexists. repeat split.
Qed.

(** A statement, then the commit and the close: how the three calls can
    end. *)
Lemma write_tail {A : Type} (c : conn) (sql : string) (p : option pyparams)
      (f : cursor_state -> A) (w : World B) :
  exists o w' evs,
    bind B (execute B c sql p)
         (fun cur =>
            bind B (commit B c)
                 (fun _ => bind B (close B c) (fun _ => ret B (f cur)))) w
    = (o, w') /\
    trace w' = (trace w ++ evs)%list /\
    next_conn w' = next_conn w /\
    ((exists cur,
         o = Val (f cur) /\
         evs = [EvExecute (handle c) sql p (inr (rowcount cur));
                EvCommit (handle c) None; EvClose (handle c)])
     \/ (exists err,
            o = Exc err /\ evs = [EvExecute (handle c) sql p (inl err)])
     \/ (exists cur err,
            o = Exc err /\
            evs = [EvExecute (handle c) sql p (inr (rowcount cur));
                   EvCommit (handle c) (Some err)])).
Proof.
  unfold bind at 1.
  destruct (execute_run B c sql p w)
    as [[cur [w1 [-> [N1 T1]]]]|[err [w1 [-> [N1 T1]]]]].
  2:{ eexists; eexists; eexists. split; [reflexivity|].
      split; [exact T1|]. split; [exact N1|]. right. left. eexists. split; reflexivity. }
  unfold bind at 1.
  destruct (commit_run B c w1) as [[w2 [-> [N2 T2]]]|[err [w2 [-> [N2 T2]]]]].
  2:{ eexists; eexists; eexists. split; [reflexivity|].
      split; [rewrite T2, T1, <- app_assoc; reflexivity|].
      split; [congruence|]. right. right. eexists; eexists. split; reflexivity. }
  unfold bind at 1.
  destruct (close_run c w2) as [w3 [-> [N3 T3]]]. unfold ret.
  eexists; eexists; eexists. split; [reflexivity|].
  split; [rewrite T3, T2, T1, <- !app_assoc; reflexivity|].
  split; [congruence|]. left. eexists. split; reflexivity.
Qed.

(** [run_sql], case by case. *)
Lemma run_sql_cases (w : World B) (sql : string) (params : pyparams) :
  exists r w' evs,
    run_sql B sql params w = (Val r, w') /\
    trace w' = (trace w ++ evs)%list /\
    ((exists err,
         r = None /\
         evs = [EvConnect RealDictCursor None;
                EvPrint ("Connection error: " ++ err)])
     \/ (exists cur,
            r = fetched cur /\
            evs = EvConnect RealDictCursor (Some (next_conn w))
                  :: committed (next_conn w) sql (bound_params params)
                               (rowcount cur))
     \/ (exists err,
            r = None /\
            evs = (EvConnect RealDictCursor (Some (next_conn w))
                   :: refused (next_conn w) sql (bound_params params) err
                   ++ recovery (next_conn w)
                               ("SQL execution error: " ++ err))%list)
     \/ (exists n err,
            r = None /\
            evs = (EvConnect RealDictCursor (Some (next_conn w))
                   :: uncommitted (next_conn w) sql (bound_params params)
                                  n err
                   ++ recovery (next_conn w)
                               ("SQL execution error: " ++ err))%list)).
Proof.
  unfold run_sql. unfold bind at 1.
  destruct (get_db_connection_cases true w)
    as [[c [w1 [-> [Hc [_ [_ T1]]]]]]|[err [w1 [-> [_ T1]]]]].
  2:{ unfold ret. eexists; eexists; eexists. split; [reflexivity|].
      split; [exact T1|]. left. pick. }
  rewrite <- Hc. unfold try_finally, try_except. cbv zeta.
  assert ((if truthy (_prepare_params params)
           then execute B c sql (Some (_prepare_params params))
           else execute B c sql None)
          = execute B c sql (bound_params params)) as ->.
  { unfold bound_params. now destruct (truthy (_prepare_params params)). }
  unfold bind at 1.
  destruct (execute_run B c sql (bound_params params) w1)
    as [[cur [w2 [-> [_ T2]]]]|[err [w2 [-> [_ T2]]]]].
  - unfold bind at 1.
    destruct (commit_run B c w2) as [[w3 [-> [_ T3]]]|[err [w3 [-> [_ T3]]]]].
    + unfold ret. destruct (close_run c w3) as [w4 [-> [_ T4]]].
      eexists; eexists; eexists. split; [reflexivity|].
      split; [rewrite T4, T3, T2, T1, <- !app_assoc; reflexivity|].
      right. left. pick.
    + unfold bind at 1. destruct (rollback_run c w3) as [w4 [-> [_ T4]]].
      unfold bind at 1.
      destruct (print_run ("SQL execution error: " ++ err) w4)
        as [w5 [-> [_ T5]]].
      unfold ret. destruct (close_run c w5) as [w6 [-> [_ T6]]].
      eexists; eexists; eexists. split; [reflexivity|].
      split; [rewrite T6, T5, T4, T3, T2, T1, <- !app_assoc; reflexivity|].
      right. right. right. pick.
  - unfold bind at 1. destruct (rollback_run c w2) as [w4 [-> [_ T4]]].
    unfold bind at 1.
    destruct (print_run ("SQL execution error: " ++ err) w4)
      as [w5 [-> [_ T5]]].
    unfold ret. destruct (close_run c w5) as [w6 [-> [_ T6]]].
    eexists; eexists; eexists. split; [reflexivity|].
    split; [rewrite T6, T5, T4, T2, T1, <- !app_assoc; reflexivity|].
    right. right. left. pick.
Qed.

End Sessions.

Section Writes.
Context (B : Backend).

(** [drop_table_completely], case by case. *)
Lemma drop_table_cases (w : World B) (table : string) :
  exists b w' evs,
    drop_table_completely B table w = (Val b, w') /\
    trace w' = (trace w ++ evs)%list /\
    ((exists err,
         b = false /\
         evs = [EvConnect DictCursor None;
                EvPrint ("Connection error: " ++ err)])
     \/ (exists n,
            b = true /\
            evs = EvConnect DictCursor (Some (next_conn w))
                  :: committed (next_conn w) (drop_cascade_sql table) None n)
     \/ (exists err,
            b = false /\
            evs = (EvConnect DictCursor (Some (next_conn w))
                   :: refused (next_conn w) (drop_cascade_sql table) None err
                   ++ recovery (next_conn w)
                               ("Error dropping table " ++ table ++ ": "
                                  ++ err))%list)
     \/ (exists n err,
            b = false /\
            evs = (EvConnect DictCursor (Some (next_conn w))
                   :: uncommitted (next_conn w) (drop_cascade_sql table) None
                                  n err
                   ++ recovery (next_conn w)
                               ("Error dropping table " ++ table ++ ": "
                                  ++ err))%list)).
Proof.
  unfold drop_table_completely. fold (drop_cascade_sql table).
  unfold try_except at 1. cbv zeta. unfold bind at 1.
  destruct (get_db_connection_cases B false w)
    as [[c [w1 [-> [Hc [_ [_ T1]]]]]]|[err [w1 [-> [_ T1]]]]].
  2:{ unfold ret. eexists; eexists; eexists. split; [reflexivity|].
      split; [exact T1|]. left. pick. }
  rewrite <- Hc. unfold try_finally, try_except. unfold bind at 1.
  destruct (execute_run B c (drop_cascade_sql table) None w1)
    as [[cur [w2 [-> [_ T2]]]]|[err [w2 [-> [_ T2]]]]].
  - unfold bind at 1.
    destruct (commit_run B c w2) as [[w3 [-> [_ T3]]]|[err [w3 [-> [_ T3]]]]].
    + unfold ret. destruct (close_run B c w3) as [w4 [-> [_ T4]]].
      eexists; eexists; eexists. split; [reflexivity|].
      split; [rewrite T4, T3, T2, T1, <- !app_assoc; reflexivity|].
      right. left. pick.
    + unfold bind at 1. destruct (rollback_run B c w3) as [w4 [-> [_ T4]]].
      unfold bind at 1.
      destruct (print_run B ("Error dropping table " ++ table ++ ": " ++ err) w4)
        as [w5 [-> [_ T5]]].
      unfold ret. destruct (close_run B c w5) as [w6 [-> [_ T6]]].
      eexists; eexists; eexists. split; [reflexivity|].
      split; [rewrite T6, T5, T4, T3, T2, T1, <- !app_assoc; reflexivity|].
      right. right. right. pick.
  - unfold bind at 1. destruct (rollback_run B c w2) as [w4 [-> [_ T4]]].
    unfold bind at 1.
    destruct (print_run B ("Error dropping table " ++ table ++ ": " ++ err) w4)
      as [w5 [-> [_ T5]]].
    unfold ret. destruct (close_run B c w5) as [w6 [-> [_ T6]]].
    eexists; eexists; eexists. split; [reflexivity|].
    split; [rewrite T6, T5, T4, T2, T1, <- !app_assoc; reflexivity|].
    right. right. left. pick.
Qed.

(** X5.  [drop_table_completely] never raises, and answers [True] exactly
    when the DROP was accepted and committed.  A refused DROP or a refused
    commit is rolled back and printed, and a connection that was opened is
    always closed.  The [/api/drop_table] handler turns the answer into
    its [ok] flag. *)
Theorem drop_table_protocol (w : World B) (table : string) :
  exists b w' evs,
    drop_table_completely B table w = (Val b, w') /\
    trace w' = (trace w ++ evs)%list /\
    ((exists err,
         b = false /\
         evs = [EvConnect DictCursor None;
                EvPrint ("Connection error: " ++ err)])
     \/ (exists n,
            b = true /\
            evs = EvConnect DictCursor (Some (next_conn w))
                  :: committed (next_conn w) (drop_cascade_sql table) None n)
     \/ (exists err,
            b = false /\
            evs = (EvConnect DictCursor (Some (next_conn w))
                   :: refused (next_conn w) (drop_cascade_sql table) None err
                   ++ recovery (next_conn w)
                               ("Error dropping table " ++ table ++ ": "
                                  ++ err))%list)
     \/ (exists n err,
            b = false /\
            evs = (EvConnect DictCursor (Some (next_conn w))
                   :: uncommitted (next_conn w) (drop_cascade_sql table) None
                                  n err
                   ++ recovery (next_conn w)
                               ("Error dropping table " ++ table ++ ": "
                                  ++ err))%list)) /\
    (table <> "" ->
     drop_table B table w
     = (Val (if b
             then HJson true
                        [("msg", VStr ("Table '" ++ table ++ "' dropped"))]
             else HJson false
                        [("error", VStr ("Failed to drop '" ++ table ++ "'"))]),
        w')).
Proof.
  destruct (drop_table_cases w table) as [b [w' [evs [E [T C]]]]].
  exists b, w', evs. repeat (split; [assumption|]).
  intros N. apply String.eqb_neq in N.
  unfold drop_table, try_except, bind. rewrite N, E. now destruct b.
Qed.

End Writes.


Section Updates.
Context (B : Backend).

Lemma adds_columns_of (P : event -> Prop) (info : option (list row)) :
  adds P (match info with
          | Some ((_ :: _) as columns_info) => column_names B columns_info
          | _ => ret B []
          end).
Proof.
  destruct info as [[|col info]|]; try apply adds_ret. apply adds_column_names.
Qed.

(** X6.  [modify_row] never raises.  Either it sends nothing but the
    catalog query and answers not ok; or, after the catalog query, it
    sends on a connection of its own the one UPDATE over the kept columns
    with the kept values, and commits.  It answers ok, with the row count
    of that UPDATE, exactly when the commit went through; after a refused
    statement or a refused commit it answers with the error text, and the
    connection is neither rolled back nor closed. *)
Theorem modify_row_outcomes (w : World B) (table_name condition : string)
        (data : dict value) :
  exists r w' evs,
    modify_row B table_name data condition w = (Val r, w') /\
    trace w' = (trace w ++ evs)%list /\
    ((ok r = false /\ Forall (session_event sql_table_info) evs)
     \/ exists pre h nullable_columns,
         let clean_data := filter_values nullable_columns data in
         let sql := update_sql table_name clean_data condition in
         let p := Some (PTuple (values clean_data)) in
         Forall (session_event sql_table_info) pre /\
         ((exists n,
              r = OpOk n ("Updated " ++ str_of_Z n ++ " records") /\
              evs = (pre ++ EvConnect RealDictCursor (Some h)
                              :: committed h sql p n)%list)
          \/ (exists err,
                 r = OpFail err /\
                 evs = (pre ++ EvConnect RealDictCursor (Some h)
                                 :: refused h sql p err
                           ++ [EvPrint ("Error updating data in "
                                          ++ table_name ++ ": " ++ err)])%list)
          \/ (exists n err,
                 r = OpFail err /\
                 evs = (pre ++ EvConnect RealDictCursor (Some h)
                                 :: uncommitted h sql p n err
                           ++ [EvPrint ("Error updating data in "
                                          ++ table_name ++ ": " ++ err)])%list))).
Proof.
  unfold modify_row. destruct (blank condition).
  { unfold try_except, ret. exists (OpFail "Condition cannot be empty"), w, [].
    rewrite app_nil_r. repeat split. left. split; [reflexivity | constructor]. }
  unfold get_table_info.
  destruct (adds_run_sql B sql_table_info (PTuple [VStr table_name]) w)
    as [o1 [w1 [evs1 [E1 [T1 F1]]]]].
  destruct o1 as [info|e].
  2:{ rewrite (try_except_bind_exc B _ _ _ _ _ _ E1). unfold bind at 1.
      destruct (print_run B ("Error updating data in " ++ table_name ++ ": "
                               ++ e) w1) as [w2 [-> [_ T2]]].
      unfold ret. eexists; eexists; eexists. split; [reflexivity|].
      split; [rewrite T2, T1, <- app_assoc; reflexivity|].
      left. split; [reflexivity|]. apply Forall_app. split; [exact F1|].
      repeat constructor. }
  rewrite (try_except_bind_val B _ _ _ _ _ _ E1).
  destruct (adds_columns_of (session_event sql_table_info) info w1)
    as [o2 [w2 [evs2 [E2 [T2 F2]]]]].
  destruct o2 as [nc|e].
  2:{ rewrite (try_except_bind_exc B _ _ _ _ _ _ E2). unfold bind at 1.
      destruct (print_run B ("Error updating data in " ++ table_name ++ ": "
                               ++ e) w2) as [w3 [-> [_ T3]]].
      unfold ret. eexists; eexists; eexists. split; [reflexivity|].
      split; [rewrite T3, T2, T1, <- !app_assoc; reflexivity|].
      left. split; [reflexivity|].
      repeat (apply Forall_app; split); auto. repeat constructor. }
  rewrite (try_except_bind_val B _ _ _ _ _ _ E2). cbv zeta.
  destruct (filter_values nc data) as [|x f] eqn:Fv.
  { unfold try_except, ret. eexists; eexists; eexists. split; [reflexivity|].
    split; [rewrite T2, T1, <- !app_assoc; reflexivity|].
    left. split; [reflexivity|]. now apply Forall_app. }
  rewrite <- Fv.
  destruct (get_db_connection_cases B true w2)
    as [[c [w3 [E3 [Hc [_ [_ T3]]]]]]|[err [w3 [E3 [_ T3]]]]];
    rewrite (try_except_bind_val B _ _ _ _ _ _ E3).
  2:{ unfold try_except, ret. eexists; eexists; eexists.
      split; [reflexivity|].
      split; [rewrite T3, T2, T1, <- !app_assoc; reflexivity|].
      left. split; [reflexivity|].
      repeat (apply Forall_app; split); auto. repeat constructor. }
  destruct (write_tail B c (update_sql table_name (filter_values nc data)
                                       condition)
                       (Some (PTuple (values (filter_values nc data))))
                       (fun cur => OpOk (rowcount cur)
                                        ("Updated " ++ str_of_Z (rowcount cur)
                                           ++ " records")) w3)
    as [o [w4 [evs [Ew [T4 [_ C]]]]]].
  cbv beta in Ew. unfold try_except. rewrite Ew.
  assert (Forall (session_event sql_table_info) (evs1 ++ evs2)) as Fp
      by now apply Forall_app.
  destruct C as [[cur [-> ->]]|[[err [-> ->]]|[cur [err [-> ->]]]]].
  - eexists; eexists; eexists. split; [reflexivity|].
    split; [rewrite T4, T3, T2, T1, <- !app_assoc; reflexivity|].
    right. exists (evs1 ++ evs2)%list, (handle c), nc. cbv zeta.
    split; [exact Fp|]. left. exists (rowcount cur).
    split; [reflexivity|]. now rewrite <- !app_assoc.
  - unfold bind at 1.
    destruct (print_run B ("Error updating data in " ++ table_name ++ ": "
                             ++ err) w4) as [w5 [-> [_ T5]]].
    unfold ret. eexists; eexists; eexists. split; [reflexivity|].
    split; [rewrite T5, T4, T3, T2, T1, <- !app_assoc; reflexivity|].
    right. exists (evs1 ++ evs2)%list, (handle c), nc. cbv zeta.
    split; [exact Fp|]. right. left. exists err.
    split; [reflexivity|]. now rewrite <- !app_assoc.
  - unfold bind at 1.
    destruct (print_run B ("Error updating data in " ++ table_name ++ ": "
                             ++ err) w4) as [w5 [-> [_ T5]]].
    unfold ret. eexists; eexists; eexists. split; [reflexivity|].
    split; [rewrite T5, T4, T3, T2, T1, <- !app_assoc; reflexivity|].
    right. exists (evs1 ++ evs2)%list, (handle c), nc. cbv zeta.
    split; [exact Fp|]. right. right. exists (rowcount cur), err.
    split; [reflexivity|]. now rewrite <- !app_assoc.
Qed.
End Updates.

Lemma count_is_no_delete (table_name condition : string) (evs : list event) :
  Forall (count_only table_name condition) evs ->
  ~ In (delete_sql table_name condition) (sql_texts evs).
Proof.
  induction 1 as [|ev evs H _ IH]; [intros []|].
  change (ev :: evs) with ([ev] ++ evs)%list. rewrite sql_texts_app.
  intros I. apply in_app_or in I as [I|I]; [|now apply IH].
  destruct ev; cbn in I; try contradiction. destruct I as [I|[]].
  cbn in H. destruct H as [H|[rn [rc [pk H]]]]; rewrite H in I;
    discriminate I.
Qed.

Section SafeMode.
Context (B : Backend).

Lemma adds_safe_step (c : conn) (table_name condition : string)
      (relation_info : list relation) (rel_table : row) :
  adds (count_only table_name condition)
       (safe_step B c table_name condition relation_info rel_table).
Proof.
  unfold safe_step.
  apply adds_bind; [apply adds_row_key|]. intros rn.
  apply adds_bind; [apply adds_row_key|]. intros rc.
  apply adds_bind.
  { unfold get_table_pk. apply adds_bind.
    - apply adds_session. intros [] S; cbn in *; auto.
    - intros [[|first rest]|]; try apply adds_ret. apply adds_row_key. }
  intros pk. apply adds_bind.
  { apply adds_execute. intros r. cbn. right. eauto. }
  intros cur. apply adds_bind.
  { unfold fetch_count. apply adds_bind.
    - unfold fetchone. destruct (fetched cur) as [[|r0 rs]|];
        try apply adds_ret; apply adds_raise.
    - intros [r|]; [|apply adds_raise]. unfold row_index.
      destruct (factory c); try apply adds_raise;
        destruct (nth_error (values r) 0); try apply adds_raise;
        apply adds_ret. }
  intros count. apply adds_bind.
  { unfold positive. destruct count; try apply adds_raise; apply adds_ret. }
  intros []; apply adds_ret.
Qed.

End SafeMode.


Section Inserts.
Context (B : Backend).

Lemma fetch_id_pure (c : conn) (cur : cursor_state) (pk : value)
      (w w' : World B) (o : outcome value) :
  (if value_truthy pk
   then bind B (fetchone B cur)
             (fun result =>
                match result with
                | Some ((_ :: _) as r) => row_key B (factory c) r pk
                | _ => ret B VNone
                end)
   else ret B VNone) w = (o, w') ->
  w' = w /\ (o <> Val VNone -> value_truthy pk = true).
Proof.
  destruct (value_truthy pk).
  - unfold bind, fetchone, row_key, ret, raise.
    destruct (fetched cur) as [[|[|x r] rs]|]; try destruct (factory c);
      try destruct pk; try destruct (dict_get _ _);
      intros E; injection E as <- <-; auto.
  - unfold ret. intros E. injection E as <- <-. split; [reflexivity|].
    intros N. now contradiction N.
Qed.

Lemma adds_get_table_pk (P : event -> Prop) (table_name : string) :
  (forall ev, session_event sql_table_pk ev -> P ev) ->
  adds P (get_table_pk B table_name).
Proof.
  intros H. unfold get_table_pk. apply adds_bind.
  - now apply adds_session.
  - intros [[|first rest]|]; try apply adds_ret. apply adds_row_key.
Qed.

(** X8.  [add_row] never raises.  When it hands back an id, the INSERT
    over the kept columns, with the kept values and with the RETURNING
    clause of the primary key, was accepted on a connection of its own,
    and then committed and closed: these four calls are the last ones of
    the run. *)
Theorem add_row_id_means_committed (w : World B) (table_name : string)
        (data : dict value) :
  exists r w' evs,
    add_row B table_name data w = (Val r, w') /\
    trace w' = (trace w ++ evs)%list /\
    (r <> VNone ->
     exists pre h nullable_columns pk n,
       let filtered_data := filter_values nullable_columns data in
       value_truthy pk = true /\
       evs = (pre ++ EvConnect RealDictCursor (Some h)
                       :: committed h
                            (insert_sql table_name filtered_data pk)
                            (Some (PTuple (values filtered_data))) n)%list).
Proof.
  destruct (adds_add_row B table_name data w) as [o [w' [evs [E [T _]]]]].
  assert (exists r, o = Val r) as [r ->].
  { assert (exists r w'', add_row B table_name data w = (Val r, w''))
      as [r [w'' E']].
    { unfold add_row. apply try_except_returns. intros e w0.
      unfold bind, print, ret. eauto. }
    rewrite E in E'. injection E' as -> _. now exists r. }
  exists r, w', evs. split; [exact E|]. split; [exact T|]. intros Nr.
  unfold add_row in E.
  apply try_except_val in E as [[r' [Er E]]|[e [w1 [_ E]]]].
  2:{ unfold bind, print, ret in E. injection E as <- _. now contradiction Nr. }
  injection Er as <-.
  apply bind_val in E as [info [w1 [E1 E]]].
  destruct info as [[|col info]|];
    try (unfold ret in E; injection E as <- _; now contradiction Nr).
  apply bind_val in E as [nc [w2 [E2 E]]]. cbv zeta in E.
  destruct (filter_values nc data) as [|x f] eqn:Fv;
    [unfold ret in E; injection E as <- _; now contradiction Nr|].
  rewrite <- Fv in E.
  apply bind_val in E as [pk [w3 [E3 E]]].
  apply bind_val in E as [c [w4 [E4 E]]].
  destruct c as [c|];
    [|unfold ret in E; injection E as <- _; now contradiction Nr].
  apply bind_val in E as [cur [w5 [E5 E]]].
  apply bind_val in E as [id [w6 [E6 E]]].
  apply bind_val in E as [[] [w7 [E7 E]]].
  apply bind_val in E as [[] [w8 [E8 E]]].
  unfold ret in E. injection E as <- <-.
  apply fetch_id_pure in E6 as [-> Hpk].
  assert (value_truthy pk = true) as Tpk by (apply Hpk; congruence).
  assert (extends w w3) as [pre Hpre].
  { eapply extends_trans;
      [eapply extends_trans|];
      [eapply (adds_extends B (fun _ => True)); [|exact E1]
      |eapply (adds_extends B (fun _ => True)); [|exact E2]
      |eapply (adds_extends B (fun _ => True)); [|exact E3]].
    - unfold get_table_info. apply adds_session. auto.
    - apply adds_nullable_names.
    - apply adds_get_table_pk. auto. }
  destruct (get_db_connection_cases B true w3)
    as [[c' [w4' [E4' [Hc [_ [_ T4]]]]]]|[err [w4' [E4' _]]]];
    rewrite E4 in E4'; [|discriminate E4'].
  injection E4' as <- <-.
  destruct (execute_run B c (insert_sql table_name (filter_values nc data) pk)
                        (Some (PTuple (values (filter_values nc data)))) w4)
    as [[cur' [w5' [E5' [_ T5]]]]|[err [w5' [E5' _]]]];
    rewrite E5 in E5'; [|discriminate E5'].
  injection E5' as <- <-.
  destruct (commit_run B c w5)
    as [[w7' [E7' [_ T7]]]|[err [w7' [E7' _]]]];
    rewrite E7 in E7'; [|discriminate E7'].
  injection E7' as <-.
  destruct (close_run B c w7) as [w8' [E8' [_ T8]]].
  rewrite E8 in E8'. injection E8' as <-.
  exists pre, (handle c), nc, pk, (rowcount cur). cbv zeta.
  split; [exact Tpk|].
  rewrite T8, T7, T5, T4, Hpre, <- !app_assoc in T.
  apply app_inv_head in T. rewrite <- T. reflexivity.
Qed.
End Inserts.

Section Wipe.
Context (B : Backend).

Lemma first_cells_pure (c : conn) (tables : list row) (w : World B) :
  exists o, first_cells B c tables w = (o, w).
Proof.
  induction tables as [|t tables [o IH]]; cbn [first_cells];
    [unfold ret; eauto|].
  unfold bind at 1. unfold row_index.
  destruct (factory c); unfold raise, ret; eauto;
    (destruct (nth_error (values t) 0); [|eauto]);
    unfold bind; rewrite IH; destruct o; eauto.
Qed.

Lemma wipe_loop_run (c : conn) (names : list value) (removed : nat)
      (w : World B) :
  exists o w' evs,
    wipe_loop B c names removed w = (Val o, w') /\
    trace w' = (trace w ++ evs)%list /\
    ((exists counts,
         length counts = length names /\
         o = inl (removed + length names) /\
         evs = dropped (handle c) names counts)
     \/ (exists done name rest counts err,
            names = (done ++ name :: rest)%list /\
            length counts = length done /\
            o = inr (false, "Failed to drop " ++ py_str name ++ ": " ++ err) /\
            evs = (dropped (handle c) done counts
                     ++ [EvExecute (handle c) (drop_cascade_sql (py_str name))
                                   None (inl err);
                         EvPrint ("Error dropping table " ++ py_str name
                                    ++ ": " ++ err);
                         EvRollback (handle c); EvClose (handle c)])%list)).
Proof.
  revert removed w. induction names as [|name names IH]; intros removed w.
  - cbn [wipe_loop]. unfold ret. exists (inl removed), w, [].
    rewrite app_nil_r. repeat split. left. exists [].
    cbn. now rewrite Nat.add_0_r.
  - cbn [wipe_loop]. fold (drop_cascade_sql (py_str name)).
    unfold bind at 1. unfold try_except. unfold bind at 1.
    destruct (execute_run B c (drop_cascade_sql (py_str name)) None w)
      as [[cur [w1 [-> [_ T1]]]]|[err [w1 [-> [_ T1]]]]].
    + unfold ret at 1.
      destruct (IH (S removed) w1) as [o [w2 [evs [-> [T2 C]]]]].
      eexists; eexists; eexists. split; [reflexivity|].
      split; [rewrite T2, T1, <- app_assoc; reflexivity|].
      destruct C as [[counts [L [-> ->]]]
                    |[done [nm [rest [counts [err [-> [L [-> ->]]]]]]]]].
      * left. exists (rowcount cur :: counts). cbn [length].
        split; [now rewrite L|]. split; [f_equal; lia | reflexivity].
      * right. exists (name :: done), nm, rest, (rowcount cur :: counts), err.
        cbn [length]. split; [reflexivity|]. split; [now rewrite L|].
        split; reflexivity.
    + unfold bind at 1.
      destruct (print_run B ("Error dropping table " ++ py_str name ++ ": "
                               ++ err) w1) as [w2 [-> [_ T2]]].
      unfold bind at 1. destruct (rollback_run B c w2) as [w3 [-> [_ T3]]].
      unfold bind at 1. destruct (close_run B c w3) as [w4 [-> [_ T4]]].
      unfold ret. eexists; eexists; eexists. split; [reflexivity|].
      split; [rewrite T4, T3, T2, T1, <- !app_assoc; reflexivity|].
      right. exists [], name, names, [], err. repeat split.
Qed.

(** X10.  Once [wipe_database] is connected and has listed the public
    tables, it drops them on that connection in the order of the listing.
    With nothing listed it closes and answers [No tables found].  When
    every DROP goes through it commits, closes, and answers with the
    number of tables; a refused commit is reported as an error and leaves
    the connection open.  The first DROP that fails ends the loop: it is
    printed, the transaction is rolled back, the connection is closed,
    and the answer names that table with the error text. *)
Theorem wipe_database_protocol (w w1 w2 : World B) (c : conn)
        (cur : cursor_state) (tables : list row) (names : list value) :
  get_db_connection B false w = (Val (Some c), w1) ->
  execute B c sql_wipe_tables None w1 = (Val cur, w2) ->
  fetched cur = Some tables ->
  fst (first_cells B c tables w2) = Val names ->
  exists r w' evs,
    wipe_database B w = (Val r, w') /\
    trace w' = (trace w2 ++ evs)%list /\
    match tables with
    | [] => r = (true, "No tables found") /\ evs = [EvClose (handle c)]
    | _ :: _ =>
        (exists counts,
            length counts = length names /\
            ((r = (true, "Dropped " ++ str_of_N (N.of_nat (length names))
                           ++ " tables") /\
              evs = (dropped (handle c) names counts
                       ++ [EvCommit (handle c) None; EvClose (handle c)])%list)
             \/ (exists err,
                    r = (false, "Error: " ++ err) /\
                    evs = (dropped (handle c) names counts
                             ++ [EvCommit (handle c) (Some err);
                                 EvPrint ("Exception wiping database: "
                                            ++ err)])%list)))
        \/ (exists done name rest counts err,
               names = (done ++ name :: rest)%list /\
               length counts = length done /\
               r = (false, "Failed to drop " ++ py_str name ++ ": " ++ err) /\
               evs = (dropped (handle c) done counts
                        ++ [EvExecute (handle c)
                                      (drop_cascade_sql (py_str name))
                                      None (inl err);
                            EvPrint ("Error dropping table " ++ py_str name
                                       ++ ": " ++ err);
                            EvRollback (handle c); EvClose (handle c)])%list)
    end.
Proof.
  intros E1 E2 Ef En. unfold wipe_database.
  rewrite (try_except_bind_val B _ _ _ _ _ _ E1).
  rewrite (try_except_bind_val B _ _ _ _ _ _ E2).
  assert (fetchall B cur w2 = (Val tables, w2)) as E3
      by (unfold fetchall; now rewrite Ef).
  rewrite (try_except_bind_val B _ _ _ _ _ _ E3).
  destruct tables as [|t tables].
  { unfold try_except. unfold bind at 1.
    destruct (close_run B c w2) as [w3 [-> [_ T3]]]. unfold ret.
    eexists; eexists; eexists. split; [reflexivity|]. split; [exact T3|].
    split; reflexivity. }
  destruct (first_cells_pure c (t :: tables) w2) as [o E4].
  rewrite E4 in En. cbn [fst] in En. subst o.
  rewrite (try_except_bind_val B _ _ _ _ _ _ E4).
  destruct (wipe_loop_run c names 0 w2) as [o [w3 [evs [E5 [T3 C]]]]].
  rewrite (try_except_bind_val B _ _ _ _ _ _ E5).
  destruct C as [[counts [L [-> ->]]]
                |[done [nm [rest [counts [err [-> [L [-> ->]]]]]]]]].
  - cbn [Nat.add]. unfold try_except. unfold bind at 1.
    destruct (commit_run B c w3) as [[w4 [-> [_ T4]]]|[err [w4 [-> [_ T4]]]]].
    + unfold bind at 1. destruct (close_run B c w4) as [w5 [-> [_ T5]]].
      unfold ret. eexists; eexists; eexists. split; [reflexivity|].
      split; [rewrite T5, T4, T3, <- !app_assoc; reflexivity|].
      left. exists counts. split; [exact L|]. left. split; reflexivity.
    + unfold bind at 1.
      destruct (print_run B ("Exception wiping database: " ++ err) w4)
        as [w5 [-> [_ T5]]].
      unfold ret. eexists; eexists; eexists. split; [reflexivity|].
      split; [rewrite T5, T4, T3, <- !app_assoc; reflexivity|].
      left. exists counts. split; [exact L|]. right. exists err.
      split; reflexivity.
  - unfold try_except, ret. eexists; eexists; eexists.
    split; [reflexivity|]. split; [exact T3|].
    right. exists done, nm, rest, counts, err. repeat split. exact L.
Qed.
End Wipe.

Lemma wipe_database_protocol_witness :
  fst (wipe_database (listing_backend two_tables None)
                     (listing_world two_tables None 0 []))
  = Val (true, "Dropped 2 tables").
Proof.
  pose (B := listing_backend two_tables None).
  pose (w := listing_world two_tables None 0 []).
  pose (c := mkConn 0 DictCursor).
  pose (w1 := snd (get_db_connection B false w)).
  pose (w2 := snd (execute B c sql_wipe_tables None w1)).
  assert (get_db_connection B false w = (Val (Some c), w1)) as E1
      by (vm_compute; reflexivity).
  assert (execute B c sql_wipe_tables None w1
          = (Val (mkCursor 2 (Some two_tables)), w2)) as E2
      by (vm_compute; reflexivity).
  assert (fst (first_cells B c two_tables w2) = Val [VStr "a"; VStr "b"]) as E3
      by (vm_compute; reflexivity).
  destruct (wipe_database_protocol B w w1 w2 c _ _ _ E1 E2 eq_refl E3)
    as [r [w' [evs [E _]]]].
  change (fst (wipe_database B w) = Val (true, "Dropped 2 tables")).
  rewrite E. vm_compute in E. injection E as <- _. reflexivity.
Defined.

Lemma contains_char_app (c : ascii) (a b : string) :
  contains (String c EmptyString) a = false ->
  contains (String c EmptyString) b = false ->
  contains (String c EmptyString) (a ++ b) = false.
Proof.
  intros Ha Hb. induction a as [|d a IH]; [exact Hb|].
  cbn [append contains String.prefix] in *.
  destruct (ascii_dec c d) as [_|N].
  - destruct a; discriminate Ha.
  - now apply IH.
Qed.

Lemma no_colon_in_uint (d : Decimal.uint) :
  contains ":" (NilEmpty.string_of_uint d) = false.
Proof.
  induction d; cbn [NilEmpty.string_of_uint contains String.prefix];
    try reflexivity;
    match goal with
    | |- context [ascii_dec ?a ?b] =>
        destruct (ascii_dec a b) as [E|_]; [discriminate E | exact IHd]
    end.
Qed.

Lemma no_colon_in_dropped (n : N) :
  contains ":" ("Dropped " ++ str_of_N n ++ " tables") = false.
Proof.
  apply contains_char_app; [reflexivity|].
  apply contains_char_app; [apply no_colon_in_uint | reflexivity].
Qed.

Section WipeAll.
Context (B : Backend).

Lemma wipe_database_ok_message (w w' : World B) (msg : string) :
  wipe_database B w = (Val (true, msg), w') ->
  msg = "No tables found"
  \/ exists n, msg = "Dropped " ++ str_of_N n ++ " tables".
Proof.
  unfold wipe_database. intros E.
  apply try_except_val in E as [[r [Er E]]|[e [w1 [_ E]]]].
  2:{ unfold bind, print, ret in E. discriminate E. }
  injection Er as <-.
  apply bind_val in E as [c [w1 [_ E]]].
  destruct c as [c|]; [|discriminate E].
  apply bind_val in E as [cur [w2 [_ E]]].
  apply bind_val in E as [tables [w3 [_ E]]].
  destruct tables as [|t tables].
  { apply bind_val in E as [[] [w4 [_ E]]]. injection E as <- _. now left. }
  apply bind_val in E as [names [w4 [_ E]]].
  apply bind_val in E as [o [w5 [El E]]].
  destruct (wipe_loop_run B c names 0 w4) as [o' [w5' [evs [El' [_ C]]]]].
  rewrite El in El'. injection El' as <- <-.
  destruct C as [[counts [_ [-> _]]]|[done [nm [rest [counts [err [_ [_ [-> _]]]]]]]]].
  - apply bind_val in E as [[] [w6 [_ E]]].
    apply bind_val in E as [[] [w7 [_ E]]].
    injection E as <- _. right. eexists. reflexivity.
  - discriminate E.
Qed.

(** X11.  The [/api/wipe_all] handler never raises.  When the wipe went
    through, the [dropped] field of its answer is always the text
    [unknown]: the two success messages of [wipe_database] hold no colon,
    so the number of dropped tables is never taken out of the message. *)
Theorem wipe_all_reports_unknown (w : World B) :
  exists r w',
    wipe_all_tables B w = (Val r, w') /\
    match r with
    | HJson true fields =>
        exists msg, fields = [("msg", VStr msg); ("dropped", VStr "unknown")]
    | HJson false fields => exists e, fields = [("error", VStr e)]
    | _ => False
    end.
Proof.
  unfold wipe_all_tables, try_except, bind.
  destruct (wipe_database B w) as [[[[] msg]|e] w1] eqn:E; unfold ret.
  - destruct (wipe_database_ok_message _ _ _ E) as [->|[n ->]].
    + eexists; eexists. split; [reflexivity|]. cbn. eexists. reflexivity.
    + rewrite no_colon_in_dropped.
      eexists; eexists. split; [reflexivity|]. cbn. eexists. reflexivity.
  - eexists; eexists. split; [reflexivity|]. cbn. eexists. reflexivity.
  - eexists; eexists. split; [reflexivity|]. cbn. eexists. reflexivity.
Qed.
End WipeAll.

(** A wipe of two tables that goes through: the answer is ok, and its
    [dropped] field reads [unknown]. *)
Lemma wipe_all_reports_unknown_example :
  fst (wipe_all_tables (listing_backend two_tables None)
                       (listing_world two_tables None 0 []))
  = Val (HJson true [("msg", VStr "Dropped 2 tables");
                     ("dropped", VStr "unknown")]).
Proof. vm_compute. reflexivity. Qed.

Ltac export_done E1 T1 F1 :=
  eexists; eexists; eexists; split; [reflexivity|];
  split; [|eexists; eexists; eexists; split; [exact E1|];
           split; [exact T1|]; split; [exact F1|]].

Section TableExport.
Context (B : Backend).

Lemma mkdir_run (path : string) (w : World B) :
  exists o w',
    mkdir B path w = (o, w') /\
    trace w' = (trace w ++ [EvMkdir path])%list.
Proof.
  unfold mkdir, log, with_env.
  destruct (fs_mkdir B path (env w)) as [[err|] e]; eauto.
Qed.

(** The rows of a page: [get_table_rows] with a limit never raises, and
    its session sends the page query with the limit and the offset. *)
Lemma get_table_rows_page_run (table_name : string) (limit offset : Z)
      (w : World B) :
  limit <> 0%Z ->
  exists data w' session,
    get_table_rows_page B table_name limit offset w = (Val data, w') /\
    trace w' = (trace w ++ session)%list /\
    Forall (page_event table_name limit offset) session.
Proof.
  intros Hl. apply Z.eqb_neq in Hl. unfold get_table_rows_page, try_except.
  rewrite Hl. cbn [negb]. fold (page_sql table_name).
  destruct (run_sql_cases B w (page_sql table_name)
                          (PTuple [VInt limit; VInt offset]))
    as [r [w' [evs [-> [T C]]]]].
  exists r, w', evs. split; [reflexivity|]. split; [exact T|].
  assert (bound_params (PTuple [VInt limit; VInt offset])
          = Some (PTuple [VInt limit; VInt offset])) as Eb by reflexivity.
  rewrite Eb in C.
  destruct C as [[err [_ ->]]|[[cur [_ ->]]|[[err [_ ->]]|[n [err [_ ->]]]]]];
    repeat constructor.
Qed.

Lemma create_folder_run (base : string) (w : World B) :
  exists o w' dir,
    create_folder_with_time B base w = (o, w') /\
    trace w' = (trace w ++ [EvMkdir dir])%list /\
    (o = Val dir \/ exists err, o = Exc err).
Proof.
  unfold create_folder_with_time. unfold bind at 1.
  destruct (now_run B (Strftime "%Y%m%d_%H%M%S") w) as [stamp [w1 [-> T1]]].
  unfold bind at 1.
  destruct (mkdir_run (path_join base stamp) w1) as [o [w2 [-> T2]]].
  rewrite T1 in T2. destruct o as [[]|err]; unfold ret.
  - eexists; eexists; eexists. split; [reflexivity|]. split; [exact T2|].
    now left.
  - eexists; eexists; eexists. split; [reflexivity|]. split; [exact T2|].
    right. eauto.
Qed.

Lemma save_table_to_xlsx_run (w : World B) (table_name : string) :
  exists r w' evs,
    save_table_to_xlsx B table_name w = (Val r, w') /\
    trace w' = (trace w ++ evs)%list /\
    exists data w1 session,
      get_table_rows_page B table_name 50000 0 w = (Val data, w1) /\
      trace w1 = (trace w ++ session)%list /\
      Forall (page_event table_name 50000 0) session /\
      match data with
      | Some ((_ :: _) as rows) =>
          export_run table_name ".xlsx" (fun path => EvToExcel path rows)
                     session r evs
      | _ => r = (None, "No data to save") /\ evs = session
      end.
Proof.
  unfold save_table_to_xlsx.
  destruct (get_table_rows_page_run table_name 50000 0 w)
    as [data [w1 [session [E1 [T1 F1]]]]]; [discriminate|].
  rewrite (try_except_bind_val B _ _ _ _ _ _ E1).
  destruct data as [[|row0 rows]|];
    try (unfold try_except, ret; export_done E1 T1 F1;
         [exact T1 | now split]).
  unfold try_except. unfold bind at 1.
  destruct (create_folder_run (folders "exports") w1)
    as [o [w2 [dir [-> [T2 [->|[err ->]]]]]]].
  2:{ unfold ret. export_done E1 T1 F1;
        [rewrite T2, T1, <- app_assoc; reflexivity|].
      exists dir. right. left. eauto. }
  unfold bind at 1.
  destruct (now_run B (Strftime "%H%M%S") w2) as [stamp [w3 [-> T3]]].
  unfold bind at 1.
  destruct (write_excel_run B (path_join dir (table_name ++ "_" ++ stamp ++ ".xlsx"))
                 (row0 :: rows) w3) as [o [w4 [-> T4]]].
  destruct o as [[]|err]; unfold ret.
  - export_done E1 T1 F1;
      [rewrite T4, T3, T2, T1, <- !app_assoc; reflexivity|].
    exists dir. left. exists stamp. split; reflexivity.
  - export_done E1 T1 F1;
      [rewrite T4, T3, T2, T1, <- !app_assoc; reflexivity|].
    exists dir. right. right. exists err, stamp. split; reflexivity.
Qed.

Lemma save_table_to_json_run (w : World B) (table_name : string) :
  exists r w' evs,
    save_table_to_json B table_name w = (Val r, w') /\
    trace w' = (trace w ++ evs)%list /\
    exists data w1 session,
      get_table_rows_page B table_name 50000 0 w = (Val data, w1) /\
      trace w1 = (trace w ++ session)%list /\
      Forall (page_event table_name 50000 0) session /\
      match data with
      | Some ((_ :: _) as rows) =>
          export_run table_name ".json"
                     (fun path => EvJsonDump path (JRows (map json_row rows)))
                     session r evs
      | _ => r = (None, "No data to save") /\ evs = session
      end.
Proof.
  unfold save_table_to_json.
  destruct (get_table_rows_page_run table_name 50000 0 w)
    as [data [w1 [session [E1 [T1 F1]]]]]; [discriminate|].
  rewrite (try_except_bind_val B _ _ _ _ _ _ E1).
  destruct data as [[|row0 rows]|];
    try (unfold try_except, ret; export_done E1 T1 F1;
         [exact T1 | now split]).
  unfold try_except. unfold bind at 1.
  destruct (create_folder_run (folders "exports") w1)
    as [o [w2 [dir [-> [T2 [->|[err ->]]]]]]].
  2:{ unfold ret. export_done E1 T1 F1;
        [rewrite T2, T1, <- app_assoc; reflexivity|].
      exists dir. right. left. eauto. }
  unfold bind at 1.
  destruct (now_run B (Strftime "%H%M%S") w2) as [stamp [w3 [-> T3]]].
  cbv zeta. unfold bind at 1.
  destruct (write_json_run B (path_join dir (table_name ++ "_" ++ stamp ++ ".json"))
                 (JRows (map json_row (row0 :: rows))) w3) as [o [w4 [-> T4]]].
  destruct o as [[]|err]; unfold ret.
  - export_done E1 T1 F1;
      [rewrite T4, T3, T2, T1, <- !app_assoc; reflexivity|].
    exists dir. left. exists stamp. split; reflexivity.
  - export_done E1 T1 F1;
      [rewrite T4, T3, T2, T1, <- !app_assoc; reflexivity|].
    exists dir. right. right. exists err, stamp. split; reflexivity.
Qed.

End TableExport.

Lemma json_file_name (stem stamp : string) :
  has_suffix ".json" (stem ++ "_" ++ stamp ++ ".json").
Proof. exists (stem ++ "_" ++ stamp). now rewrite !append_assoc. Qed.

Lemma export_run_file (table_name suffix : string)
      (file_event : string -> event) (session : list event)
      (path name : string) (evs : list event) :
  export_run table_name suffix file_event session (Some path, name) evs ->
  exists dir stamp,
    name = table_name ++ "_" ++ stamp ++ suffix /\
    path = path_join dir name /\
    In (file_event path) evs.
Proof.
  intros [dir [[stamp [E ->]]|[[err [E _]]|[err [stamp [E _]]]]]];
    try discriminate E.
  cbv zeta in E. injection E as -> ->. exists dir, stamp.
  repeat split. apply in_or_app. right. right. now left.
Qed.

Section TableDownload.
Context (B : Backend).

(** X13.  The [/api/get_table] handler never raises.  It answers with a
    file only for the formats [xlsx] and [json]: the file is the one
    written during the call, its download name ends in the extension of
    the format, and its media type is the one of the format.  Every
    other answer is an error; for any other format the handler answers
    [Format not supported] without doing anything. *)
Theorem get_table_answers (w : World B) (table_name format : string) :
  exists r w' evs,
    get_table B table_name format w = (Val r, w') /\
    trace w' = (trace w ++ evs)%list /\
    match r with
    | HFile path media_type filename =>
        (exists dir, path = path_join dir filename) /\
        ((format = "xlsx" /\ media_type = media_xlsx /\
          has_suffix ".xlsx" filename /\
          exists rows, In (EvToExcel path rows) evs)
         \/ (format = "json" /\ media_type = "application/json" /\
             has_suffix ".json" filename /\
             exists doc, In (EvJsonDump path doc) evs))
    | HJson ok_flag _ => ok_flag = false
    | HJsonDoc _ _ => False
    end /\
    (format <> "xlsx" -> format <> "json" ->
     r = HJson false [("error", VStr "Format not supported")] /\ evs = []).
Proof.
  unfold get_table.
  destruct (String.eqb_spec format "xlsx") as [->|Nx].
  { destruct (save_table_to_xlsx_run B w table_name)
      as [[[path|] name] [w' [evs [E [T [data [w1 [session [_ [_ [_ M]]]]]]]]]]];
      rewrite (try_except_bind_val B _ _ _ _ _ _ E); unfold try_except, ret;
      eexists; eexists; exists evs; (split; [reflexivity|]);
      (split; [exact T|]); (split; [|intros N; now contradiction N]);
      [|reflexivity].
    destruct data as [[|row0 rows]|]; try (destruct M as [M _]; discriminate M).
    apply export_run_file in M as [dir [stamp [-> [-> I]]]].
    split; [now exists dir|]. left. repeat split.
    - apply xlsx_file_name.
    - now exists (row0 :: rows). }
  destruct (String.eqb_spec format "json") as [->|Nj].
  { destruct (save_table_to_json_run B w table_name)
      as [[[path|] name] [w' [evs [E [T [data [w1 [session [_ [_ [_ M]]]]]]]]]]];
      rewrite (try_except_bind_val B _ _ _ _ _ _ E); unfold try_except, ret;
      eexists; eexists; exists evs; (split; [reflexivity|]);
      (split; [exact T|]); (split; [|intros _ N; now contradiction N]);
      [|reflexivity].
    destruct data as [[|row0 rows]|]; try (destruct M as [M _]; discriminate M).
    apply export_run_file in M as [dir [stamp [-> [-> I]]]].
    split; [now exists dir|]. right. repeat split.
    - apply json_file_name.
    - eexists. exact I. }
  unfold try_except, ret.
  exists (HJson false [("error", VStr "Format not supported")]), w, [].
  rewrite app_nil_r. repeat split.
Qed.
End TableDownload.

Section Backup.
Context (B : Backend).

End Backup.

Section SqlConsole.
Context (B : Backend).

End SqlConsole.

(** An INSERT that the server refuses: the answer is ok, with no data. *)
Lemma api_run_sql_always_ok_example :
  fst (api_run_sql (scenario_backend shop_insert_refused)
                   "INSERT INTO users VALUES (1)" "" (inr (PDict []))
                   (start shop_insert_refused))
  = Val (SqlData None 0).
Proof. vm_compute. reflexivity. Qed.

(** ** The value maps of the [/api/add] and [/api/modify] handlers *)

Lemma dict_set_present {V : Type} (k : string) (v0 v : V) (d : dict V) :
  NoDup (keys d) -> dict_get k d = Some v0 ->
  dict_set k v d = map (fun item => if fst item =? k then (k, v) else item) d.
Proof.
  induction d as [|[k' v'] d IH]; cbn [dict_get dict_set map fst keys];
    intros N G; [discriminate G|].
  inversion N as [|? ? N0 N1]; subst.
  destruct (k' =? k) eqn:E.
  - apply String.eqb_eq in E. subst k'. f_equal.
    clear -N0. induction d as [|[k1 v1] d IHd]; cbn [map fst]; [reflexivity|].
    destruct (k1 =? k) eqn:E1.
    + apply String.eqb_eq in E1. subst. exfalso. apply N0. now left.
    + f_equal. apply IHd. intros I. apply N0. now right.
  - f_equal. now apply IH.
Qed.

(** The first loop of the handlers, on a value map with distinct keys:
    item by item. *)
Lemma blank_to_none_items (nc : list value) (data : dict value) :
  NoDup (keys data) -> blank_to_none nc data = map (blanked nc) data.
Proof.
  intros N. unfold blank_to_none.
  assert (forall ks d,
             NoDup (keys d) ->
             fold_left
               (fun d key =>
                  match dict_get key d with
                  | Some v =>
                      if value_is_str v "" && in_columns key nc
                      then dict_set key VNone d
                      else d
                  | None => d
                  end) ks d
             = map (fun item => if str_in (fst item) ks
                                then blanked nc item else item) d) as G.
  { induction ks as [|k ks IH]; intros d Nd; cbn [fold_left].
    - cbn. now rewrite map_id.
    - rewrite IH.
      + destruct (dict_get k d) as [v|] eqn:Gk.
        * destruct (value_is_str v "" && in_columns k nc) eqn:Ev.
          -- rewrite (dict_set_present k v VNone d Nd Gk), map_map.
             apply map_ext_in. intros [k1 v1] I. cbn [fst str_in existsb].
             destruct (k1 =? k) eqn:E1.
             ++ apply String.eqb_eq in E1. subst k1.
                assert (v1 = v) as ->.
                { rewrite (dict_get_in d k v1 Nd I) in Gk. congruence. }
                cbn [fst orb]. unfold str_in.
                assert (blanked nc (k, v) = (k, VNone)) as Eb
                    by (unfold blanked; cbn [fst snd]; now rewrite Ev).
                rewrite Eb.
                destruct (existsb (String.eqb k) ks); reflexivity.
             ++ reflexivity.
          -- apply map_ext_in. intros [k1 v1] I. cbn [fst str_in existsb].
             destruct (k1 =? k) eqn:E1; [|reflexivity]. cbn [orb].
             apply String.eqb_eq in E1. subst k1.
             assert (v1 = v) as ->.
             { rewrite (dict_get_in d k v1 Nd I) in Gk. congruence. }
             assert (blanked nc (k, v) = (k, v)) as Eb
                 by (unfold blanked; cbn [fst snd]; now rewrite Ev).
             unfold str_in. rewrite Eb.
             now destruct (existsb (String.eqb k) ks).
        * apply map_ext_in. intros [k1 v1] I. cbn [fst str_in existsb].
          destruct (k1 =? k) eqn:E1; [|reflexivity].
          apply String.eqb_eq in E1. subst k1.
          rewrite (dict_get_in d k v1 Nd I) in Gk. discriminate Gk.
      + destruct (dict_get k d) as [v|] eqn:Gk; [|exact Nd].
        destruct (value_is_str v "" && in_columns k nc); [|exact Nd].
        rewrite (dict_set_present k v VNone d Nd Gk).
        unfold keys. rewrite map_map.
        erewrite map_ext; [exact Nd|].
        intros [k1 v1]. cbn [fst]. destruct (k1 =? k) eqn:E1; [|reflexivity].
        apply String.eqb_eq in E1. now subst. }
  rewrite (G (keys data) data N). apply map_ext_in. intros [k v] I.
  assert (str_in (fst (k, v)) (keys data) = true) as ->; [|reflexivity].
  unfold str_in. apply existsb_exists. exists k. split.
  - unfold keys. change k with (fst (k, v)). now apply in_map.
  - apply String.eqb_refl.
Qed.

Lemma filter_step_blanked (nc1 nc2 : list value) (acc : dict value)
      (item : string * value) :
  filter_step nc2 acc (blanked nc1 item) = filter_step nc2 acc item.
Proof.
  destruct item as [k v]. unfold blanked. cbn [fst snd].
  destruct (value_is_str v "" && in_columns k nc1) eqn:E; [|reflexivity].
  apply andb_true_iff in E as [Ev _].
  destruct v; try discriminate Ev. cbn in Ev. apply String.eqb_eq in Ev.
  subst. reflexivity.
Qed.

Lemma filter_values_blanked (nc1 nc2 : list value) (data : dict value) :
  NoDup (keys data) ->
  filter_values nc2 (blank_to_none nc1 data) = filter_values nc2 data.
Proof.
  intros N. rewrite (blank_to_none_items nc1 data N). unfold filter_values.
  generalize (@nil (string * value)). clear N.
  induction data as [|item data IH]; intros acc; cbn [map fold_left];
    [reflexivity|].
  now rewrite filter_step_blanked, IH.
Qed.

Section AddHandler.
Context (B : Backend).

(** X17.  The first loop of the [/api/add] handler, which turns the
    empty strings of nullable columns into [None], changes nothing in
    what [add_row] does: for a value map with distinct keys, [add_row]
    keeps the same items of the prepared map as of the map that was
    sent, and runs the same way on both. *)
Theorem add_handler_preparation_is_neutral
        (w : World B) (table_name : string) (data : dict value)
        (nullable_columns : list value) :
  NoDup (keys data) ->
  (forall nc, filter_values nc (blank_to_none nullable_columns data)
              = filter_values nc data)
  /\ add_row B table_name (blank_to_none nullable_columns data) w
     = add_row B table_name data w.
Proof.
  intros N.
  assert (forall nc, filter_values nc (blank_to_none nullable_columns data)
                     = filter_values nc data) as F
      by (intros nc; now apply filter_values_blanked).
  split; [exact F|]. unfold add_row.
  destruct (get_table_info B table_name w) as [[info|e] w1] eqn:E1.
  2:{ now rewrite !(try_except_bind_exc B _ _ _ _ _ _ E1). }
  rewrite !(try_except_bind_val B _ _ _ _ _ _ E1).
  destruct info as [[|col info]|]; try reflexivity.
  destruct (nullable_names B (col :: info) w1) as [[nc|e] w2] eqn:E2.
  2:{ now rewrite !(try_except_bind_exc B _ _ _ _ _ _ E2). }
  rewrite !(try_except_bind_val B _ _ _ _ _ _ E2).
  cbv zeta. now rewrite F.
Qed.
End AddHandler.

Lemma add_handler_preparation_is_neutral_witness :
  filter_values [VStr "nick"]
                (blank_to_none [VStr "nick"]
                               [("name", VStr "ann"); ("nick", VStr "")])
  = [("name", VStr "ann"); ("nick", VNone)].
Proof.
  destruct (add_handler_preparation_is_neutral
              (scenario_backend shop) (start shop) "users"
              [("name", VStr "ann"); ("nick", VStr "")] [VStr "nick"])
    as [F _].
  - repeat constructor; cbn; intuition discriminate.
  - rewrite F. reflexivity.
Defined.

Lemma keep_step_blanked (nc : list value) (acc : dict value)
      (item : string * value) :
  keep_step nc acc (blanked nc item)
  = if has_content (snd item) then dict_set (fst item) (snd item) acc else acc.
Proof.
  destruct item as [k v]. unfold blanked, keep_step. cbn [fst snd].
  destruct v as [| | |s| |]; try reflexivity.
  destruct s as [|c s]; [|reflexivity].
  cbn [value_is_str String.eqb andb is_none negb has_content orb].
  destruct (in_columns k nc) eqn:E; cbn [fst snd is_none negb andb orb value_is_str String.eqb];
    rewrite ?E; reflexivity.
Qed.

Lemma keys_filter_distinct {V : Type} (f : string * V -> bool) (d : dict V) :
  NoDup (keys d) -> NoDup (keys (filter f d)).
Proof.
  induction d as [|item d IH]; cbn [filter keys map]; intros N; [constructor|].
  inversion N as [|? ? N0 N1]; subst.
  destruct (f item); [|now apply IH].
  cbn [map]. constructor; [|now apply IH].
  intros I. apply N0. unfold keys in I. apply in_map_iff in I as [y [E I]].
  apply filter_In in I as [I _]. rewrite <- E. now apply in_map.
Qed.

(** What the two loops of the [/api/modify] handler keep of a value map
    with distinct keys: the items whose value has content. *)
Lemma keep_values_blanked (nc : list value) (data : dict value) :
  NoDup (keys data) ->
  keep_values nc (blank_to_none nc data)
  = filter (fun item => has_content (snd item)) data.
Proof.
  intros N. rewrite (blank_to_none_items nc data N). unfold keep_values.
  assert (forall acc,
             fold_left (keep_step nc) (map (blanked nc) data) acc
             = fold_left (fun acc item =>
                            if has_content (snd item)
                            then dict_set (fst item) (snd item) acc else acc)
                         data acc) as ->.
  { clear N. induction data as [|item data IH]; intros acc;
      cbn [map fold_left]; [reflexivity|].
    rewrite keep_step_blanked. apply IH. }
  rewrite (fold_set_distinct
             (fun item => if has_content (snd item)
                          then Some (snd item) else None));
    [|intros acc item; now destruct (has_content (snd item))
     |exact N|intros k []].
  cbn [app]. clear N. induction data as [|[k v] data IH]; [reflexivity|].
  cbn [flat_map filter fst snd]. rewrite IH. now destruct (has_content v).
Qed.

(** A value map with distinct keys whose values all have content goes
    through the loop of [modify_row] as it is. *)
Lemma filter_values_content (nc : list value) (d : dict value) :
  NoDup (keys d) ->
  forallb (fun item => has_content (snd item)) d = true ->
  filter_values nc d = d.
Proof.
  intros N H. unfold filter_values.
  rewrite (fold_set_distinct
             (fun item => if has_content (snd item) then Some (snd item)
                          else if in_columns (fst item) nc
                               then Some VNone else None));
    [|intros acc [k v]; unfold filter_step; cbn [fst snd];
      destruct (has_content v); [reflexivity|];
      destruct (in_columns k nc); reflexivity
     |exact N|intros k []].
  cbn [app]. clear N. induction d as [|[k v] d IH]; [reflexivity|].
  cbn [forallb snd] in H. apply andb_true_iff in H as [Hv H].
  cbn [flat_map fst snd]. rewrite Hv. cbn [app]. f_equal. now apply IH.
Qed.

Section ModifyHandler.
Context (B : Backend).

(** X16.  Of a value map with distinct keys, the [/api/modify] handler
    passes on to [modify_row] exactly the items whose value has content:
    an empty string and a null are left out, whether the column is
    nullable or not.  So whatever the handler sends besides the catalog
    query binds values that all have content: through this handler a
    column is never set to NULL. *)
Theorem modify_handler_sends_content_only
        (table condition : string) (data : dict value) :
  NoDup (keys data) ->
  (forall nc, keep_values nc (blank_to_none nc data)
              = filter (fun item => has_content (snd item)) data)
  /\ adds content_only (api_modify_row B table data condition).
Proof.
  intros N. split; [intros nc; now apply keep_values_blanked|].
  unfold api_modify_row. apply adds_try_except; [|intros; apply adds_ret].
  destruct (table =? ""); [apply adds_ret|].
  destruct (blank condition); [apply adds_ret|].
  apply adds_bind.
  { unfold get_table_info. apply adds_session.
    intros [] S; cbn in *; auto. }
  intros info. apply adds_bind; [apply adds_nullable_names|]. intros nc.
  cbv zeta. rewrite (keep_values_blanked nc data N).
  pose proof (keys_filter_distinct (fun item => has_content (snd item)) data N)
    as Nc.
  assert (forallb (fun item => has_content (snd item))
                  (filter (fun item => has_content (snd item)) data) = true)
    as Hc.
  { apply forallb_forall. intros x I. now apply filter_In in I. }
  destruct (filter (fun item => has_content (snd item)) data)
    as [|x clean] eqn:Ef; [apply adds_ret|].
  apply adds_bind; [|intros; apply adds_ret].
  eapply adds_weaken; [|apply adds_modify_row].
  intros ev U. destruct ev; try exact I.
  cbn [update_event] in U. cbn [content_only].
  destruct U as [U|[nc' [_ U]]]; [now left|]. right.
  rewrite (filter_values_content nc' _ Nc Hc) in U.
  eexists. split; [exact U|].
  clear -Hc. unfold values.
  induction (x :: clean) as [|[k v] l IH]; [reflexivity|].
  cbn [forallb map snd] in *. apply andb_true_iff in Hc as [-> Hc].
  now apply IH.
Qed.
End ModifyHandler.

Lemma modify_handler_sends_content_only_witness :
  keep_values [VStr "nick"]
              (blank_to_none [VStr "nick"]
                             [("name", VStr "bob"); ("nick", VStr "");
                              ("age", VNone)])
  = [("name", VStr "bob")].
Proof.
  destruct (modify_handler_sends_content_only
              (scenario_backend shop) "users" "id = 1"
              [("name", VStr "bob"); ("nick", VStr ""); ("age", VNone)])
    as [K _].
  - repeat constructor; cbn; intuition discriminate.
  - rewrite K. reflexivity.
Defined.

Section RestoreOnce.
Context (B : Backend).

Lemma adds_drop_existing_tables :
  adds no_process (drop_existing_tables B).
Proof.
  unfold drop_existing_tables. apply adds_try_except.
  2:{ intros e. apply adds_print. exact I. }
  apply adds_bind; [apply adds_connect; intros; exact I|]. intros c.
  apply adds_bind; [apply adds_execute; intros; exact I|]. intros cur.
  apply adds_bind.
  { unfold fetchall. destruct (fetched cur); [apply adds_ret | apply adds_raise]. }
  intros tables. apply adds_bind.
  { apply adds_for_each. intros table. unfold drop_step.
    apply adds_bind.
    - unfold row_index. destruct (factory c); try apply adds_raise;
        destruct (nth_error (values table) 0); try apply adds_raise;
        apply adds_ret.
    - intros name. apply adds_bind; [apply adds_execute; intros; exact I|].
      intros; apply adds_ret. }
  intros _. apply adds_bind; [apply adds_commit; intros; exact I|].
  intros _. apply adds_close. exact I.
Qed.

(** X18.  [restore_from_backup] never raises.  For a file that does not
    exist it answers [File not found] and does nothing.  For a file that
    exists it starts [pg_restore] exactly once, with the file as the last
    argument, after the drop phase and whatever that phase did; nothing
    follows it but the printed warning about [transaction_timeout]. *)
Theorem restore_runs_pg_restore_once (w : World B) (backup_file : string) :
  exists ok msg w' evs,
    restore_from_backup B backup_file w = (Val (ok, msg), w') /\
    trace w' = (trace w ++ evs)%list /\
    (path_exists B backup_file (env w) = false ->
     ok = false /\ msg = "File not found: " ++ backup_file /\ evs = []) /\
    (path_exists B backup_file (env w) = true ->
     exists drops rest,
       evs = (drops ++ EvRun (restore_cmd B backup_file) :: rest)%list /\
       Forall no_process drops /\
       (rest = [] \/
        rest = [EvPrint "Warning: transaction_timeout error ignored"])).
Proof.
  unfold restore_from_backup, try_except. unfold bind at 1.
  unfold os_path_exists.
  destruct (path_exists B backup_file (env w)) eqn:Hx; cbn [negb].
  2:{ unfold ret. exists false, ("File not found: " ++ backup_file), w, [].
      rewrite app_nil_r. repeat split. intros; discriminate. }
  unfold bind at 1.
  destruct (adds_drop_existing_tables w) as [o [w1 [drops [Ed [T1 F1]]]]].
  destruct (drop_existing_tables_run B w) as [w1' [evs' [Ed' _]]].
  rewrite Ed in Ed'. injection Ed' as -> <-. rewrite Ed.
  unfold bind at 1. unfold run_process, log, with_env.
  destruct (subprocess_run B (restore_cmd B backup_file) _ (env w1))
    as [[err|p] e].
  - unfold ret. eexists; eexists; eexists; eexists.
    split; [reflexivity|]. cbn [trace].
    split; [rewrite T1, <- app_assoc; reflexivity|].
    split; [intros; discriminate|]. intros _.
    exists drops, []. repeat split; auto.
  - destruct (contains benign_warning (stdout p ++ stderr p)).
    + unfold bind, print, ret, log. cbn [trace env next_conn].
      eexists; eexists; eexists; eexists.
      split; [reflexivity|]. cbn [trace].
      split; [rewrite T1, <- !app_assoc; reflexivity|].
      split; [intros; discriminate|]. intros _.
      exists drops, [EvPrint "Warning: transaction_timeout error ignored"].
      repeat split; auto.
    + destruct (returncode p =? 0)%Z; unfold ret;
        eexists; eexists; eexists; eexists;
        (split; [reflexivity|]); cbn [trace];
        (split; [rewrite T1, <- !app_assoc; reflexivity|]);
        (split; [intros; discriminate|]); intros _;
        exists drops, []; repeat split; auto.
Qed.
End RestoreOnce.

Section Present.
Context (B : Backend).

Lemma table_present_run (names : list string) (table : string) (w : World B) :
  In table names ->
  exists v w' evs,
    table_present B table w = (Val v, w') /\
    trace w' = (trace w ++ evs)%list /\
    Forall (presence_event names) evs.
Proof.
  intros I. unfold table_present, try_except. unfold bind at 1.
  destruct (run_sql_cases B w sql_table_present (PTuple [VStr table]))
    as [r [w1 [evs [-> [T1 C]]]]].
  assert (Forall (presence_event names) evs) as F.
  { assert (bound_params (PTuple [VStr table]) = Some (PTuple [VStr table]))
      as Eb by reflexivity.
    rewrite Eb in C.
    destruct C as [[err [_ ->]]|[[cur [_ ->]]|[[err [_ ->]]|[n [err [_ ->]]]]]];
      repeat constructor; eauto. }
  destruct r as [[|first rest]|]; unfold ret; try (now eauto 6).
  unfold row_key. destruct (dict_get "exists" first); unfold ret, raise.
  - eauto 6.
  - unfold bind, print, ret, log. cbn [trace].
    eexists; eexists; eexists. split; [reflexivity|]. cbn [trace].
    split; [rewrite T1, <- app_assoc; reflexivity|].
    apply Forall_app. split; [exact F|]. repeat constructor.
Qed.

Lemma present_loop_run (names all : list string) (acc : list string)
      (w : World B) :
  incl names all ->
  exists valid w' evs,
    for_fold B names acc
      (fun valid_tables table =>
         bind B (table_present B table)
              (fun present =>
                 if value_truthy present
                 then ret B (valid_tables ++ [table])%list
                 else ret B valid_tables)) w
    = (Val (acc ++ valid)%list, w') /\
    trace w' = (trace w ++ evs)%list /\
    subsequence valid names /\
    Forall (presence_event all) evs.
Proof.
  revert acc w. induction names as [|table names IH]; intros acc w Hi.
  - cbn [for_fold]. unfold ret. exists [], w, []. rewrite !app_nil_r.
    repeat split; constructor.
  - cbn [for_fold]. unfold bind at 1. unfold bind at 1.
    destruct (table_present_run all table w) as [v [w1 [evs1 [-> [T1 F1]]]]];
      [apply Hi; now left|].
    assert (incl names all) as Hi' by (intros x Ix; apply Hi; now right).
    destruct (value_truthy v); unfold ret at 1.
    + destruct (IH (acc ++ [table])%list w1 Hi')
        as [valid [w2 [evs2 [-> [T2 [S2 F2]]]]]].
      exists (table :: valid), w2, (evs1 ++ evs2)%list.
      rewrite <- app_assoc. split; [reflexivity|].
      split; [rewrite T2, T1, <- app_assoc; reflexivity|].
      split; [now constructor | now apply Forall_app].
    + destruct (IH acc w1 Hi') as [valid [w2 [evs2 [-> [T2 [S2 F2]]]]]].
      exists valid, w2, (evs1 ++ evs2)%list. split; [reflexivity|].
      split; [rewrite T2, T1, <- app_assoc; reflexivity|].
      split; [now constructor | now apply Forall_app].
Qed.

(** X19.  The loop that keeps the tables that exist never raises.  What
    it keeps is made of the names it was given, in their order; and the
    only statement it sends is the presence query, bound to one of the
    names. *)
Theorem present_tables_keeps_order (w : World B) (table_names : list string) :
  exists valid_tables w' evs,
    present_tables B table_names w = (Val valid_tables, w') /\
    trace w' = (trace w ++ evs)%list /\
    subsequence valid_tables table_names /\
    Forall (presence_event table_names) evs.
Proof.
  destruct (present_loop_run table_names table_names [] w (incl_refl _))
    as [valid [w' [evs [E R]]]].
  exists valid, w', evs. split; [exact E | exact R].
Qed.
End Present.

(** X21.  The page of the table editor.  Whatever page is asked for, the
    page shown lies between 1 and the number of pages, and is the page
    asked for when that one exists; the offset is a multiple of the page
    size, is never negative, and points at a row of the table whenever
    the table has rows; and the pages cover the table. *)
Theorem page_window_bounds (total page : Z) :
  let '(pages, shown, offset) := page_window total page in
  (1 <= shown <= pages)%Z
  /\ offset = ((shown - 1) * per_page)%Z
  /\ (0 <= offset)%Z
  /\ ((0 < total)%Z -> (offset < total)%Z)
  /\ ((1 <= page <= pages)%Z -> shown = page)
  /\ (total <= pages * per_page)%Z
  /\ ((0 < total)%Z -> ((pages - 1) * per_page < total)%Z).
Proof.
  unfold page_window, per_page.
  pose proof (Z.mul_div_le (total + 200 - 1) 200 ltac:(lia)) as L.
  pose proof (Z.mul_succ_div_gt (total + 200 - 1) 200 ltac:(lia)) as U.
  set (q := ((total + 200 - 1) / 200)%Z) in *.
  destruct (page <? 1)%Z eqn:E1;
    [apply Z.ltb_lt in E1 | apply Z.ltb_ge in E1];
    match goal with
    | |- context [(?a >? ?b)%Z] =>
        destruct (a >? b)%Z eqn:E2;
        [apply Z.gtb_lt in E2 | rewrite Z.gtb_ltb in E2; apply Z.ltb_ge in E2]
    end;
    repeat split; lia.
Qed.

Lemma statements_app (a b : list event) :
  statements (a ++ b) = (statements a ++ statements b)%list.
Proof. apply flat_map_app. Qed.

Section QueryStatements.
Context (B : Backend).

Lemma execute_val (c : conn) (sql : string) (p : option pyparams)
      (w w' : World B) (cur : cursor_state) :
  execute B c sql p w = (Val cur, w') ->
  trace w' = (trace w ++ [EvExecute (handle c) sql p (inr (rowcount cur))])%list.
Proof.
  intros E.
  destruct (execute_run B c sql p w)
    as [[cur' [w1 [E' [_ T]]]]|[err [w1 [E' _]]]];
    rewrite E in E'; [|discriminate E'].
  now injection E' as <- <-.
Qed.

Lemma commit_val (c : conn) (w w' : World B) :
  commit B c w = (Val tt, w') ->
  trace w' = (trace w ++ [EvCommit (handle c) None])%list.
Proof.
  intros E.
  destruct (commit_run B c w) as [[w1 [E' [_ T]]]|[err [w1 [E' _]]]];
    rewrite E in E'; [|discriminate E'].
  now injection E' as <-.
Qed.

Lemma insert_loop_val (c : conn) (temp_table : string) (columns : list string)
      (data : list row) (w w' : World B) :
  for_each B data (insert_step B c temp_table columns) w = (Val tt, w') ->
  exists evs,
    trace w' = (trace w ++ evs)%list /\
    statements evs
    = map (fun r => (insert_temp_sql temp_table columns,
                     Some (PList (text_values columns r)))) data.
Proof.
  revert w. induction data as [|r data IH]; intros w E.
  - cbn [for_each] in E. unfold ret in E. injection E as <-.
    exists []. now rewrite app_nil_r.
  - cbn [for_each] in E. apply bind_val in E as [[] [w1 [E1 E]]].
    unfold insert_step in E1. apply bind_val in E1 as [cur [w2 [E1 E2]]].
    unfold ret in E2. injection E2 as <-.
    apply execute_val in E1. apply IH in E as [evs [T S]].
    eexists. split; [rewrite T, E1, <- app_assoc; reflexivity|].
    rewrite statements_app, S. reflexivity.
Qed.

(** X22.  When [save_query_to_xlsx] hands back a file, the statements it
    sent are, in this order: the CREATE of a temporary table whose
    columns are the keys of the first row, all of type TEXT; one INSERT
    per row of the result, in the order of the rows, each binding the
    texts of the values of that row under those columns; the SELECT of
    the temporary table; and its DROP. *)
Theorem query_export_statements (w w' : World B) (data : list row)
        (query_name path name : string) :
  save_query_to_xlsx B data query_name w = (Val (Some path, name), w') ->
  exists stamp evs,
    let temp_table := "temp_export_" ++ stamp in
    let columns := keys (hd [] data) in
    trace w' = (trace w ++ evs)%list /\
    statements evs
    = ((create_temp_sql temp_table columns, None)
         :: map (fun r => (insert_temp_sql temp_table columns,
                           Some (PList (text_values columns r)))) data
         ++ [(("SELECT * FROM " ++ temp_table)%string, None);
             (("DROP TABLE IF EXISTS " ++ temp_table)%string, None)])%list.
Proof.
  unfold save_query_to_xlsx. intros E.
  apply try_except_val in E as [[r [Er E]]|[e [w1 [? E]]]];
    [|discriminate E].
  injection Er as <-.
  destruct data as [|first_row rest]; [discriminate E|].
  apply bind_val in E as [stamp [w1 [E1 E]]].
  apply bind_val in E as [c [w2 [E2 E]]].
  destruct c as [c|]; [|discriminate E].
  apply try_finally_val in E as [w3 [E Ec]].
  apply try_except_val in E as [[r [Er E]]|[e [w4 [? E]]]].
  2:{ apply bind_val in E as [? [? [? E]]]. discriminate E. }
  injection Er as <-. cbv zeta in E.
  apply bind_val in E as [cur4 [w4 [E4 E]]].
  apply bind_val in E as [[] [w5 [E5 E]]].
  apply bind_val in E as [[] [w6 [E6 E]]].
  apply bind_val in E as [save_dir [w7 [E7 E]]].
  apply bind_val in E as [stamp' [w8 [E8 E]]].
  apply bind_val in E as [cur [w9 [E9 E]]].
  apply bind_val in E as [rows [w10 [E10 E]]].
  apply bind_val in E as [[] [w11 [Ex E]]].
  apply bind_val in E as [cur' [w12 [Ed E]]].
  apply bind_val in E as [[] [w13 [Em E]]].
  unfold ret in E. injection E as _ _ <-.
  destruct (now_run B (Strftime "%H%M%S") w) as [s1 [w1' [E1' T1]]].
  rewrite E1 in E1'. injection E1' as <- <-.
  destruct (get_db_connection_cases B false w1)
    as [[c' [w2' [E2' [_ [_ [_ T2]]]]]]|[err [w2' [E2' _]]]];
    rewrite E2 in E2'; [|discriminate E2'].
  injection E2' as <- <-.
  apply execute_val in E4, E9, Ed. apply commit_val in E6, Em.
  apply insert_loop_val in E5 as [inserts [T5 S5]].
  destruct (create_folder_run B (folders "exports") w6)
    as [o [w7' [dir [E7' [T7 _]]]]].
  rewrite E7 in E7'. injection E7' as <- <-.
  destruct (now_run B (Strftime "%H%M%S") w7) as [s8 [w8' [E8' T8]]].
  rewrite E8 in E8'. injection E8' as <- <-.
  assert (w10 = w9) as ->.
  { unfold fetchall in E10. destruct (fetched cur); [|discriminate E10].
    unfold ret in E10. now injection E10. }
  apply write_excel_val in Ex.
  destruct (close_run B c w13) as [wc [Ec' [_ Tc]]].
  rewrite Ec in Ec'. injection Ec' as <-.
  exists stamp. eexists. cbv zeta. cbn [hd]. split.
  - rewrite Tc, Em, Ed, Ex, E9, T8, T7, E6, T5, E4, T2, T1, <- !app_assoc.
    reflexivity.
  - cbn [app statements flat_map]. rewrite !statements_app, S5.
    cbn [statements flat_map app]. reflexivity.
Qed.
End QueryStatements.

Lemma query_export_statements_witness :
  exists stamp evs,
    statements evs
    = [(create_temp_sql ("temp_export_" ++ stamp) ["id"], None);
       (insert_temp_sql ("temp_export_" ++ stamp) ["id"],
        Some (PList [VStr "None"]));
       ("SELECT * FROM " ++ "temp_export_" ++ stamp, None);
       ("DROP TABLE IF EXISTS " ++ "temp_export_" ++ stamp, None)].
Proof.
  pose (B := scenario_backend shop).
  pose (w' := snd (save_query_to_xlsx B [[("id", VNone)]] "result" (start shop))).
  assert (save_query_to_xlsx B [[("id", VNone)]] "result" (start shop)
          = (Val (Some "/app/exports/20240101_101500/result_101500.xlsx",
                  "result_101500.xlsx"), w')) as E
      by (vm_compute; reflexivity).
  destruct (query_export_statements B (start shop) w' _ _ _ _ E)
    as [stamp [evs [_ S]]].
  exists stamp, evs. rewrite S. reflexivity.
Defined.

Section Offline.
Context (B : Backend).

Lemma always_ret {A : Type} (a : A) : always (ret B a) a.
Proof. intros w. exists w, []. rewrite app_nil_r. repeat split. constructor. Qed.

Lemma always_bind {A C : Type} (m : M B A) (k : A -> M B C) (a : A) (c : C) :
  always m a -> always (k a) c -> always (bind B m k) c.
Proof.
  intros Hm Hk w. unfold bind.
  destruct (Hm w) as [w1 [evs1 [-> [T1 F1]]]].
  destruct (Hk w1) as [w2 [evs2 [-> [T2 F2]]]].
  exists w2, (evs1 ++ evs2)%list. split; [reflexivity|].
  split; [now rewrite T2, T1, app_assoc | now apply Forall_app].
Qed.

Lemma always_bind_any {A C : Type} (m : M B A) (k : A -> M B C) (c : C) :
  (forall w, exists a w', m w = (Val a, w') /\ trace w' = trace w) ->
  (forall a, always (k a) c) -> always (bind B m k) c.
Proof.
  intros Hm Hk w. unfold bind.
  destruct (Hm w) as [a [w1 [-> T1]]].
  destruct (Hk a w1) as [w2 [evs2 [-> [T2 F2]]]].
  exists w2, evs2. split; [reflexivity|]. split; [now rewrite T2, T1 | exact F2].
Qed.

Lemma always_try_except {A : Type} (body : M B A) (handler : string -> M B A)
      (a : A) :
  always body a -> always (try_except B body handler) a.
Proof.
  intros H w. unfold try_except. destruct (H w) as [w1 [evs [-> R]]].
  now exists w1, evs.
Qed.

Hypothesis down : unreachable B.

Lemma get_db_connection_offline (dict_mode : bool) :
  always (get_db_connection B dict_mode) None.
Proof.
  intros w. unfold get_db_connection, try_except, bind, connect.
  destruct (down (if dict_mode then RealDictCursor else DictCursor) (env w))
    as [err [e ->]].
  unfold print, ret, log, with_env. cbn [trace env next_conn].
  eexists; eexists. split; [reflexivity|]. cbn [trace].
  split; [rewrite <- app_assoc; reflexivity|]. repeat constructor.
Qed.

Lemma run_sql_offline (sql : string) (p : pyparams) :
  always (run_sql B sql p) None.
Proof.
  unfold run_sql. eapply always_bind; [apply get_db_connection_offline|].
  apply always_ret.
Qed.

Lemma table_present_offline (table : string) :
  always (table_present B table) (VBool false).
Proof.
  unfold table_present. apply always_try_except.
  eapply always_bind; [apply run_sql_offline | apply always_ret].
Qed.

Lemma present_tables_offline (names acc : list string) :
  always (for_fold B names acc
            (fun valid_tables table =>
               bind B (table_present B table)
                    (fun present =>
                       if value_truthy present
                       then ret B (valid_tables ++ [table])%list
                       else ret B valid_tables))) acc.
Proof.
  induction names as [|table names IH]; cbn [for_fold]; [apply always_ret|].
  eapply always_bind; [|exact IH].
  eapply always_bind; [apply table_present_offline|]. apply always_ret.
Qed.

End Offline.


Section TableBackup.
Context (B : Backend).

End TableBackup.

Section SaveSql.
Context (B : Backend).

(** X24.  Under a format other than [csv], the [/api/save_sql] handler
    runs the statement first, whatever the format, and does nothing
    after it: it writes no file.  With rows fetched it answers with the
    rows as a JSON document named [sql_result_<time>.json] for the format
    [json], and with [Unknown format] for any other; with no row, or when
    the statement failed, it answers [No data to save]. *)
Theorem save_sql_result_other_formats
        (w : World B) (sql params format : string) (p : pyparams) :
  format <> "csv" ->
  exists r w' data w1,
    api_save_sql_result B sql params (inr p) format w = (Val r, w') /\
    run_sql B sql (effective_params params p) w = (Val data, w1) /\
    trace w' = trace w1 /\
    match data with
    | Some ((_ :: _) as rows) =>
        if format =? "json"
        then exists stamp,
            r = HJsonDoc ("sql_result_" ++ stamp ++ ".json") rows
        else r = HJson false [("error", VStr ("Unknown format: " ++ format))]
    | _ => r = HJson false [("error", VStr "No data to save")]
    end.
Proof.
  intros Nc. apply String.eqb_neq in Nc. unfold api_save_sql_result.
  assert ((if negb (params =? "") && negb (strip params =? "")
           then @inr http_response pyparams p
           else inr (PDict []))
          = inr (effective_params params p)) as ->.
  { unfold effective_params, blank.
    now destruct (params =? ""), (strip params =? ""). }
  destruct (run_sql_cases B w sql (effective_params params p))
    as [data [w1 [evs [E _]]]].
  rewrite (try_except_bind_val B _ _ _ _ _ _ E). rewrite Nc.
  destruct data as [[|row0 rows]|];
    try (unfold try_except, ret; eexists; eexists; eexists; eexists;
         split; [reflexivity|]; split; [exact E|]; split; reflexivity).
  destruct (format =? "json").
  - unfold try_except. unfold bind at 1.
    destruct (now_run B (Strftime "%Y%m%d_%H%M%S") w1) as [stamp [w2 [-> T2]]].
    unfold ret. eexists; eexists; eexists; eexists.
    split; [reflexivity|]. split; [exact E|]. split; [exact T2|].
    now exists stamp.
  - unfold try_except, ret. eexists; eexists; eexists; eexists.
    split; [reflexivity|]. split; [exact E|]. split; reflexivity.
Qed.
End SaveSql.

Lemma save_sql_result_other_formats_witness :
  fst (api_save_sql_result (scenario_backend shop) "SELECT * FROM users" ""
                           (inr (PDict [])) "pdf" (start shop))
  = Val (HJson false [("error", VStr "Unknown format: pdf")]).
Proof.
  destruct (save_sql_result_other_formats
              (scenario_backend shop) (start shop) "SELECT * FROM users" ""
              "pdf" (PDict []) ltac:(discriminate))
    as [r [w' [data [w1 [E [Er [_ M]]]]]]].
  rewrite E. vm_compute in Er. injection Er as <- _.
  cbn in M. now rewrite M.
Defined.
